(** * Forecast enrichment engine of the VIEWS conflict-forecast API

    A shallow embedding of [services/forecast_service.py],
    [services/data_service.py], [models/schemas.py] and
    [utils/exceptions.py], followed by the properties of the enrichment
    engine that the specification states.

    Conventions of the embedding:
    - Python [int] is [Z]; Python [float] is [Q] (exact rationals: rounding
      of binary floating point, NaN and infinities are not represented);
    - a pandas DataFrame is the list of its rows, in row order. An optional
      float cell is an [option]: [None] says that the frame has no such
      column, which is when [Series.get] returns [None] (or its default).
      A column is therefore given in every row of a table or in none
      ([Frame.column]); a NaN cell of an existing column is not
      represented (the code raises on a NaN [main_dich] and on a NaN
      coordinate). For [country_id], which the code only reads through
      [pd.isna] and [pd.notna], [None] stands for a NaN cell as well;
    - a row that [iterrows()] yields is one Series with one dtype: the
      integer cells of a frame that has a float column come back as
      [numpy.float64]. The rows of the primary table carry that dtype
      ([Pgm.dtype]); it shows wherever the code takes [str()] of a cell;
    - a Python dict is a [gmap], or the list of its items in insertion
      order where the order of its keys shows in a result ([Py.dict]); an
      exception is the [Err] branch of [result];
    - numpy's global generator is an explicit [mt19937_state] threaded
      through the calls that touch it;
    - [hashlib.md5] and numpy's legacy [RandomState] are library code: they
      are embedded from their reference algorithms (RFC 1321, MT19937) so
      that every definition below evaluates on concrete inputs;
    - FastAPI's routing and request validation run before a handler of
      [main.py] is called and are library code that is not embedded: the
      definitions of [Main] are the handler bodies, on arguments that have
      passed that validation (a request that fails it is answered 422
      without the handler being called). *)

From Stdlib Require Import ZArith QArith Qround List String Ascii Lia Lqa DecimalString.
From stdpp Require Import gmap strings list sorting.

Local Open Scope Z_scope.

(** ** Python primitives *)

Module Py.

(** [str(n)] for an integer. *)
Definition str (z : Z) : string := NilZero.string_of_int (Z.to_int z).

(** The dtype of a row Series, and an integer cell read from one.
    [Float64 z] is the [numpy.float64] whose value is the integer [z]: what
    an integer cell becomes in a row of [iterrows()] when the columns of
    the frame are integers and floats. In a row of dtype [object] (a frame
    with a column of another kind, such as strings) every cell keeps its
    own type. *)
Inductive dtype : Type :=
| int64
| float64
| object_.

Inductive number : Type :=
| Int (z : Z)
| Float64 (z : Z).

Definition scalar (d : dtype) (z : Z) : number :=
  match d with
  | int64 => Int z
  | float64 => Float64 z
  | object_ => Int z
  end.

(** [str(x)] of such a scalar: an integer prints its decimal digits; a
    float of integral value prints them followed by [.0] (as long as its
    magnitude is below [10^16], where the repr of a float changes to
    exponent notation; a float holds every integer up to [2^53]). *)
Definition str_number (x : number) : string :=
  match x with
  | Int z => str z
  | Float64 z => str z +:+ ".0"
  end.

(** [s.encode()]: the code points of the characters. *)
Definition encode (s : string) : list Z :=
  map (fun c => Z.of_nat (nat_of_ascii c)) (list_ascii_of_string s).

(** [int(x)] for a float: truncation toward zero. *)
Definition int (x : Q) : Z := Z.quot (Qnum x) (Z.pos (Qden x)).

(** [max(a, b)] and [min(a, b)]: the first argument wins ties. *)
Definition max (a b : Q) : Q := if Qle_bool b a then a else b.
Definition min (a b : Q) : Q := if Qle_bool a b then a else b.

(** Truthiness of an [Optional[int]] and of a list. *)
Definition truthy_int (x : option Z) : bool :=
  match x with
  | Some v => negb (v =? 0)
  | None => false
  end.

Definition truthy_list {A} (l : list A) : bool :=
  match l with
  | [] => false
  | _ :: _ => true
  end.

(** [a or b] on optional floats. *)
Definition or_float (a b : option Q) : option Q :=
  match a with
  | Some v => if Qeq_bool v 0 then b else Some v
  | None => b
  end.

(** [x in l] and [Series.isin(l)] on integers. *)
Definition isin (x : Z) (l : list Z) : bool := existsb (Z.eqb x) l.

(** The format specification [:02d]. *)
Definition format_02d (z : Z) : string :=
  let s := str z in
  if (String.length s <? 2)%nat then String "0" s else s.

(** [str(l)] for a list of integers, as in an f-string. *)
Fixpoint join_ints (l : list Z) : string :=
  match l with
  | [] => EmptyString
  | [x] => str x
  | x :: l' => str x +:+ ", " +:+ join_ints l'
  end.

Definition str_list (l : list Z) : string := "[" +:+ join_ints l +:+ "]".

(** [int(s, 16)]: [None] stands for the [ValueError] of a malformed literal. *)
Definition hex_value (c : ascii) : option Z :=
  let n := Z.of_nat (nat_of_ascii c) in
  if (48 <=? n) && (n <=? 57) then Some (n - 48)
  else if (97 <=? n) && (n <=? 102) then Some (n - 87)
  else if (65 <=? n) && (n <=? 70) then Some (n - 55)
  else None.

Fixpoint int16_acc (acc : Z) (s : string) : option Z :=
  match s with
  | EmptyString => Some acc
  | String c s' =>
      match hex_value c with
      | Some d => int16_acc (16 * acc + d) s'
      | None => None
      end
  end.

Definition int16 (s : string) : option Z :=
  match s with
  | EmptyString => None
  | _ => int16_acc 0 s
  end.

(** A dict whose order of keys shows in a result: the list of its items
    in insertion order, with distinct keys. [d.get(k)] and [d.keys()]. *)
Definition dict (V : Type) : Type := list (Z * V).

Definition dict_get {V} (d : dict V) (k : Z) : option V :=
  match List.find (fun kv : Z * V => fst kv =? k) d with
  | Some kv => Some (snd kv)
  | None => None
  end.

Definition dict_keys {V} (d : dict V) : list Z := map fst d.

(** [s[:n]]. *)
Fixpoint prefix (n : nat) (s : string) : string :=
  match n, s with
  | S n', String c s' => String c (prefix n' s')
  | _, _ => EmptyString
  end.

End Py.

(** ** [hashlib.md5] (RFC 1321) *)

Module MD5.

Definition mask32 : Z := 0xffffffff.
Definition add32 (x y : Z) : Z := Z.land (x + y) mask32.
Definition not32 (x : Z) : Z := Z.land (Z.lnot x) mask32.

Definition leftrotate (x c : Z) : Z :=
  Z.land (Z.lor (Z.shiftl x c) (Z.shiftr x (32 - c))) mask32.

Definition s : list Z :=
  [7; 12; 17; 22; 7; 12; 17; 22; 7; 12; 17; 22; 7; 12; 17; 22;
   5; 9; 14; 20; 5; 9; 14; 20; 5; 9; 14; 20; 5; 9; 14; 20;
   4; 11; 16; 23; 4; 11; 16; 23; 4; 11; 16; 23; 4; 11; 16; 23;
   6; 10; 15; 21; 6; 10; 15; 21; 6; 10; 15; 21; 6; 10; 15; 21].

Definition K : list Z :=
  [0xd76aa478; 0xe8c7b756; 0x242070db; 0xc1bdceee;
   0xf57c0faf; 0x4787c62a; 0xa8304613; 0xfd469501;
   0x698098d8; 0x8b44f7af; 0xffff5bb1; 0x895cd7be;
   0x6b901122; 0xfd987193; 0xa679438e; 0x49b40821;
   0xf61e2562; 0xc040b340; 0x265e5a51; 0xe9b6c7aa;
   0xd62f105d; 0x02441453; 0xd8a1e681; 0xe7d3fbc8;
   0x21e1cde6; 0xc33707d6; 0xf4d50d87; 0x455a14ed;
   0xa9e3e905; 0xfcefa3f8; 0x676f02d9; 0x8d2a4c8a;
   0xfffa3942; 0x8771f681; 0x6d9d6122; 0xfde5380c;
   0xa4beea44; 0x4bdecfa9; 0xf6bb4b60; 0xbebfbc70;
   0x289b7ec6; 0xeaa127fa; 0xd4ef3085; 0x04881d05;
   0xd9d4d039; 0xe6db99e5; 0x1fa27cf8; 0xc4ac5665;
   0xf4292244; 0x432aff97; 0xab9423a7; 0xfc93a039;
   0x655b59c3; 0x8f0ccc92; 0xffeff47d; 0x85845dd1;
   0x6fa87e4f; 0xfe2ce6e0; 0xa3014314; 0x4e0811a1;
   0xf7537e82; 0xbd3af235; 0x2ad7d2bb; 0xeb86d391].

Fixpoint to_le_bytes (n : nat) (w : Z) : list Z :=
  match n with
  | O => []
  | S n' => (w mod 256) :: to_le_bytes n' (w / 256)
  end.

Fixpoint from_le_bytes (bs : list Z) : Z :=
  match bs with
  | [] => 0
  | b :: bs' => b + 256 * from_le_bytes bs'
  end.

(** The message, one 1 bit, zeros up to 56 modulo 64, the bit length. *)
Definition padding (msg : list Z) : list Z :=
  let len := Z.of_nat (length msg) in
  msg ++ [0x80] ++ repeat 0 (Z.to_nat ((55 - len) mod 64)) ++ to_le_bytes 8 (8 * len).

Fixpoint words (n : nat) (bs : list Z) : list Z :=
  match n with
  | O => []
  | S n' => from_le_bytes (take 4 bs) :: words n' (drop 4 bs)
  end.

Definition state : Type := Z * Z * Z * Z.

Definition step (Mw : list Z) (st : state) (i : nat) : state :=
  let '(A, B, C, D) := st in
  let '(F, g) :=
    if (i <? 16)%nat then (Z.lor (Z.land B C) (Z.land (not32 B) D), i)
    else if (i <? 32)%nat then (Z.lor (Z.land D B) (Z.land (not32 D) C), (5 * i + 1) mod 16)%nat
    else if (i <? 48)%nat then (Z.lxor (Z.lxor B C) D, (3 * i + 5) mod 16)%nat
    else (Z.lxor C (Z.lor B (not32 D)), (7 * i) mod 16)%nat in
  let F := add32 (add32 (add32 F A) (nth i K 0)) (nth g Mw 0) in
  (D, add32 B (leftrotate F (nth i s 0)), B, C).

Definition process_chunk (h : state) (chunk : list Z) : state :=
  let '(a0, b0, c0, d0) := h in
  let '(A, B, C, D) := foldl (step (words 16 chunk)) h (seq 0 64) in
  (add32 a0 A, add32 b0 B, add32 c0 C, add32 d0 D).

Fixpoint process (n : nat) (h : state) (bs : list Z) : state :=
  match n with
  | O => h
  | S n' => process n' (process_chunk h (take 64 bs)) (drop 64 bs)
  end.

Definition digest (msg : list Z) : list Z :=
  let padded := padding msg in
  let '(a0, b0, c0, d0) :=
    process (length padded / 64) (0x67452301, 0xefcdab89, 0x98badcfe, 0x10325476) padded in
  to_le_bytes 4 a0 ++ to_le_bytes 4 b0 ++ to_le_bytes 4 c0 ++ to_le_bytes 4 d0.

Definition hex_digit (d : Z) : ascii :=
  ascii_of_nat (Z.to_nat (if d <? 10 then 48 + d else 87 + d)).

Fixpoint hex_of_bytes (bs : list Z) : string :=
  match bs with
  | [] => EmptyString
  | b :: bs' => String (hex_digit (b / 16)) (String (hex_digit (b mod 16)) (hex_of_bytes bs'))
  end.

Definition hexdigest (msg : list Z) : string := hex_of_bytes (digest msg).

End MD5.

(** ** numpy's legacy global generator (MT19937) *)

Module MT19937.

Definition RK_STATE_LEN : nat := 624.
Definition N : nat := 624.
Definition M : nat := 397.
Definition MATRIX_A : Z := 0x9908b0df.
Definition UPPER_MASK : Z := 0x80000000.
Definition LOWER_MASK : Z := 0x7fffffff.

Record mt19937_state : Type := { key : list Z; pos : nat }.

Fixpoint seed_loop (n : nat) (pos : Z) (seed : Z) : list Z :=
  match n with
  | O => []
  | S n' =>
      seed :: seed_loop n' (pos + 1)
                (Z.land (1812433253 * Z.lxor seed (Z.shiftr seed 30) + pos + 1) 0xffffffff)
  end.

(** [np.random.seed(seed)] for an integer seed. *)
Definition mt19937_seed (seed : Z) : mt19937_state :=
  {| key := seed_loop RK_STATE_LEN 0 (Z.land seed 0xffffffff); pos := RK_STATE_LEN |}.

Definition key_at (k : list Z) (i : nat) : Z := default 0 (k !! i).

(** One word of the twist: [key[i]] from [key[i]], [key[j]] and [key[m]]. *)
Definition gen_word (k : list Z) (i j m : nat) : list Z :=
  let y := Z.lor (Z.land (key_at k i) UPPER_MASK) (Z.land (key_at k j) LOWER_MASK) in
  <[ i := Z.lxor (Z.lxor (key_at k m) (Z.shiftr y 1)) (Z.land (- Z.land y 1) MATRIX_A) ]> k.

Fixpoint gen_loop (n : nat) (i : nat) (off : nat -> nat) (k : list Z) : list Z :=
  match n with
  | O => k
  | S n' => gen_loop n' (S i) off (gen_word k i (S i) (off i))
  end.

Definition mt19937_gen (st : mt19937_state) : mt19937_state :=
  let k1 := gen_loop (N - M) 0 (fun i => i + M)%nat (key st) in
  let k2 := gen_loop (M - 1) (N - M) (fun i => i - (N - M))%nat k1 in
  let k3 := gen_word k2 (N - 1) 0 (M - 1) in
  {| key := k3; pos := 0 |}.

Definition mt19937_next (st : mt19937_state) : Z * mt19937_state :=
  let st := if Nat.eqb (pos st) RK_STATE_LEN then mt19937_gen st else st in
  let y := key_at (key st) (pos st) in
  let st := {| key := key st; pos := S (pos st) |} in
  let y := Z.lxor y (Z.shiftr y 11) in
  let y := Z.lxor y (Z.land (Z.shiftl y 7) 0x9d2c5680) in
  let y := Z.lxor y (Z.land (Z.shiftl y 15) 0xefc60000) in
  let y := Z.lxor y (Z.shiftr y 18) in
  (Z.land y 0xffffffff, st).

(** A double in [0, 1) with 53 random bits. *)
Definition mt19937_next_double (st : mt19937_state) : Q * mt19937_state :=
  let '(x, st) := mt19937_next st in
  let '(y, st) := mt19937_next st in
  let a := Z.shiftr x 5 in
  let b := Z.shiftr y 6 in
  ((inject_Z (a * 67108864 + b) / inject_Z 9007199254740992)%Q, st).

(** [np.random.uniform(low, high)]. *)
Definition uniform (low high : Q) (st : mt19937_state) : Q * mt19937_state :=
  let '(r, st) := mt19937_next_double st in
  ((low + (high - low) * r)%Q, st).

End MT19937.

(** ** [utils/exceptions.py], and the built-in exceptions the code can raise *)

Module Exceptions.

Inductive exception : Type :=
| DataNotFoundError (msg : string)
| ValidationError (msg : string)
| DataLoadError (msg : string)
| ConfigurationError (msg : string)
| KeyError (msg : string)
| TypeError (msg : string)
| ValueError (msg : string)
| PydanticValidationError (msg : string).

Inductive result (A : Type) : Type :=
| Ok (a : A)
| Err (e : exception).

Arguments Ok {A} a.
Arguments Err {A} e.

Definition is_Ok {A} (r : result A) : bool :=
  match r with
  | Ok _ => true
  | Err _ => false
  end.

End Exceptions.
Export Exceptions.

(** ** [models/schemas.py] *)

Module Schemas.

Inductive ConflictType : Type :=
| STATE_BASED
| NON_STATE
| ONE_SIDED.

Definition ConflictType_value (c : ConflictType) : string :=
  match c with
  | STATE_BASED => "sb"
  | NON_STATE => "ns"
  | ONE_SIDED => "os"
  end.

(** [ConflictType(tag)]: lookup of a member by value. *)
Definition ConflictType_of_value (tag : string) : option ConflictType :=
  if String.eqb tag "sb" then Some STATE_BASED
  else if String.eqb tag "ns" then Some NON_STATE
  else if String.eqb tag "os" then Some ONE_SIDED
  else None.

(** [conflict_types] is declared [List[ConflictType]]: the constructor
    ([MetricSelection_init]) admits members of the enum only, so an object
    it has built never holds another tag. The model sets no
    [validate_assignment], so the field is not checked when it is assigned
    afterwards ([m.conflict_types = ['xyz']]); that is the one way an object
    comes to hold an unknown tag ([with_conflict_types]). The field holds
    the tags as strings so that such an object can be written down. *)
Record MetricSelection : Type := {
  include_map : bool;
  include_hdi_50 : bool;
  include_hdi_90 : bool;
  include_hdi_99 : bool;
  include_thresholds : bool;
  conflict_types : list string
}.

(** [MetricSelection()]: the field defaults. *)
Definition MetricSelection_default : MetricSelection :=
  {| include_map := true;
     include_hdi_50 := false;
     include_hdi_90 := true;
     include_hdi_99 := false;
     include_thresholds := true;
     conflict_types := [ConflictType_value STATE_BASED] |}.

(** [MetricSelection(...)]: every tag must be a [ConflictType] value. *)
Definition MetricSelection_init (map h50 h90 h99 thr : bool) (tags : list string)
  : result MetricSelection :=
  if forallb (fun t => bool_decide (is_Some (ConflictType_of_value t))) tags
  then Ok {| include_map := map;
             include_hdi_50 := h50;
             include_hdi_90 := h90;
             include_hdi_99 := h99;
             include_thresholds := thr;
             conflict_types := tags |}
  else Err (PydanticValidationError "value is not a valid enumeration member").

(** [m.conflict_types = tags], unchecked. *)
Definition with_conflict_types (m : MetricSelection) (tags : list string) : MetricSelection :=
  {| include_map := include_map m;
     include_hdi_50 := include_hdi_50 m;
     include_hdi_90 := include_hdi_90 m;
     include_hdi_99 := include_hdi_99 m;
     include_thresholds := include_thresholds m;
     conflict_types := tags |}.

Record GridCellData : Type := {
  grid_id : Z;
  month_id : Z;
  country_id : option Z;
  latitude : option Q;
  longitude : option Q;
  main_mean : option Q;
  main_mean_ln : option Q;
  main_dich : option Q;
  hdi_50_lower : option Q;
  hdi_50_upper : option Q;
  hdi_90_lower : option Q;
  hdi_90_upper : option Q;
  hdi_99_lower : option Q;
  hdi_99_upper : option Q;
  threshold_1 : option Q;
  threshold_2 : option Q;
  threshold_3 : option Q;
  threshold_4 : option Q;
  threshold_5 : option Q;
  threshold_6 : option Q;
  conflict_type : option ConflictType;
  country_name : option string;
  year : option Z;
  month : option Z
}.

Definition validate_latitude (v : option Q) : result (option Q) :=
  match v with
  | Some x =>
      if negb (Qle_bool (-90) x && Qle_bool x 90)
      then Err (PydanticValidationError "Latitude must be between -90 and 90")
      else Ok v
  | None => Ok v
  end.

Definition validate_longitude (v : option Q) : result (option Q) :=
  match v with
  | Some x =>
      if negb (Qle_bool (-180) x && Qle_bool x 180)
      then Err (PydanticValidationError "Longitude must be between -180 and 180")
      else Ok v
  | None => Ok v
  end.

(** [GridCellData(...)]: the record, once both validators accept. *)
Definition GridCellData_init (cell : GridCellData) : result GridCellData :=
  match validate_latitude (latitude cell) with
  | Err e => Err e
  | Ok _ =>
      match validate_longitude (longitude cell) with
      | Err e => Err e
      | Ok _ => Ok cell
      end
  end.

(** A nullable field of any of the field types, for [GridCellData_dict]. *)
Inductive value : Type :=
| VInt (z : Z)
| VFloat (q : Q)
| VStr (s : string)
| VConflict (c : ConflictType)
| VNone.

Definition opt_value {A} (f : A -> value) (o : option A) : value :=
  match o with
  | Some a => f a
  | None => VNone
  end.

(** [cell.dict()]: the fields in declaration order. *)
Definition GridCellData_dict (c : GridCellData) : list (string * value) :=
  [("grid_id", VInt (grid_id c));
   ("month_id", VInt (month_id c));
   ("country_id", opt_value VInt (country_id c));
   ("latitude", opt_value VFloat (latitude c));
   ("longitude", opt_value VFloat (longitude c));
   ("main_mean", opt_value VFloat (main_mean c));
   ("main_mean_ln", opt_value VFloat (main_mean_ln c));
   ("main_dich", opt_value VFloat (main_dich c));
   ("hdi_50_lower", opt_value VFloat (hdi_50_lower c));
   ("hdi_50_upper", opt_value VFloat (hdi_50_upper c));
   ("hdi_90_lower", opt_value VFloat (hdi_90_lower c));
   ("hdi_90_upper", opt_value VFloat (hdi_90_upper c));
   ("hdi_99_lower", opt_value VFloat (hdi_99_lower c));
   ("hdi_99_upper", opt_value VFloat (hdi_99_upper c));
   ("threshold_1", opt_value VFloat (threshold_1 c));
   ("threshold_2", opt_value VFloat (threshold_2 c));
   ("threshold_3", opt_value VFloat (threshold_3 c));
   ("threshold_4", opt_value VFloat (threshold_4 c));
   ("threshold_5", opt_value VFloat (threshold_5 c));
   ("threshold_6", opt_value VFloat (threshold_6 c));
   ("conflict_type", opt_value VConflict (conflict_type c));
   ("country_name", opt_value VStr (country_name c));
   ("year", opt_value VInt (year c));
   ("month", opt_value VInt (month c))].

End Schemas.

(** ** The source tables: one record type per DataFrame *)

Module Frame.

Definition is_None {A} (o : option A) : bool :=
  match o with
  | Some _ => false
  | None => true
  end.

(** A column of float cells belongs to a frame or does not: its cell is
    given in every row of the table or in none. A table that gives it in
    some rows only stands for a frame with NaN cells, which the embedding
    does not represent. *)
Definition column {R A} (cell : R -> option A) (table : list R) : bool :=
  forallb (fun r => negb (is_None (cell r))) table || forallb (fun r => is_None (cell r)) table.

End Frame.

(** Rows of [pgm_data], the primary forecasts, as [iterrows()] yields them:
    [dtype] is the dtype of the row Series, [float64] when the frame has a
    float column beside its integer ones and no column of another kind (as
    a table of grid ids, month ids and forecasts has), [int64] when all its
    columns are integers. *)
Module Pgm.
Record row : Type := {
  dtype : Py.dtype;
  pg_id : Z;
  month_id : Z;
  main_mean_ln : option Q;
  main_dich : option Q;
  main_mean : option Q;
  country_id : option Z
}.

(** [row[column]] for an integer column: a scalar of the dtype of the row,
    whose value is the integer of the cell. *)
Definition scalar (r : row) (cell : row -> Z) : Py.number := Py.scalar (dtype r) (cell r).
End Pgm.

(** Rows of [hdi_data], the uncertainty intervals. A bound is [None] when
    the frame has no such column. *)
Module Hdi.
Record row : Type := {
  priogrid_id : Z;
  month_id : Z;
  pred_ln_sb_prob_hdi_lower : option Q;
  pred_ln_sb_prob_hdi_upper : option Q
}.
End Hdi.

(** Rows of [timeseries_data], the coordinates. The code reads a
    coordinate under either of two column names. *)
Module Coord.
Record row : Type := {
  priogrid_id : Z;
  lat : option Q;
  latitude : option Q;
  lon : option Q;
  longitude : option Q;
  country_id : option Z;
  row_ : option Z;
  col : option Z
}.

(** The coordinate columns of the table have no missing cell. *)
Definition columns_complete (table : list row) : bool :=
  Frame.column lat table && Frame.column latitude table &&
  Frame.column lon table && Frame.column longitude table.
End Coord.

(** Rows of [country_data], and the dicts of [get_available_countries].
    The code subscripts the three columns, so the frame has them; [isoab]
    is [None] for a null cell. *)
Module Country.
Record row : Type := {
  country_id : Z;
  country : string;
  isoab : option string
}.

Record info : Type := {
  info_country_id : Z;
  info_country : string;
  iso_code : option string
}.
End Country.

(** ** [services/data_service.py]: the queries on the loaded tables *)

Module DataService.

Record t : Type := {
  pgm_data : option (list Pgm.row);
  country_data : option (list Country.row);
  hdi_data : option (list Hdi.row);
  timeseries_data : option (list Coord.row);
  country_grid_mapping : Py.dict (list Z);
  is_loaded : bool
}.

(** [drop_duplicates()] and [unique()]: the first occurrence is kept. *)
Fixpoint drop_duplicates_from {A} `{EqDecision A} (seen : list A) (l : list A) : list A :=
  match l with
  | [] => []
  | x :: l' =>
      if bool_decide (x ∈ seen) then drop_duplicates_from seen l'
      else x :: drop_duplicates_from (x :: seen) l'
  end.

Definition drop_duplicates {A} `{EqDecision A} (l : list A) : list A :=
  drop_duplicates_from [] l.

(** A frame without any column (what [pd.DataFrame()] builds) is [None];
    subscripting it by a column name raises [KeyError]. *)
Definition frame (A : Type) : Type := option (list A).

Definition get_grid_data (self : t) (grid_ids : list Z) (month_ids : option (list Z))
  : result (list Pgm.row) :=
  if negb (is_loaded self) then Err (DataNotFoundError "Data not loaded")
  else
    match pgm_data self with
    | None => Err (TypeError "'NoneType' object is not subscriptable")
    | Some pgm =>
        let query := fun r : Pgm.row => Py.isin (Pgm.pg_id r) grid_ids in
        let query :=
          match month_ids with
          | Some (m :: ms) =>
              fun r : Pgm.row => query r && Py.isin (Pgm.month_id r) (m :: ms)
          | _ => query
          end in
        let result := List.filter query pgm in
        match result with
        | [] => Err (DataNotFoundError ("No data found for grid IDs: " +:+ Py.str_list grid_ids))
        | _ => Ok result
        end
    end.

Definition get_country_grids (self : t) (country_id : Z) : result (list Z) :=
  if negb (is_loaded self) then Err (DataNotFoundError "Data not loaded")
  else
    let grid_ids := default [] (Py.dict_get (country_grid_mapping self) country_id) in
    match grid_ids with
    | [] => Err (DataNotFoundError ("No grid cells found for country ID: " +:+ Py.str country_id))
    | _ => Ok grid_ids
    end.

Definition get_hdi_data (self : t) (grid_ids : list Z) (month_ids : option (list Z))
  : frame Hdi.row :=
  match hdi_data self with
  | None => None
  | Some hdi =>
      let query := fun r : Hdi.row => Py.isin (Hdi.priogrid_id r) grid_ids in
      let query :=
        match month_ids with
        | Some (m :: ms) =>
            fun r : Hdi.row => query r && Py.isin (Hdi.month_id r) (m :: ms)
        | _ => query
        end in
      Some (List.filter query hdi)
  end.

(** Only [.empty] and [iterrows()] are used on the result, so the frame
    without columns and the frame without rows are both the empty list. *)
Definition get_coordinates (self : t) (grid_ids : list Z) : list Coord.row :=
  match timeseries_data self with
  | None => []
  | Some [] => []
  | Some ts =>
      match grid_ids with
      | [] => ts
      | _ => List.filter (fun r : Coord.row => Py.isin (Coord.priogrid_id r) grid_ids) ts
      end
  end.

Definition get_available_months (self : t) : list Z :=
  match is_loaded self, pgm_data self with
  | true, Some pgm => merge_sort Z.le (drop_duplicates (map Pgm.month_id pgm))
  | _, _ => []
  end.

(** Without a country table the countries are the keys of the mapping, in
    the insertion order of the dict. *)
Definition get_available_countries (self : t) : list Country.info :=
  if negb (is_loaded self) then []
  else
    match country_data self with
    | Some cd =>
        map (fun c : Z * string * option string =>
               {| Country.info_country_id := c.1.1;
                  Country.info_country := c.1.2;
                  Country.iso_code := c.2 |})
            (drop_duplicates
               (map (fun r => (Country.country_id r, Country.country r, Country.isoab r)) cd))
    | None =>
        map (fun country_id =>
               {| Country.info_country_id := country_id;
                  Country.info_country := "Country " +:+ Py.str country_id;
                  Country.iso_code := None |})
            (Py.dict_keys (country_grid_mapping self))
    end.

Definition get_total_grid_cells (self : t) : Z :=
  match is_loaded self, pgm_data self with
  | true, Some pgm => Z.of_nat (length (drop_duplicates (map Pgm.pg_id pgm)))
  | _, _ => 0
  end.

(** The loop of [_create_synthetic_coordinates_from_pgm]: two draws per
    distinct grid cell, [i] being the index of [enumerate]. *)
Fixpoint synthetic_coordinate_rows
    (i : Z) (unique_grids : list Z) (rng : MT19937.mt19937_state)
  : list Coord.row * MT19937.mt19937_state :=
  match unique_grids with
  | [] => ([], rng)
  | grid_id :: rest =>
      let '(lat, rng) := MT19937.uniform (-60) 70 rng in
      let '(lon, rng) := MT19937.uniform (-180) 180 rng in
      let row :=
        {| Coord.priogrid_id := grid_id;
           Coord.lat := None;
           Coord.latitude := Some lat;
           Coord.lon := None;
           Coord.longitude := Some lon;
           Coord.country_id := Some (i mod 5 + 1);
           Coord.row_ := Some (100 + i / 10);
           Coord.col := Some (400 + i mod 10) |} in
      let '(data, rng) := synthetic_coordinate_rows (i + 1) rest rng in
      (row :: data, rng)
  end.

(** Without primary data nothing changes; otherwise the generator is
    reseeded with 42 and [timeseries_data] is replaced. *)
Definition _create_synthetic_coordinates_from_pgm (self : t) (rng : MT19937.mt19937_state)
  : t * MT19937.mt19937_state :=
  match pgm_data self with
  | None => (self, rng)
  | Some pgm =>
      let unique_grids := drop_duplicates (map Pgm.pg_id pgm) in
      let rng := MT19937.mt19937_seed 42 in
      let '(data, rng) := synthetic_coordinate_rows 0 unique_grids rng in
      ({| pgm_data := pgm_data self;
          country_data := country_data self;
          hdi_data := hdi_data self;
          timeseries_data := Some data;
          country_grid_mapping := country_grid_mapping self;
          is_loaded := is_loaded self |}, rng)
  end.

End DataService.

(** ** [services/forecast_service.py] *)

(** The dict returned by [_generate_synthetic_metrics]: its nine keys are
    fixed, so it is a record. *)
Module Synthetic.
Record t : Type := {
  hdi_50_lower : Q;
  hdi_50_upper : Q;
  hdi_99_lower : Q;
  hdi_99_upper : Q;
  threshold_2 : Q;
  threshold_3 : Q;
  threshold_4 : Q;
  threshold_5 : Q;
  threshold_6 : Q
}.
End Synthetic.

(** The dict returned by [get_basic_info]. *)
Module BasicInfo.
Record t : Type := {
  available_months : list Z;
  total_grid_cells : Z;
  countries_available : Z;
  date_range : option (string * string);
  api_version : string;
  data_version : string
}.
End BasicInfo.

Module ForecastService.

Import MT19937.

(** The conversion of a month id that [get_basic_info] and
    [_create_grid_cell_data] both write out: [//] and [%] are the floored
    division and its remainder. *)
Definition year_of_month_id (month_id : Z) : Z := 2025 + (month_id - 548) / 12.
Definition month_of_month_id (month_id : Z) : Z := (month_id - 548) mod 12 + 1.

Definition get_basic_info (data_service : DataService.t) : BasicInfo.t :=
  let months := DataService.get_available_months data_service in
  let countries := DataService.get_available_countries data_service in
  let total_cells := DataService.get_total_grid_cells data_service in
  let date_range :=
    match months with
    | [] => None
    | start_month :: _ =>
        let end_month := List.last months start_month in
        let start_year := year_of_month_id start_month in
        let start_month_num := month_of_month_id start_month in
        let end_year := year_of_month_id end_month in
        let end_month_num := month_of_month_id end_month in
        Some (Py.str start_year +:+ "-" +:+ Py.format_02d start_month_num,
              Py.str end_year +:+ "-" +:+ Py.format_02d end_month_num)
    end in
  {| BasicInfo.available_months := months;
     BasicInfo.total_grid_cells := total_cells;
     BasicInfo.countries_available := Z.of_nat (length countries);
     BasicInfo.date_range := date_range;
     BasicInfo.api_version := "1.0.0";
     BasicInfo.data_version := "2025.07" |}.

(** [grid_id] is annotated [int]; the callers pass the cell of a row, a
    scalar of the dtype of that row, and [str()] prints it as such. *)
Definition _generate_coordinates_for_grid (grid_id : Py.number) : result (Q * Q) :=
  let hash_input := Py.encode (Py.str_number grid_id) in
  match Py.int16 (Py.prefix 8 (MD5.hexdigest hash_input)) with
  | None => Err (ValueError "invalid literal for int() with base 16")
  | Some hash_int =>
      let lat := (inject_Z (hash_int mod 13000) / 100 - 60)%Q in
      let lon := (inject_Z ((hash_int / 13000) mod 36000) / 100 - 180)%Q in
      Ok (lat, lon)
  end.

(** The function nested in [_get_enriched_forecasts]. *)
Definition generate_coordinates (grid_id : Py.number) : result (Q * Q) :=
  let hash_input := Py.encode (Py.str_number grid_id) in
  match Py.int16 (Py.prefix 8 (MD5.hexdigest hash_input)) with
  | None => Err (ValueError "invalid literal for int() with base 16")
  | Some hash_int =>
      let lat := (inject_Z (hash_int mod 13000) / 100 - 60)%Q in
      let lon := (inject_Z ((hash_int / 13000) mod 36000) / 100 - 180)%Q in
      Ok (lat, lon)
  end.

(** The dict display of [_generate_synthetic_metrics]: nine draws from the
    global generator, in the order of the keys. *)
Definition synthetic_metrics_dict (base_prob : Q) (rng : mt19937_state)
  : Synthetic.t * mt19937_state :=
  let '(u, rng) := uniform 0.001 0.005 rng in
  let hdi_50_lower := Py.max 0 (base_prob - u) in
  let '(u, rng) := uniform 0.001 0.005 rng in
  let hdi_50_upper := Py.min 1 (base_prob + u) in
  let '(u, rng) := uniform 0.01 0.03 rng in
  let hdi_99_lower := Py.max 0 (base_prob - u) in
  let '(u, rng) := uniform 0.01 0.03 rng in
  let hdi_99_upper := Py.min 1 (base_prob + u) in
  let '(u, rng) := uniform 0.001 0.01 rng in
  let threshold_2 := Py.max 0 (base_prob - u) in
  let '(u, rng) := uniform 0.01 0.02 rng in
  let threshold_3 := Py.max 0 (base_prob - u) in
  let '(u, rng) := uniform 0.02 0.04 rng in
  let threshold_4 := Py.max 0 (base_prob - u) in
  let '(u, rng) := uniform 0.03 0.06 rng in
  let threshold_5 := Py.max 0 (base_prob - u) in
  let '(u, rng) := uniform 0.05 0.08 rng in
  let threshold_6 := Py.max 0 (base_prob - u) in
  ({| Synthetic.hdi_50_lower := hdi_50_lower;
      Synthetic.hdi_50_upper := hdi_50_upper;
      Synthetic.hdi_99_lower := hdi_99_lower;
      Synthetic.hdi_99_upper := hdi_99_upper;
      Synthetic.threshold_2 := threshold_2;
      Synthetic.threshold_3 := threshold_3;
      Synthetic.threshold_4 := threshold_4;
      Synthetic.threshold_5 := threshold_5;
      Synthetic.threshold_6 := threshold_6 |}, rng).

(** [np.random.seed] replaces the state of the global generator, whatever
    it was, before the dict is built. The product [base_prob * 10000] is
    the exact product of the rational that stands for [base_prob]; the code
    multiplies doubles and rounds the product before [int()] truncates it,
    so its seed can differ by one next to an integer: for the literal 0.57
    the code computes [int(0.57 * 10000) = 5699] (the double nearest to
    0.57 lies below it), where the exact product of 57/100 is 5700. *)
Definition _generate_synthetic_metrics (base_prob : Q) (rng : mt19937_state)
  : Synthetic.t * mt19937_state :=
  let rng := mt19937_seed (Py.int (base_prob * 10000) mod 2 ^ 32) in
  synthetic_metrics_dict base_prob rng.

(** [hdi_values.get(k)]: absent keys and null cells both read as [None]. *)
Definition dict_get (d : gmap string (option Q)) (k : string) : option Q :=
  match d !! k with
  | Some v => v
  | None => None
  end.

(** [grid_id = main_row['pg_id']] is a scalar of the dtype of the row: the
    comparisons with [priogrid_id] and [int(grid_id)] see its value
    ([grid_id] below), [str()] in the coordinate fallback sees the scalar
    ([Pgm.scalar]). A cell that [.get] finds absent is [None]: the default
    0.01 of [main_dich] and the coordinate fallback apply to a frame
    without that column ([Frame.column]). *)
Definition _create_grid_cell_data
    (main_row : Pgm.row) (hdi_data : list Hdi.row) (coord_data : list Coord.row)
    (country_map : gmap Z string) (metrics : Schemas.MetricSelection)
    (rng : mt19937_state) : result Schemas.GridCellData * mt19937_state :=
  let grid_id := Pgm.pg_id main_row in
  let '(lat, lon, country_id_from_coord) :=
    match List.filter (fun c => Coord.priogrid_id c =? grid_id) coord_data with
    | coord_row :: _ =>
        (Py.or_float (Coord.lat coord_row) (Coord.latitude coord_row),
         Py.or_float (Coord.lon coord_row) (Coord.longitude coord_row),
         Coord.country_id coord_row)
    | [] => (None, None, None)
    end in
  let coords :=
    match lat, lon with
    | Some lat, Some lon => Ok (lat, lon)
    | _, _ => _generate_coordinates_for_grid (Pgm.scalar main_row Pgm.pg_id)
    end in
  match coords with
  | Err e => (Err e, rng)
  | Ok (lat, lon) =>
      let hdi_values : gmap string (option Q) :=
        match List.filter (fun h => Hdi.priogrid_id h =? grid_id) hdi_data with
        | hdi_row :: _ =>
            <["hdi_90_upper" := Hdi.pred_ln_sb_prob_hdi_upper hdi_row]>
              (<["hdi_90_lower" := Hdi.pred_ln_sb_prob_hdi_lower hdi_row]> ∅)
        | [] => ∅
        end in
      let base_prob := default 0.01%Q (Pgm.main_dich main_row) in
      let '(synthetic_metrics, rng) := _generate_synthetic_metrics base_prob rng in
      let country_id :=
        match Pgm.country_id main_row with
        | Some c => Some c
        | None => country_id_from_coord
        end in
      let country_name :=
        match country_id with
        | Some c => country_map !! c
        | None => None
        end in
      let month_id := Pgm.month_id main_row in
      let year := year_of_month_id month_id in
      let month := month_of_month_id month_id in
      let sel (flag : bool) (v : option Q) : option Q := if flag then v else None in
      (Schemas.GridCellData_init
         {| Schemas.grid_id := grid_id;
            Schemas.month_id := month_id;
            Schemas.country_id := country_id;
            Schemas.latitude := Some lat;
            Schemas.longitude := Some lon;
            Schemas.main_mean := sel (Schemas.include_map metrics) (Pgm.main_mean main_row);
            Schemas.main_mean_ln := sel (Schemas.include_map metrics) (Pgm.main_mean_ln main_row);
            Schemas.main_dich := sel (Schemas.include_thresholds metrics) (Pgm.main_dich main_row);
            Schemas.hdi_50_lower :=
              sel (Schemas.include_hdi_50 metrics) (Some (Synthetic.hdi_50_lower synthetic_metrics));
            Schemas.hdi_50_upper :=
              sel (Schemas.include_hdi_50 metrics) (Some (Synthetic.hdi_50_upper synthetic_metrics));
            Schemas.hdi_90_lower :=
              sel (Schemas.include_hdi_90 metrics) (dict_get hdi_values "hdi_90_lower");
            Schemas.hdi_90_upper :=
              sel (Schemas.include_hdi_90 metrics) (dict_get hdi_values "hdi_90_upper");
            Schemas.hdi_99_lower :=
              sel (Schemas.include_hdi_99 metrics) (Some (Synthetic.hdi_99_lower synthetic_metrics));
            Schemas.hdi_99_upper :=
              sel (Schemas.include_hdi_99 metrics) (Some (Synthetic.hdi_99_upper synthetic_metrics));
            Schemas.threshold_1 := sel (Schemas.include_thresholds metrics) (Some base_prob);
            Schemas.threshold_2 :=
              sel (Schemas.include_thresholds metrics) (Some (Synthetic.threshold_2 synthetic_metrics));
            Schemas.threshold_3 :=
              sel (Schemas.include_thresholds metrics) (Some (Synthetic.threshold_3 synthetic_metrics));
            Schemas.threshold_4 :=
              sel (Schemas.include_thresholds metrics) (Some (Synthetic.threshold_4 synthetic_metrics));
            Schemas.threshold_5 :=
              sel (Schemas.include_thresholds metrics) (Some (Synthetic.threshold_5 synthetic_metrics));
            Schemas.threshold_6 :=
              sel (Schemas.include_thresholds metrics) (Some (Synthetic.threshold_6 synthetic_metrics));
            Schemas.conflict_type := Some Schemas.STATE_BASED;
            Schemas.country_name := country_name;
            Schemas.year := Some year;
            Schemas.month := Some month |}, rng)
  end.

(** The coordinate frame handed to [_create_grid_cell_data] for one row
    of [iterrows()]; [generate_coordinates] gets the cell of that row. *)
Definition coord_row_for (coord_lookup : gmap Z Coord.row) (row : Pgm.row)
  : result (list Coord.row) :=
  let grid_id := Pgm.pg_id row in
  match coord_lookup !! grid_id with
  | Some c => Ok [c]
  | None =>
      match generate_coordinates (Pgm.scalar row Pgm.pg_id) with
      | Err e => Err e
      | Ok (lat, lon) =>
          Ok [ {| Coord.priogrid_id := grid_id;
                  Coord.lat := None;
                  Coord.latitude := Some lat;
                  Coord.lon := None;
                  Coord.longitude := Some lon;
                  Coord.country_id := Pgm.country_id row;
                  Coord.row_ := Some 0;
                  Coord.col := Some 0 |} ]
      end
  end.

(** The loop [for _, row in main_data.iterrows()]. *)
Fixpoint enrich_rows
    (hdi_data : DataService.frame Hdi.row) (coord_lookup : gmap Z Coord.row)
    (country_map : gmap Z string) (metrics : Schemas.MetricSelection)
    (rows : list Pgm.row) (enriched_data : list Schemas.GridCellData)
    (rng : mt19937_state) : result (list Schemas.GridCellData) * mt19937_state :=
  match rows with
  | [] => (Ok enriched_data, rng)
  | row :: rows' =>
      let grid_id := Pgm.pg_id row in
      let month_id := Pgm.month_id row in
      match hdi_data with
      | None => (Err (KeyError "priogrid_id"), rng)
      | Some hdi =>
          let hdi_row :=
            List.filter
              (fun h => (Hdi.priogrid_id h =? grid_id) && (Hdi.month_id h =? month_id)) hdi in
          match coord_row_for coord_lookup row with
          | Err e => (Err e, rng)
          | Ok coord_row =>
              match _create_grid_cell_data row hdi_row coord_row country_map metrics rng with
              | (Ok cell_data, rng) =>
                  enrich_rows hdi_data coord_lookup country_map metrics rows'
                    (enriched_data ++ [cell_data]) rng
              | (Err e, rng) => (Err e, rng)
              end
          end
      end
  end.

Definition _get_enriched_forecasts
    (data_service : DataService.t) (grid_ids : list Z) (month_ids : option (list Z))
    (metrics : Schemas.MetricSelection) (rng : mt19937_state)
  : result (list Schemas.GridCellData) * mt19937_state :=
  match DataService.get_grid_data data_service grid_ids month_ids with
  | Err e => (Err e, rng)
  | Ok main_data =>
      let hdi_data := DataService.get_hdi_data data_service grid_ids month_ids in
      let all_coords := DataService.get_coordinates data_service grid_ids in
      let country_data := DataService.get_available_countries data_service in
      let country_map : gmap Z string :=
        foldl (fun m c => <[Country.info_country_id c := Country.info_country c]> m)
              ∅ country_data in
      let coord_lookup : gmap Z Coord.row :=
        foldl (fun m c => <[Coord.priogrid_id c := c]> m) ∅ all_coords in
      enrich_rows hdi_data coord_lookup country_map metrics main_data [] rng
  end.

(** [min(l)] and [max(l)] of a list of integers. *)
Definition min_list (l : list Z) : result Z :=
  match l with
  | [] => Err (ValueError "min() arg is an empty sequence")
  | x :: l' => Ok (foldl Z.min x l')
  end.

Definition max_list (l : list Z) : result Z :=
  match l with
  | [] => Err (ValueError "max() arg is an empty sequence")
  | x :: l' => Ok (foldl Z.max x l')
  end.

(** [a or b] where [b] may raise: [b] is evaluated only when [a] is falsy. *)
Definition or_else (a : option Z) (b : result Z) : result Z :=
  match a with
  | Some v => if v =? 0 then b else Ok v
  | None => b
  end.

(** The month filter that [get_forecasts_by_country] and
    [get_forecasts_by_grid] both compute before they delegate. *)
Definition month_filter (data_service : DataService.t) (month_start month_end : option Z)
  : result (option (list Z)) :=
  if Py.truthy_int month_start || Py.truthy_int month_end then
    let all_months := DataService.get_available_months data_service in
    match or_else month_start (min_list all_months) with
    | Err e => Err e
    | Ok start =>
        match or_else month_end (max_list all_months) with
        | Err e => Err e
        | Ok end_ =>
            Ok (Some (List.filter (fun m => (start <=? m) && (m <=? end_)) all_months))
        end
    end
  else Ok None.

Definition get_forecasts_by_grid
    (data_service : DataService.t) (grid_ids : list Z) (month_start month_end : option Z)
    (metrics : Schemas.MetricSelection) (rng : mt19937_state)
  : result (list Schemas.GridCellData) * mt19937_state :=
  match month_filter data_service month_start month_end with
  | Err e => (Err e, rng)
  | Ok month_ids => _get_enriched_forecasts data_service grid_ids month_ids metrics rng
  end.

Definition get_forecasts_by_country
    (data_service : DataService.t) (country_id : Z) (month_start month_end : option Z)
    (metrics : Schemas.MetricSelection) (rng : mt19937_state)
  : result (list Schemas.GridCellData) * mt19937_state :=
  match DataService.get_country_grids data_service country_id with
  | Err e => (Err e, rng)
  | Ok grid_ids =>
      match month_filter data_service month_start month_end with
      | Err e => (Err e, rng)
      | Ok month_ids => _get_enriched_forecasts data_service grid_ids month_ids metrics rng
      end
  end.

(** Every country with the number of its grid cells; both [except]
    branches set the count to 0. *)
Definition get_countries (data_service : DataService.t) : list (Country.info * Z) :=
  map (fun country =>
         match DataService.get_country_grids data_service (Country.info_country_id country) with
         | Ok grid_ids => (country, Z.of_nat (length grid_ids))
         | Err (DataNotFoundError _) => (country, 0)
         | Err _ => (country, 0)
         end)
      (DataService.get_available_countries data_service).

End ForecastService.

(** ** [main.py]: the forecast endpoints *)

(** The handlers of the two forecast routes. FastAPI parses and validates
    the path and query parameters before it calls a handler, and answers
    422 itself when that fails (a grid request without [grid_ids], a
    parameter that is no integer): the definitions below start where the
    handler body starts, with typed arguments. *)
Module Main.

Record ForecastResponse : Type := {
  data : list Schemas.GridCellData;
  total_cells : Z;
  months_covered : Z
}.

(** What a handler returns or raises. *)
Inductive response : Type :=
| Response (body : ForecastResponse)
| HTTPException (status_code : Z) (detail : string).

(** The body of the [try] block and the three [except] clauses that the
    country and grid endpoints share: [len(set(...))] counts the distinct
    month ids. *)
Definition respond (r : result (list Schemas.GridCellData)) : response :=
  match r with
  | Ok forecasts =>
      Response
        {| data := forecasts;
           total_cells := Z.of_nat (length forecasts);
           months_covered :=
             match forecasts with
             | [] => 0
             | _ => Z.of_nat (length (DataService.drop_duplicates
                                        (map Schemas.month_id forecasts)))
             end |}
  | Err (DataNotFoundError msg) => HTTPException 404 msg
  | Err (ValidationError msg) => HTTPException 400 msg
  | Err _ => HTTPException 500 "Internal server error"
  end.

Definition get_forecasts_by_country
    (data_service : DataService.t) (country_id : Z) (month_start month_end : option Z)
    (metrics : Schemas.MetricSelection) (rng : MT19937.mt19937_state)
  : response * MT19937.mt19937_state :=
  let '(r, rng) :=
    ForecastService.get_forecasts_by_country
      data_service country_id month_start month_end metrics rng in
  (respond r, rng).

Definition get_forecasts_by_grid
    (data_service : DataService.t) (grid_ids : list Z) (month_start month_end : option Z)
    (metrics : Schemas.MetricSelection) (rng : MT19937.mt19937_state)
  : response * MT19937.mt19937_state :=
  let '(r, rng) :=
    ForecastService.get_forecasts_by_grid
      data_service grid_ids month_start month_end metrics rng in
  (respond r, rng).

End Main.

(** ** The specification's wording, for comparison with the code *)

Module SpecWords.

(** [clamp(x, 0, 1)]. *)
Definition clamp (x : Q) : Q := Py.min 1 (Py.max 0 x).

(** Section 4.4: both bounds are clamped to [0, 1], and a collapsed pair
    ([lower > upper]) gets [lower] set to [upper]. *)
Definition band (p u_lower u_upper : Q) : Q * Q :=
  let lower := clamp (p - u_lower) in
  let upper := clamp (p + u_upper) in
  (if Qle_bool lower upper then lower else upper, upper).

(** Section 4.4: [slot_k = clamp(p - U(low_k, high_k), 0, 1)]. *)
Definition slot (p u : Q) : Q := clamp (p - u).

(** Section 4.4: the seed [floor(p * 10000) mod 2^32]. *)
Definition seed (p : Q) : Z := Qfloor (p * 10000) mod 2 ^ 32.

(** Section 3: month id 548 is August 2025, one month per increment. *)
Definition year (m : Z) : Z := 2025 + (m - 548 + 7) / 12.
Definition month (m : Z) : Z := (m - 548 + 7) mod 12 + 1.

(** Section 4.2: the first 32 bits of a digest, as an unsigned integer. *)
Definition first_32_bits (digest : list Z) : Z :=
  foldl (fun acc b => 256 * acc + b) 0 (take 4 digest).

(** Section 4.2: the pseudo-coordinate of a grid id, from the hash of its
    textual decimal representation. *)
Definition pseudo_coordinate (grid_id : Z) : Q * Q :=
  let h := first_32_bits (MD5.digest (Py.encode (Py.str grid_id))) in
  ((inject_Z (h mod 13000) / 100 - 60)%Q,
   (inject_Z ((h / 13000) mod 36000) / 100 - 180)%Q).

(** Section 4.6: the conflict-type tags the specification names. *)
Definition known_tags : list string := ["state_based"; "non_state"; "one_sided"].

(** Section 4.5: the projector nulls the fields of every group that is not
    selected and leaves every other field of the candidate as it is. *)
Definition project (metrics : Schemas.MetricSelection) (candidate : Schemas.GridCellData)
  : Schemas.GridCellData :=
  let keep (flag : bool) (v : option Q) : option Q := if flag then v else None in
  let point := Schemas.include_map metrics in
  let thresholds := Schemas.include_thresholds metrics in
  {| Schemas.grid_id := Schemas.grid_id candidate;
     Schemas.month_id := Schemas.month_id candidate;
     Schemas.country_id := Schemas.country_id candidate;
     Schemas.latitude := Schemas.latitude candidate;
     Schemas.longitude := Schemas.longitude candidate;
     Schemas.main_mean := keep point (Schemas.main_mean candidate);
     Schemas.main_mean_ln := keep point (Schemas.main_mean_ln candidate);
     Schemas.main_dich := keep thresholds (Schemas.main_dich candidate);
     Schemas.hdi_50_lower :=
       keep (Schemas.include_hdi_50 metrics) (Schemas.hdi_50_lower candidate);
     Schemas.hdi_50_upper :=
       keep (Schemas.include_hdi_50 metrics) (Schemas.hdi_50_upper candidate);
     Schemas.hdi_90_lower :=
       keep (Schemas.include_hdi_90 metrics) (Schemas.hdi_90_lower candidate);
     Schemas.hdi_90_upper :=
       keep (Schemas.include_hdi_90 metrics) (Schemas.hdi_90_upper candidate);
     Schemas.hdi_99_lower :=
       keep (Schemas.include_hdi_99 metrics) (Schemas.hdi_99_lower candidate);
     Schemas.hdi_99_upper :=
       keep (Schemas.include_hdi_99 metrics) (Schemas.hdi_99_upper candidate);
     Schemas.threshold_1 := keep thresholds (Schemas.threshold_1 candidate);
     Schemas.threshold_2 := keep thresholds (Schemas.threshold_2 candidate);
     Schemas.threshold_3 := keep thresholds (Schemas.threshold_3 candidate);
     Schemas.threshold_4 := keep thresholds (Schemas.threshold_4 candidate);
     Schemas.threshold_5 := keep thresholds (Schemas.threshold_5 candidate);
     Schemas.threshold_6 := keep thresholds (Schemas.threshold_6 candidate);
     Schemas.conflict_type := Schemas.conflict_type candidate;
     Schemas.country_name := Schemas.country_name candidate;
     Schemas.year := Schemas.year candidate;
     Schemas.month := Schemas.month candidate |}.

End SpecWords.

(** ** A small source store, used to evaluate the engine on concrete queries *)

Module Example.

Definition pgm_row (g m : Z) (d : Q) : Pgm.row :=
  {| Pgm.dtype := Py.float64;
     Pgm.pg_id := g;
     Pgm.month_id := m;
     Pgm.main_mean_ln := Some 0.001%Q;
     Pgm.main_dich := Some d;
     Pgm.main_mean := Some 0.001%Q;
     Pgm.country_id := Some 1 |}.

Definition hdi_row (g m : Z) (l u : Q) : Hdi.row :=
  {| Hdi.priogrid_id := g;
     Hdi.month_id := m;
     Hdi.pred_ln_sb_prob_hdi_lower := Some l;
     Hdi.pred_ln_sb_prob_hdi_upper := Some u |}.

Definition coord_row (g : Z) (la lo : Q) : Coord.row :=
  {| Coord.priogrid_id := g;
     Coord.lat := None;
     Coord.latitude := Some la;
     Coord.lon := None;
     Coord.longitude := Some lo;
     Coord.country_id := None;
     Coord.row_ := None;
     Coord.col := None |}.

(** Three grid cells in month 548 and one of them again in month 549; real
    uncertainty bounds for (62356, 548) only; no coordinates for 62358. *)
Definition store : DataService.t :=
  {| DataService.pgm_data :=
       Some [pgm_row 62356 548 0.01%Q; pgm_row 62357 548 0.02%Q;
             pgm_row 62358 548 0.03%Q; pgm_row 62356 549 0.5%Q];
     DataService.country_data :=
       Some [ {| Country.country_id := 1;
                 Country.country := "Testland";
                 Country.isoab := Some "TST" |} ];
     DataService.hdi_data := Some [hdi_row 62356 548 0.005%Q 0.015%Q];
     DataService.timeseries_data :=
       Some [coord_row 62356 45%Q 12%Q; coord_row 62357 46%Q 13%Q];
     DataService.country_grid_mapping := [(1, [62356; 62357; 62358])];
     DataService.is_loaded := true |}.

(** Some state of the global generator before a request. *)
Definition rng0 : MT19937.mt19937_state := MT19937.mt19937_seed 12345.

(** A configuration whose conflict-type list was assigned a tag that is
    neither a [ConflictType] value nor one of the names of the members. *)
Definition unknown_tag_metrics : Schemas.MetricSelection :=
  Schemas.with_conflict_types Schemas.MetricSelection_default ["xyz"].

Definition all_metrics : Schemas.MetricSelection :=
  {| Schemas.include_map := true;
     Schemas.include_hdi_50 := true;
     Schemas.include_hdi_90 := true;
     Schemas.include_hdi_99 := true;
     Schemas.include_thresholds := true;
     Schemas.conflict_types := ["sb"] |}.

Definition no_metrics : Schemas.MetricSelection :=
  {| Schemas.include_map := false;
     Schemas.include_hdi_50 := false;
     Schemas.include_hdi_90 := false;
     Schemas.include_hdi_99 := false;
     Schemas.include_thresholds := false;
     Schemas.conflict_types := ["sb"] |}.

End Example.

(** ** Vocabulary of the statements *)

(** The offsets drawn by the dict display, with the ranges of the code. *)
Record offsets : Type := {
  u_hdi_50_lower : Q;
  u_hdi_50_upper : Q;
  u_hdi_99_lower : Q;
  u_hdi_99_upper : Q;
  u_threshold_2 : Q;
  u_threshold_3 : Q;
  u_threshold_4 : Q;
  u_threshold_5 : Q;
  u_threshold_6 : Q
}.

Definition offsets_in_range (o : offsets) : Prop :=
  (((0.001 <= u_hdi_50_lower o) /\ (u_hdi_50_lower o < 0.005)) /\
  ((0.001 <= u_hdi_50_upper o) /\ (u_hdi_50_upper o < 0.005)) /\
  ((0.01 <= u_hdi_99_lower o) /\ (u_hdi_99_lower o < 0.03)) /\
  ((0.01 <= u_hdi_99_upper o) /\ (u_hdi_99_upper o < 0.03)) /\
  ((0.001 <= u_threshold_2 o) /\ (u_threshold_2 o < 0.01)) /\
  ((0.01 <= u_threshold_3 o) /\ (u_threshold_3 o < 0.02)) /\
  ((0.02 <= u_threshold_4 o) /\ (u_threshold_4 o < 0.04)) /\
  ((0.03 <= u_threshold_5 o) /\ (u_threshold_5 o < 0.06)) /\
  ((0.05 <= u_threshold_6 o) /\ (u_threshold_6 o < 0.08)))%Q.

Definition metrics_of_offsets (p : Q) (o : offsets) : Synthetic.t :=
  {| Synthetic.hdi_50_lower := Py.max 0 (p - u_hdi_50_lower o);
     Synthetic.hdi_50_upper := Py.min 1 (p + u_hdi_50_upper o);
     Synthetic.hdi_99_lower := Py.max 0 (p - u_hdi_99_lower o);
     Synthetic.hdi_99_upper := Py.min 1 (p + u_hdi_99_upper o);
     Synthetic.threshold_2 := Py.max 0 (p - u_threshold_2 o);
     Synthetic.threshold_3 := Py.max 0 (p - u_threshold_3 o);
     Synthetic.threshold_4 := Py.max 0 (p - u_threshold_4 o);
     Synthetic.threshold_5 := Py.max 0 (p - u_threshold_5 o);
     Synthetic.threshold_6 := Py.max 0 (p - u_threshold_6 o) |}.

(** The dicts that [_get_enriched_forecasts] builds before its loop: later
    entries overwrite earlier ones. *)
Definition coord_lookup_of (ds : DataService.t) (grid_ids : list Z) : gmap Z Coord.row :=
  foldl (fun m c => <[Coord.priogrid_id c := c]> m) ∅
        (DataService.get_coordinates ds grid_ids).

Definition country_map_of (ds : DataService.t) : gmap Z string :=
  foldl (fun m c => <[Country.info_country_id c := Country.info_country c]> m) ∅
        (DataService.get_available_countries ds).

(** [cell] is what one iteration of the loop of [_get_enriched_forecasts]
    appends for the primary row [row]. *)
Definition row_enriched
    (hdi : list Hdi.row) (coord_lookup : gmap Z Coord.row) (country_map : gmap Z string)
    (metrics : Schemas.MetricSelection) (row : Pgm.row) (cell : Schemas.GridCellData) : Prop :=
  exists coord_row rng,
    ForecastService.coord_row_for coord_lookup row = Ok coord_row /\
    fst (ForecastService._create_grid_cell_data
           row
           (List.filter
              (fun h => (Hdi.priogrid_id h =? Pgm.pg_id row) &&
                        (Hdi.month_id h =? Pgm.month_id row)) hdi)
           coord_row country_map metrics rng) = Ok cell.

(** The selection that selects every group: the record built under it is
    the fully populated candidate of the projection. *)
Definition every_group : Schemas.MetricSelection :=
  {| Schemas.include_map := true;
     Schemas.include_hdi_50 := true;
     Schemas.include_hdi_90 := true;
     Schemas.include_hdi_99 := true;
     Schemas.include_thresholds := true;
     Schemas.conflict_types := [Schemas.ConflictType_value Schemas.STATE_BASED] |}.

(** The row selection of [get_grid_data] and [get_hdi_data]: the month
    filter applies only when [month_ids] is a non-empty list. *)
Definition selected (grid_ids : list Z) (month_ids : option (list Z)) (g m : Z) : bool :=
  Py.isin g grid_ids &&
  match month_ids with
  | Some (m0 :: ms) => Py.isin m (m0 :: ms)
  | _ => true
  end.

(** The uncertainty rows with the exact key [(g, m)]. *)
Definition hdi_rows_for (hdi : list Hdi.row) (g m : Z) : list Hdi.row :=
  List.filter (fun h => (Hdi.priogrid_id h =? g) && (Hdi.month_id h =? m)) hdi.

(** The exceptions a query can end with. *)
Definition raised_by_query (e : exception) : Prop :=
  match e with
  | DataNotFoundError _ | TypeError _ | KeyError _ | PydanticValidationError _ => True
  | _ => False
  end.

(** The nine offsets that [synthetic_metrics_dict] draws from a generator
    state. *)
Definition draw_offsets (rng : MT19937.mt19937_state) : offsets :=
  let '(u1, rng) := MT19937.uniform 0.001 0.005 rng in
  let '(u2, rng) := MT19937.uniform 0.001 0.005 rng in
  let '(u3, rng) := MT19937.uniform 0.01 0.03 rng in
  let '(u4, rng) := MT19937.uniform 0.01 0.03 rng in
  let '(u5, rng) := MT19937.uniform 0.001 0.01 rng in
  let '(u6, rng) := MT19937.uniform 0.01 0.02 rng in
  let '(u7, rng) := MT19937.uniform 0.02 0.04 rng in
  let '(u8, rng) := MT19937.uniform 0.03 0.06 rng in
  let '(u9, rng) := MT19937.uniform 0.05 0.08 rng in
  {| u_hdi_50_lower := u1; u_hdi_50_upper := u2; u_hdi_99_lower := u3;
     u_hdi_99_upper := u4; u_threshold_2 := u5; u_threshold_3 := u6;
     u_threshold_4 := u7; u_threshold_5 := u8; u_threshold_6 := u9 |}.

(** The coordinates that [_create_grid_cell_data] reads from a coordinate
    row: ['lat' or 'latitude'] and ['lon' or 'longitude']. *)
Definition row_coordinates (c : Coord.row) : option (Q * Q) :=
  match Py.or_float (Coord.lat c) (Coord.latitude c),
        Py.or_float (Coord.lon c) (Coord.longitude c) with
  | Some la, Some lo => Some (la, lo)
  | _, _ => None
  end.

(** The coordinates of a row, when it has both, are in the ranges of the
    schema. *)
Definition coordinates_valid (c : Coord.row) : Prop :=
  match row_coordinates c with
  | Some (la, lo) => ((-90 <= la) /\ (la <= 90) /\ (-180 <= lo) /\ (lo <= 180))%Q
  | None => True
  end.

(** The last coordinate row of a grid cell in the frame of a query. *)
Definition last_coordinate_row (ds : DataService.t) (grid_ids : list Z) (g : Z)
  : option Coord.row :=
  last (List.filter (fun c => Coord.priogrid_id c =? g)
                    (DataService.get_coordinates ds grid_ids)).

(** The example store with a coordinate table whose row for grid cell
    62357 has latitude 95. *)
Definition store_with_bad_latitude : DataService.t :=
  {| DataService.pgm_data := DataService.pgm_data Example.store;
     DataService.country_data := DataService.country_data Example.store;
     DataService.hdi_data := DataService.hdi_data Example.store;
     DataService.timeseries_data :=
       Some [Example.coord_row 62356 45%Q 12%Q; Example.coord_row 62357 95%Q 13%Q];
     DataService.country_grid_mapping := DataService.country_grid_mapping Example.store;
     DataService.is_loaded := true |}.

(** The example store without uncertainty table. *)
Definition store_without_uncertainty : DataService.t :=
  {| DataService.pgm_data := DataService.pgm_data Example.store;
     DataService.country_data := DataService.country_data Example.store;
     DataService.hdi_data := None;
     DataService.timeseries_data := DataService.timeseries_data Example.store;
     DataService.country_grid_mapping := DataService.country_grid_mapping Example.store;
     DataService.is_loaded := true |}.

(** A record with nothing but its keys and a coordinate. *)
Definition cell_at (lat lon : Q) : Schemas.GridCellData :=
  {| Schemas.grid_id := 62356;
     Schemas.month_id := 548;
     Schemas.country_id := None;
     Schemas.latitude := Some lat;
     Schemas.longitude := Some lon;
     Schemas.main_mean := None;
     Schemas.main_mean_ln := None;
     Schemas.main_dich := None;
     Schemas.hdi_50_lower := None;
     Schemas.hdi_50_upper := None;
     Schemas.hdi_90_lower := None;
     Schemas.hdi_90_upper := None;
     Schemas.hdi_99_lower := None;
     Schemas.hdi_99_upper := None;
     Schemas.threshold_1 := None;
     Schemas.threshold_2 := None;
     Schemas.threshold_3 := None;
     Schemas.threshold_4 := None;
     Schemas.threshold_5 := None;
     Schemas.threshold_6 := None;
     Schemas.conflict_type := None;
     Schemas.country_name := None;
     Schemas.year := None;
     Schemas.month := None |}.

(** * Properties *)

Import ForecastService.

(** ** Arithmetic of the generator *)

Lemma land_mask32_range (y : Z) : 0 <= Z.land y 0xffffffff < 2 ^ 32.
Proof.
  change 0xffffffff with (Z.ones 32).
  rewrite Z.land_ones by lia.
  apply Z.mod_pos_bound. lia.
Qed.

Lemma mt19937_next_range (st : MT19937.mt19937_state) :
  0 <= fst (MT19937.mt19937_next st) < 2 ^ 32.
Proof. unfold MT19937.mt19937_next. cbn [fst]. apply land_mask32_range. Qed.

Lemma shiftr_range (x k n : Z) :
  0 <= k -> 0 <= n -> 0 <= x < 2 ^ (n + k) -> 0 <= Z.shiftr x k < 2 ^ n.
Proof.
  intros Hk Hn [H0 H1]. rewrite Z.shiftr_div_pow2 by lia.
  split.
  - apply Z.div_pos; [lia | apply Z.pow_pos_nonneg; lia].
  - apply Z.div_lt_upper_bound; [apply Z.pow_pos_nonneg; lia |].
    rewrite <- Z.pow_add_r by lia. now rewrite Z.add_comm.
Qed.

Lemma unit_fraction (n d : Z) :
  0 <= n < d -> (0 <= inject_Z n / inject_Z d)%Q /\ (inject_Z n / inject_Z d < 1)%Q.
Proof.
  intros [H0 H1].
  assert (Hd : (0 < inject_Z d)%Q) by (unfold Qlt; simpl; lia).
  assert (Hn : (0 <= inject_Z n)%Q) by (unfold Qle; simpl; lia).
  assert (Hnd : (inject_Z n < inject_Z d)%Q) by (unfold Qlt; simpl; lia).
  split.
  - apply Qle_shift_div_l; [exact Hd | lra].
  - apply Qlt_shift_div_r; [exact Hd | lra].
Qed.

(** A draw of [mt19937_next_double] lies in [0, 1). *)
Lemma mt19937_next_double_range (st : MT19937.mt19937_state) :
  (0 <= fst (MT19937.mt19937_next_double st))%Q /\
  (fst (MT19937.mt19937_next_double st) < 1)%Q.
Proof.
  unfold MT19937.mt19937_next_double.
  pose proof (mt19937_next_range st) as Hx.
  destruct (MT19937.mt19937_next st) as [x st1]. cbn [fst] in Hx.
  pose proof (mt19937_next_range st1) as Hy.
  destruct (MT19937.mt19937_next st1) as [y st2]. cbn [fst] in Hy |- *.
  pose proof (shiftr_range x 5 27 ltac:(lia) ltac:(lia) Hx) as Ha.
  pose proof (shiftr_range y 6 26 ltac:(lia) ltac:(lia) Hy) as Hb.
  apply unit_fraction.
  change (2 ^ 27) with 134217728 in Ha. change (2 ^ 26) with 67108864 in Hb.
  lia.
Qed.

(** [np.random.uniform(low, high)] lies in [[low, high)] when [low < high]. *)
Lemma uniform_range (low high : Q) (st : MT19937.mt19937_state) :
  (low < high)%Q ->
  (low <= fst (MT19937.uniform low high st))%Q /\
  (fst (MT19937.uniform low high st) < high)%Q.
Proof.
  intros Hlh. unfold MT19937.uniform.
  pose proof (mt19937_next_double_range st) as [H0 H1].
  destruct (MT19937.mt19937_next_double st) as [r st1]. cbn [fst] in *.
  split; nra.
Qed.

(** ** [max(0, _)] and [min(1, _)] *)

Lemma Qle_bool_false (x y : Q) : Qle_bool x y = false -> (y < x)%Q.
Proof.
  intros H. apply Qnot_le_lt. intros Hle.
  apply Qle_bool_iff in Hle. congruence.
Qed.

Ltac minmax :=
  unfold SpecWords.band, SpecWords.slot, SpecWords.clamp, Py.max, Py.min in *;
  repeat match goal with
         | |- context [Qle_bool ?a ?b] =>
             let E := fresh "E" in
             destruct (Qle_bool a b) eqn:E;
             [apply Qle_bool_iff in E | apply Qle_bool_false in E]
         | H : context [if Qle_bool ?a ?b then _ else _] |- _ =>
             let E := fresh "E" in
             destruct (Qle_bool a b) eqn:E;
             [apply Qle_bool_iff in E | apply Qle_bool_false in E]
         end;
  try reflexivity; try lra; try (exfalso; lra).

Lemma max0_nonneg (x : Q) : (0 <= Py.max 0 x)%Q.
Proof. minmax. Qed.

Lemma max0_le (p u : Q) : (0 <= p)%Q -> (0 <= u)%Q -> (Py.max 0 (p - u) <= p)%Q.
Proof. intros. minmax. Qed.

Lemma max0_lt (p u : Q) : (0 < p)%Q -> (0 < u)%Q -> (Py.max 0 (p - u) < p)%Q.
Proof. intros. minmax. Qed.

Lemma max0_antitone (p u v : Q) : (u <= v)%Q -> (Py.max 0 (p - v) <= Py.max 0 (p - u))%Q.
Proof. intros. minmax. Qed.

Lemma min1_le_1 (x : Q) : (Py.min 1 x <= 1)%Q.
Proof. minmax. Qed.

Lemma min1_ge (p u : Q) : (p <= 1)%Q -> (0 <= u)%Q -> (p <= Py.min 1 (p + u))%Q.
Proof. intros. minmax. Qed.

(** On a probability the one-sided clamps of the code are the two-sided
    clamp of the specification. *)
Lemma max0_is_clamp (p u : Q) :
  (p <= 1)%Q -> (0 < u)%Q -> Py.max 0 (p - u) = SpecWords.clamp (p - u).
Proof. intros. minmax. Qed.

Lemma min1_is_clamp (p u : Q) :
  (0 <= p)%Q -> (0 < u)%Q -> Py.min 1 (p + u) = SpecWords.clamp (p + u).
Proof. intros. minmax. Qed.

Lemma band_is_code (p ul uu : Q) :
  (0 <= p)%Q -> (p <= 1)%Q -> (0 < ul)%Q -> (0 < uu)%Q ->
  (Py.max 0 (p - ul), Py.min 1 (p + uu)) = SpecWords.band p ul uu.
Proof. intros. minmax. Qed.

(** ** The nine draws of the synthetic metrics *)

Ltac draw :=
  match goal with
  | |- context [MT19937.uniform ?a ?b ?s] =>
      let H := fresh "Hu" in
      let u := fresh "u" in
      let s' := fresh "rng" in
      pose proof (uniform_range a b s ltac:(lra)) as H;
      destruct (MT19937.uniform a b s) as [u s']; cbn [fst] in H
  end.

Lemma synthetic_metrics_dict_offsets (p : Q) (rng : MT19937.mt19937_state) :
  exists o, offsets_in_range o /\
            fst (synthetic_metrics_dict p rng) = metrics_of_offsets p o.
Proof.
  unfold synthetic_metrics_dict.
  do 9 draw. cbn [fst].
  exists {| u_hdi_50_lower := u; u_hdi_50_upper := u0; u_hdi_99_lower := u1;
            u_hdi_99_upper := u2; u_threshold_2 := u3; u_threshold_3 := u4;
            u_threshold_4 := u5; u_threshold_5 := u6; u_threshold_6 := u7 |}.
  split; [| reflexivity].
  unfold offsets_in_range; cbn; tauto.
Qed.

Lemma synthetic_metrics_offsets (p : Q) (rng : MT19937.mt19937_state) :
  exists o, offsets_in_range o /\
            fst (_generate_synthetic_metrics p rng) = metrics_of_offsets p o.
Proof. unfold _generate_synthetic_metrics. apply synthetic_metrics_dict_offsets. Qed.
(** ** The hash integer of the coordinate fallback *)

Lemma hex_value_digit (d : Z) : 0 <= d < 16 -> Py.hex_value (MD5.hex_digit d) = Some d.
Proof.
  intros H.
  assert (Hd : d = 0 \/ d = 1 \/ d = 2 \/ d = 3 \/ d = 4 \/ d = 5 \/ d = 6 \/ d = 7 \/
               d = 8 \/ d = 9 \/ d = 10 \/ d = 11 \/ d = 12 \/ d = 13 \/ d = 14 \/ d = 15)
    by lia.
  repeat (destruct Hd as [-> | Hd]; [reflexivity |]). subst d. reflexivity.
Qed.

Lemma byte_nibbles (b : Z) :
  0 <= b < 256 -> 0 <= b / 16 < 16 /\ 0 <= b mod 16 < 16 /\ 16 * (b / 16) + b mod 16 = b.
Proof. intros H. pose proof (Z.div_mod b 16 ltac:(lia)). 
  pose proof (Z.mod_pos_bound b 16 ltac:(lia)). lia. Qed.

Lemma digest_prefix (msg : list Z) :
  exists b0 b1 b2 b3 rest,
    MD5.digest msg = b0 :: b1 :: b2 :: b3 :: rest /\
    0 <= b0 < 256 /\ 0 <= b1 < 256 /\ 0 <= b2 < 256 /\ 0 <= b3 < 256.
Proof.
  unfold MD5.digest.
  destruct (MD5.process _ _ _) as [[[a0 b0] c0] d0].
  cbn [MD5.to_le_bytes app].
  do 5 eexists. split; [reflexivity |].
  repeat split; apply Z.mod_pos_bound; lia.
Qed.

(** [int(hexdigest()[:8], 16)] never fails and reads the first four digest
    bytes as a big-endian unsigned integer. *)
Lemma hash_int_first_32_bits (msg : list Z) :
  Py.int16 (Py.prefix 8 (MD5.hexdigest msg)) = Some (SpecWords.first_32_bits (MD5.digest msg)) /\
  0 <= SpecWords.first_32_bits (MD5.digest msg) < 2 ^ 32.
Proof.
  unfold MD5.hexdigest.
  destruct (digest_prefix msg) as (b0 & b1 & b2 & b3 & rest & -> & H0 & H1 & H2 & H3).
  destruct (byte_nibbles b0 H0) as (? & ? & ?).
  destruct (byte_nibbles b1 H1) as (? & ? & ?).
  destruct (byte_nibbles b2 H2) as (? & ? & ?).
  destruct (byte_nibbles b3 H3) as (? & ? & ?).
  unfold SpecWords.first_32_bits. cbn [take foldl MD5.hex_of_bytes Py.prefix].
  unfold Py.int16. cbn [Py.int16_acc].
  rewrite !hex_value_digit by assumption.
  change (take 0 rest) with (@nil Z). cbn [foldl].
  split; [f_equal |]; lia.
Qed.

(** ** The coordinate fallback *)
Lemma generate_coordinates_for_grid_value (grid_id : Py.number) :
  let h := SpecWords.first_32_bits (MD5.digest (Py.encode (Py.str_number grid_id))) in
  _generate_coordinates_for_grid grid_id =
    Ok ((inject_Z (h mod 13000) / 100 - 60)%Q,
        (inject_Z ((h / 13000) mod 36000) / 100 - 180)%Q).
Proof.
  intros h. unfold _generate_coordinates_for_grid. cbv zeta.
  destruct (hash_int_first_32_bits (Py.encode (Py.str_number grid_id))) as [H _].
  rewrite H. reflexivity.
Qed.

Lemma generate_coordinates_same (grid_id : Py.number) :
  generate_coordinates grid_id = _generate_coordinates_for_grid grid_id.
Proof. unfold generate_coordinates, _generate_coordinates_for_grid. reflexivity. Qed.

Lemma hundredths_range (n k : Z) :
  0 <= n < 100 * k -> (0 <= inject_Z n / 100)%Q /\ (inject_Z n / 100 < inject_Z k)%Q.
Proof.
  intros [H0 H1]. split.
  - apply Qle_shift_div_l; [lra |]. unfold Qle; simpl; lia.
  - apply Qlt_shift_div_r; [lra |]. unfold Qlt; simpl; lia.
Qed.

Lemma synthetic_coordinate_range (h : Z) :
  (-60 <= inject_Z (h mod 13000) / 100 - 60)%Q /\
  (inject_Z (h mod 13000) / 100 - 60 < 70)%Q /\
  (-180 <= inject_Z ((h / 13000) mod 36000) / 100 - 180)%Q /\
  (inject_Z ((h / 13000) mod 36000) / 100 - 180 < 180)%Q.
Proof.
  pose proof (Z.mod_pos_bound h 13000 ltac:(lia)) as Hlat.
  pose proof (Z.mod_pos_bound (h / 13000) 36000 ltac:(lia)) as Hlon.
  destruct (hundredths_range (h mod 13000) 130 ltac:(lia)) as [? ?].
  destruct (hundredths_range ((h / 13000) mod 36000) 360 ltac:(lia)) as [? ?].
  change (inject_Z 130) with 130%Q in *. change (inject_Z 360) with 360%Q in *.
  repeat split; lra.
Qed.

Lemma int_is_floor (x : Q) : (0 <= x)%Q -> Py.int x = Qfloor x.
Proof.
  intros H. unfold Py.int, Qfloor. destruct x as [n d]. cbn [Qnum Qden].
  apply Z.quot_div_nonneg; [| lia].
  unfold Qle in H. simpl in H. lia.
Qed.

Lemma seed_is_spec_seed (p : Q) :
  (0 <= p)%Q -> Py.int (p * 10000) mod 2 ^ 32 = SpecWords.seed p.
Proof.
  intros H. unfold SpecWords.seed. rewrite int_is_floor; [reflexivity | nra].
Qed.

Lemma synthetic_metrics_reseeded (p : Q) (rng1 rng2 : MT19937.mt19937_state) :
  _generate_synthetic_metrics p rng1 = _generate_synthetic_metrics p rng2.
Proof. unfold _generate_synthetic_metrics. reflexivity. Qed.

(** ** Synthetic bounds and threshold slots *)

Ltac with_offsets p rng :=
  let o := fresh "o" in
  let Ho := fresh "Ho" in
  let Heq := fresh "Heq" in
  destruct (synthetic_metrics_offsets p rng) as (o & Ho & Heq);
  cbv zeta; rewrite Heq; clear Heq;
  unfold offsets_in_range in Ho;
  destruct Ho as ([? ?] & [? ?] & [? ?] & [? ?] & [? ?] & [? ?] & [? ?] & [? ?] & [? ?]);
  cbn [metrics_of_offsets Synthetic.hdi_50_lower Synthetic.hdi_50_upper
       Synthetic.hdi_99_lower Synthetic.hdi_99_upper Synthetic.threshold_2
       Synthetic.threshold_3 Synthetic.threshold_4 Synthetic.threshold_5
       Synthetic.threshold_6].

(** C5, as amended. The code clamps every synthesized bound on one side:
    for every point estimate the synthesized lower bounds and threshold
    slots are at least 0 and the synthesized upper bounds at most 1; for a
    point estimate in [0, 1] (the range of the binary-threshold
    probability) all nine values lie in [0, 1], each pair has
    lower <= p <= upper, and the values of the code are those of the
    specification's rule (two-sided clamp, then lower set to upper on a
    collapsed pair) for offsets drawn in the ranges of the code. *)
Theorem synthesized_bounds_clamped (p : Q) (rng : MT19937.mt19937_state) :
  let m := fst (_generate_synthetic_metrics p rng) in
  ((0 <= Synthetic.hdi_50_lower m) /\ (Synthetic.hdi_50_upper m <= 1) /\
   (0 <= Synthetic.hdi_99_lower m) /\ (Synthetic.hdi_99_upper m <= 1) /\
   (0 <= Synthetic.threshold_2 m) /\ (0 <= Synthetic.threshold_3 m) /\
   (0 <= Synthetic.threshold_4 m) /\ (0 <= Synthetic.threshold_5 m) /\
   (0 <= Synthetic.threshold_6 m))%Q /\
  ((0 <= p)%Q -> (p <= 1)%Q ->
   ((Synthetic.hdi_50_lower m <= p) /\ (p <= Synthetic.hdi_50_upper m) /\
    (Synthetic.hdi_99_lower m <= p) /\ (p <= Synthetic.hdi_99_upper m) /\
    (Synthetic.hdi_50_lower m <= Synthetic.hdi_50_upper m) /\
    (Synthetic.hdi_99_lower m <= Synthetic.hdi_99_upper m) /\
    (0 <= Synthetic.hdi_50_upper m) /\ (Synthetic.hdi_50_lower m <= 1) /\
    (0 <= Synthetic.hdi_99_upper m) /\ (Synthetic.hdi_99_lower m <= 1) /\
    (Synthetic.threshold_2 m <= 1) /\ (Synthetic.threshold_3 m <= 1) /\
    (Synthetic.threshold_4 m <= 1) /\ (Synthetic.threshold_5 m <= 1) /\
    (Synthetic.threshold_6 m <= 1))%Q /\
   exists o : offsets,
     offsets_in_range o /\
     (Synthetic.hdi_50_lower m, Synthetic.hdi_50_upper m) =
       SpecWords.band p (u_hdi_50_lower o) (u_hdi_50_upper o) /\
     (Synthetic.hdi_99_lower m, Synthetic.hdi_99_upper m) =
       SpecWords.band p (u_hdi_99_lower o) (u_hdi_99_upper o) /\
     Synthetic.threshold_2 m = SpecWords.slot p (u_threshold_2 o) /\
     Synthetic.threshold_3 m = SpecWords.slot p (u_threshold_3 o) /\
     Synthetic.threshold_4 m = SpecWords.slot p (u_threshold_4 o) /\
     Synthetic.threshold_5 m = SpecWords.slot p (u_threshold_5 o) /\
     Synthetic.threshold_6 m = SpecWords.slot p (u_threshold_6 o)).
Proof.
  destruct (synthetic_metrics_offsets p rng) as (o & Ho & Heq).
  cbv zeta. rewrite Heq. clear Heq.
  pose proof Ho as Ho'.
  unfold offsets_in_range in Ho'.
  destruct Ho' as ([? ?] & [? ?] & [? ?] & [? ?] & [? ?] & [? ?] & [? ?] & [? ?] & [? ?]).
  cbn [metrics_of_offsets Synthetic.hdi_50_lower Synthetic.hdi_50_upper
       Synthetic.hdi_99_lower Synthetic.hdi_99_upper Synthetic.threshold_2
       Synthetic.threshold_3 Synthetic.threshold_4 Synthetic.threshold_5
       Synthetic.threshold_6].
  split.
  - repeat split; first [apply max0_nonneg | apply min1_le_1].
  - intros Hp0 Hp1. split.
    + repeat split; minmax.
    + exists o. split; [exact Ho |].
      repeat split;
        first [apply band_is_code; lra | unfold SpecWords.slot; apply max0_is_clamp; lra].
Qed.

Lemma synthesized_bounds_clamped_witness :
  let m := fst (_generate_synthetic_metrics 0.999 Example.rng0) in
  (Synthetic.hdi_50_lower m <= Synthetic.hdi_50_upper m)%Q /\
  (Synthetic.hdi_99_lower m <= Synthetic.hdi_99_upper m)%Q /\
  (Synthetic.hdi_99_upper m <= 1)%Q.
Proof.
  destruct (synthesized_bounds_clamped 0.999 Example.rng0) as [[_ [_ [_ [Hu _]]]] H].
  destruct H as [(_ & _ & _ & _ & H50 & H99 & _) _]; [lra | lra |].
  cbv zeta. repeat split; assumption.
Defined.

(** C5, as stated, fails: the code has no step that sets a lower bound to
    its upper bound, and it clamps a lower bound at 0 only. For the point
    estimate 2 (seed 20000) the lower bound of the 50% band is above 1,
    hence outside [0, 1], and above its upper bound, which is clamped to 1;
    the same holds of the 99% band. *)
Lemma synthesized_lower_bound_above_upper :
  let m := fst (_generate_synthetic_metrics 2 Example.rng0) in
  (1 < Synthetic.hdi_50_lower m)%Q /\
  Synthetic.hdi_50_upper m = 1%Q /\
  ~ (Synthetic.hdi_50_lower m <= Synthetic.hdi_50_upper m)%Q /\
  (1 < Synthetic.hdi_99_lower m)%Q /\
  Synthetic.hdi_99_upper m = 1%Q /\
  ~ (Synthetic.hdi_99_lower m <= Synthetic.hdi_99_upper m)%Q.
Proof.
  assert (H50 : (1 < Synthetic.hdi_50_lower
                       (fst (_generate_synthetic_metrics 2 Example.rng0)))%Q)
    by (unfold Qlt; vm_compute; reflexivity).
  assert (H99 : (1 < Synthetic.hdi_99_lower
                       (fst (_generate_synthetic_metrics 2 Example.rng0)))%Q)
    by (unfold Qlt; vm_compute; reflexivity).
  assert (U50 : Synthetic.hdi_50_upper (fst (_generate_synthetic_metrics 2 Example.rng0)) = 1%Q)
    by (vm_compute; reflexivity).
  assert (U99 : Synthetic.hdi_99_upper (fst (_generate_synthetic_metrics 2 Example.rng0)) = 1%Q)
    by (vm_compute; reflexivity).
  cbv zeta.
  split; [exact H50 |]. split; [exact U50 |].
  split; [rewrite U50; intros Hle; exact (Qlt_not_le _ _ H50 Hle) |].
  split; [exact H99 |]. split; [exact U99 |].
  rewrite U99. intros Hle. exact (Qlt_not_le _ _ H99 Hle).
Qed.

(** C2, as amended. For a point estimate p >= 0 every synthetic threshold
    slot is at most p (strictly below p when p > 0), and the slots whose
    offset ranges do not overlap are ordered: threshold_1 = p >=
    threshold_2 >= threshold_3 >= threshold_4 >= threshold_6 and
    threshold_3 >= threshold_5. *)
Theorem threshold_slots_ordered (p : Q) (rng : MT19937.mt19937_state) :
  (0 <= p)%Q ->
  let m := fst (_generate_synthetic_metrics p rng) in
  ((Synthetic.threshold_2 m <= p) /\ (Synthetic.threshold_3 m <= Synthetic.threshold_2 m) /\
   (Synthetic.threshold_4 m <= Synthetic.threshold_3 m) /\
   (Synthetic.threshold_6 m <= Synthetic.threshold_4 m) /\
   (Synthetic.threshold_5 m <= Synthetic.threshold_3 m) /\
   (Synthetic.threshold_5 m <= p) /\ (Synthetic.threshold_6 m <= p))%Q /\
  ((0 < p)%Q ->
   (Synthetic.threshold_2 m < p) /\ (Synthetic.threshold_3 m < p) /\
   (Synthetic.threshold_4 m < p) /\ (Synthetic.threshold_5 m < p) /\
   (Synthetic.threshold_6 m < p))%Q.
Proof.
  intros Hp. with_offsets p rng.
  split.
  - repeat split; first [apply max0_antitone; lra | apply max0_le; lra].
  - intros Hpos. repeat split; apply max0_lt; lra.
Qed.

Lemma threshold_slots_ordered_witness :
  let m := fst (_generate_synthetic_metrics 0.5 Example.rng0) in
  (Synthetic.threshold_4 m <= Synthetic.threshold_3 m)%Q /\
  (Synthetic.threshold_6 m < 0.5)%Q.
Proof.
  destruct (threshold_slots_ordered 0.5 Example.rng0 ltac:(lra)) as [H1 H2].
  destruct H1 as (_ & _ & H43 & _).
  destruct (H2 ltac:(lra)) as (_ & _ & _ & _ & H6).
  cbv zeta. split; assumption.
Defined.

(** C2, as stated, fails: for the point estimate 0.5 (seed 5000) the draws
    of the generator give threshold_4 < threshold_5, so the six slots are
    not monotone decreasing. *)
Lemma threshold_slots_not_monotone :
  let m := fst (_generate_synthetic_metrics 0.5 Example.rng0) in
  (0 <= 0.5)%Q /\ (0.5 <= 1)%Q /\
  (Synthetic.threshold_4 m < Synthetic.threshold_5 m)%Q /\
  ~ (Synthetic.threshold_5 m <= Synthetic.threshold_4 m)%Q.
Proof.
  assert (H : (Synthetic.threshold_4 (fst (_generate_synthetic_metrics 0.5 Example.rng0)) <
               Synthetic.threshold_5 (fst (_generate_synthetic_metrics 0.5 Example.rng0)))%Q).
  { unfold Qlt. vm_compute. reflexivity. }
  cbv zeta. split; [lra |]. split; [lra |]. split; [exact H |].
  intros Hle. apply (Qlt_not_le _ _ H Hle).
Qed.

(** C6. The fallbacks are deterministic: the coordinate generator always
    returns a pair, the same from both copies of the function; the synthetic
    metrics and the generator state left behind do not depend on the state
    of the global generator before the call, because the call reseeds it;
    for p >= 0 the seed is floor(p * 10000) mod 2^32. *)
Theorem generators_deterministic
    (grid_id : Py.number) (p : Q) (rng1 rng2 : MT19937.mt19937_state) :
  (exists lat lon,
      _generate_coordinates_for_grid grid_id = Ok (lat, lon) /\
      generate_coordinates grid_id = Ok (lat, lon)) /\
  _generate_synthetic_metrics p rng1 = _generate_synthetic_metrics p rng2 /\
  fst (_generate_synthetic_metrics p rng1) =
    fst (_generate_synthetic_metrics p (snd (_generate_synthetic_metrics p rng1))) /\
  ((0 <= p)%Q ->
   _generate_synthetic_metrics p rng1 =
     synthetic_metrics_dict p (MT19937.mt19937_seed (SpecWords.seed p))).
Proof.
  split; [| split; [| split]].
  - pose proof (generate_coordinates_for_grid_value grid_id) as H. cbv zeta in H.
    pose proof (generate_coordinates_same grid_id) as H'.
    rewrite H in H'.
    do 2 eexists. split; [exact H | exact H'].
  - apply synthetic_metrics_reseeded.
  - rewrite (synthetic_metrics_reseeded p (snd (_generate_synthetic_metrics p rng1)) rng1).
    reflexivity.
  - intros Hp. unfold _generate_synthetic_metrics.
    cbv zeta. rewrite (seed_is_spec_seed p Hp). reflexivity.
Qed.

Lemma generators_deterministic_witness :
  _generate_synthetic_metrics 0.5 Example.rng0 =
    synthetic_metrics_dict 0.5 (MT19937.mt19937_seed (SpecWords.seed 0.5)).
Proof.
  destruct (generators_deterministic (Py.Int 999999) 0.5 Example.rng0 Example.rng0)
    as (_ & _ & _ & H).
  apply H. lra.
Defined.

(** ** One enriched record *)

Lemma dict_get_hdi_90_lower (l u : option Q) :
  dict_get (<["hdi_90_upper" := u]> (<["hdi_90_lower" := l]> ∅)) "hdi_90_lower" = l.
Proof.
  unfold dict_get.
  rewrite lookup_insert_ne by discriminate.
  rewrite lookup_insert_eq. reflexivity.
Qed.

Lemma dict_get_hdi_90_upper (l u : option Q) :
  dict_get (<["hdi_90_upper" := u]> (<["hdi_90_lower" := l]> ∅)) "hdi_90_upper" = u.
Proof. unfold dict_get. rewrite lookup_insert_eq. reflexivity. Qed.

Lemma dict_get_empty (k : string) : dict_get ∅ k = None.
Proof. unfold dict_get. rewrite lookup_empty. reflexivity. Qed.

Lemma GridCellData_init_Ok (c cell : Schemas.GridCellData) :
  Schemas.GridCellData_init c = Ok cell -> cell = c.
Proof.
  unfold Schemas.GridCellData_init.
  destruct (Schemas.validate_latitude _); [| discriminate].
  destruct (Schemas.validate_longitude _); [| discriminate].
  congruence.
Qed.

(** What a successful call of [_create_grid_cell_data] returns, field by
    field. *)
Lemma create_grid_cell_data_Ok
    (main_row : Pgm.row) (hdi_data : list Hdi.row) (coord_data : list Coord.row)
    (country_map : gmap Z string) (metrics : Schemas.MetricSelection)
    (rng : MT19937.mt19937_state) (cell : Schemas.GridCellData) :
  fst (_create_grid_cell_data main_row hdi_data coord_data country_map metrics rng) = Ok cell ->
  let grid_id := Pgm.pg_id main_row in
  let base_prob := default 0.01%Q (Pgm.main_dich main_row) in
  let matching_coords := List.filter (fun c => Coord.priogrid_id c =? grid_id) coord_data in
  let matching_hdi := List.filter (fun h => Hdi.priogrid_id h =? grid_id) hdi_data in
  let country_id :=
    match Pgm.country_id main_row with
    | Some c => Some c
    | None => match matching_coords with
              | c :: _ => Coord.country_id c
              | [] => None
              end
    end in
  let sel (flag : bool) (v : option Q) : option Q := if flag then v else None in
  exists (lat lon : Q) (sm : Synthetic.t),
    sm = fst (_generate_synthetic_metrics base_prob rng) /\
    match matching_coords with
    | c :: _ =>
        match Py.or_float (Coord.lat c) (Coord.latitude c),
              Py.or_float (Coord.lon c) (Coord.longitude c) with
        | Some la, Some lo => lat = la /\ lon = lo
        | _, _ => _generate_coordinates_for_grid (Pgm.scalar main_row Pgm.pg_id) = Ok (lat, lon)
        end
    | [] => _generate_coordinates_for_grid (Pgm.scalar main_row Pgm.pg_id) = Ok (lat, lon)
    end /\
    cell =
      {| Schemas.grid_id := grid_id;
         Schemas.month_id := Pgm.month_id main_row;
         Schemas.country_id := country_id;
         Schemas.latitude := Some lat;
         Schemas.longitude := Some lon;
         Schemas.main_mean := sel (Schemas.include_map metrics) (Pgm.main_mean main_row);
         Schemas.main_mean_ln := sel (Schemas.include_map metrics) (Pgm.main_mean_ln main_row);
         Schemas.main_dich := sel (Schemas.include_thresholds metrics) (Pgm.main_dich main_row);
         Schemas.hdi_50_lower :=
           sel (Schemas.include_hdi_50 metrics) (Some (Synthetic.hdi_50_lower sm));
         Schemas.hdi_50_upper :=
           sel (Schemas.include_hdi_50 metrics) (Some (Synthetic.hdi_50_upper sm));
         Schemas.hdi_90_lower :=
           sel (Schemas.include_hdi_90 metrics)
               match matching_hdi with
               | h :: _ => Hdi.pred_ln_sb_prob_hdi_lower h
               | [] => None
               end;
         Schemas.hdi_90_upper :=
           sel (Schemas.include_hdi_90 metrics)
               match matching_hdi with
               | h :: _ => Hdi.pred_ln_sb_prob_hdi_upper h
               | [] => None
               end;
         Schemas.hdi_99_lower :=
           sel (Schemas.include_hdi_99 metrics) (Some (Synthetic.hdi_99_lower sm));
         Schemas.hdi_99_upper :=
           sel (Schemas.include_hdi_99 metrics) (Some (Synthetic.hdi_99_upper sm));
         Schemas.threshold_1 := sel (Schemas.include_thresholds metrics) (Some base_prob);
         Schemas.threshold_2 :=
           sel (Schemas.include_thresholds metrics) (Some (Synthetic.threshold_2 sm));
         Schemas.threshold_3 :=
           sel (Schemas.include_thresholds metrics) (Some (Synthetic.threshold_3 sm));
         Schemas.threshold_4 :=
           sel (Schemas.include_thresholds metrics) (Some (Synthetic.threshold_4 sm));
         Schemas.threshold_5 :=
           sel (Schemas.include_thresholds metrics) (Some (Synthetic.threshold_5 sm));
         Schemas.threshold_6 :=
           sel (Schemas.include_thresholds metrics) (Some (Synthetic.threshold_6 sm));
         Schemas.conflict_type := Some Schemas.STATE_BASED;
         Schemas.country_name :=
           match country_id with
           | Some c => country_map !! c
           | None => None
           end;
         Schemas.year := Some (year_of_month_id (Pgm.month_id main_row));
         Schemas.month := Some (month_of_month_id (Pgm.month_id main_row)) |}.
Proof.
  intros H. cbv zeta.
  unfold _create_grid_cell_data in H.
  set (base_prob := default 0.01%Q (Pgm.main_dich main_row)) in *.
  destruct (_generate_synthetic_metrics base_prob rng) as [sm rng2] eqn:Hsm.
  cbn [fst].
  set (mc := List.filter (fun c => Coord.priogrid_id c =? Pgm.pg_id main_row) coord_data) in *.
  set (mh := List.filter (fun h => Hdi.priogrid_id h =? Pgm.pg_id main_row) hdi_data) in *.
  destruct mc as [| c mc'].
  - destruct (_generate_coordinates_for_grid (Pgm.scalar main_row Pgm.pg_id)) as [[lat lon] | e] eqn:Hg;
      [| discriminate].
    exists lat, lon, sm. split; [reflexivity |]. split; [reflexivity |].
    cbn [fst] in H. apply GridCellData_init_Ok in H. subst cell.
    destruct mh as [| h mh']; cbn beta iota;
      rewrite ?dict_get_empty, ?dict_get_hdi_90_lower, ?dict_get_hdi_90_upper; reflexivity.
  - destruct (Py.or_float (Coord.lat c) (Coord.latitude c)) as [la |];
      [destruct (Py.or_float (Coord.lon c) (Coord.longitude c)) as [lo |] |].
    + exists la, lo, sm. split; [reflexivity |]. split; [split; reflexivity |].
      cbn [fst] in H. apply GridCellData_init_Ok in H. subst cell.
      destruct mh as [| h mh']; cbn beta iota;
        rewrite ?dict_get_empty, ?dict_get_hdi_90_lower, ?dict_get_hdi_90_upper; reflexivity.
    + destruct (_generate_coordinates_for_grid (Pgm.scalar main_row Pgm.pg_id)) as [[lat lon] | e] eqn:Hg;
        [| discriminate].
      exists lat, lon, sm. split; [reflexivity |]. split; [reflexivity |].
      cbn [fst] in H. apply GridCellData_init_Ok in H. subst cell.
      destruct mh as [| h mh']; cbn beta iota;
        rewrite ?dict_get_empty, ?dict_get_hdi_90_lower, ?dict_get_hdi_90_upper; reflexivity.
    + destruct (_generate_coordinates_for_grid (Pgm.scalar main_row Pgm.pg_id)) as [[lat lon] | e] eqn:Hg;
        [| discriminate].
      exists lat, lon, sm. split; [reflexivity |]. split; [reflexivity |].
      cbn [fst] in H. apply GridCellData_init_Ok in H. subst cell.
      destruct mh as [| h mh']; cbn beta iota;
        rewrite ?dict_get_empty, ?dict_get_hdi_90_lower, ?dict_get_hdi_90_upper; reflexivity.
Qed.

(** ** The loop over the primary rows *)

Lemma filter_filter_implied {A} (p q : A -> bool) (l : list A) :
  (forall x, p x = true -> q x = true) ->
  List.filter p (List.filter q l) = List.filter p l.
Proof.
  intros Hpq. induction l as [| x l IH]; [reflexivity |].
  cbn [List.filter]. destruct (q x) eqn:Hq.
  - cbn [List.filter]. destruct (p x); now rewrite IH.
  - destruct (p x) eqn:Hp; [| exact IH].
    apply Hpq in Hp. congruence.
Qed.

Lemma filter_In_all {A} (p : A -> bool) (l : list A) :
  Forall (fun x => p x = true) (List.filter p l).
Proof.
  apply Forall_forall. intros x Hx.
  apply list_elem_of_In in Hx. apply filter_In in Hx. tauto.
Qed.

Lemma isin_spec (x : Z) (l : list Z) : Py.isin x l = true <-> In x l.
Proof.
  unfold Py.isin. rewrite existsb_exists. split.
  - intros (y & Hy & Heq). apply Z.eqb_eq in Heq. now subst.
  - intros H. exists x. split; [exact H | apply Z.eqb_refl].
Qed.

(** The rows that [enrich_rows] turns into records: one record per row, in
    row order, appended to what was accumulated. *)
Lemma enrich_rows_Ok
    (hdi : list Hdi.row) (coord_lookup : gmap Z Coord.row) (country_map : gmap Z string)
    (metrics : Schemas.MetricSelection) (rows : list Pgm.row) :
  forall (acc : list Schemas.GridCellData) (rng : MT19937.mt19937_state)
         (out : list Schemas.GridCellData),
    fst (enrich_rows (Some hdi) coord_lookup country_map metrics rows acc rng) = Ok out ->
    exists cells,
      out = acc ++ cells /\
      Forall2 (row_enriched hdi coord_lookup country_map metrics) rows cells.
Proof.
  induction rows as [| row rows IH]; intros acc rng out H.
  - cbn in H. injection H as <-. exists []. split; [now rewrite app_nil_r | constructor].
  - cbn [enrich_rows] in H.
    destruct (coord_row_for coord_lookup row) as [coord_row | e] eqn:Hc; [| discriminate].
    destruct (_create_grid_cell_data row _ coord_row country_map metrics rng)
      as [[cell | e] rng2] eqn:Hcell; [| discriminate].
    apply IH in H. destruct H as (cells & -> & HF).
    exists (cell :: cells). split.
    + now rewrite <- app_assoc.
    + constructor; [| exact HF].
      exists coord_row, rng. split; [exact Hc |]. now rewrite Hcell.
Qed.

Lemma enrich_rows_no_columns
    (coord_lookup : gmap Z Coord.row) (country_map : gmap Z string)
    (metrics : Schemas.MetricSelection) (row : Pgm.row) (rows : list Pgm.row)
    (acc : list Schemas.GridCellData) (rng : MT19937.mt19937_state) :
  enrich_rows None coord_lookup country_map metrics (row :: rows) acc rng =
    (Err (KeyError "priogrid_id"), rng).
Proof. reflexivity. Qed.

(** A successful query: the primary rows it selected, and one record for
    each of them, in the same order. *)
Lemma get_enriched_forecasts_Ok
    (ds : DataService.t) (grid_ids : list Z) (month_ids : option (list Z))
    (metrics : Schemas.MetricSelection) (rng : MT19937.mt19937_state)
    (out : list Schemas.GridCellData) :
  fst (_get_enriched_forecasts ds grid_ids month_ids metrics rng) = Ok out ->
  exists main_data hdi,
    DataService.get_grid_data ds grid_ids month_ids = Ok main_data /\
    DataService.get_hdi_data ds grid_ids month_ids = Some hdi /\
    Forall2 (row_enriched hdi (coord_lookup_of ds grid_ids) (country_map_of ds) metrics)
            main_data out.
Proof.
  unfold _get_enriched_forecasts. intros H.
  destruct (DataService.get_grid_data ds grid_ids month_ids) as [main_data | e] eqn:Hm;
    [| discriminate].
  cbv zeta in H.
  destruct (DataService.get_hdi_data ds grid_ids month_ids) as [hdi |] eqn:Hh.
  - apply enrich_rows_Ok in H. destruct H as (cells & -> & HF).
    exists main_data, hdi. repeat split. exact HF.
  - destruct main_data as [| row rows].
    + unfold DataService.get_grid_data in Hm.
      destruct (negb _); [discriminate |].
      destruct (DataService.pgm_data ds); [| discriminate].
      destruct (List.filter _ _); discriminate.
    + rewrite enrich_rows_no_columns in H. discriminate.
Qed.

(** ** The row selections of the data service *)

Lemma filter_filter_absorbed {A} (p q : A -> bool) (l : list A) :
  (forall x, q x = true -> p x = true) ->
  List.filter p (List.filter q l) = List.filter q l.
Proof.
  intros Hqp. induction l as [| x l IH]; [reflexivity |].
  cbn [List.filter]. destruct (q x) eqn:Hq; [| exact IH].
  cbn [List.filter]. rewrite (Hqp x Hq). now rewrite IH.
Qed.

Lemma get_grid_data_Ok
    (ds : DataService.t) (grid_ids : list Z) (month_ids : option (list Z))
    (main_data : list Pgm.row) :
  DataService.get_grid_data ds grid_ids month_ids = Ok main_data ->
  exists pgm,
    DataService.is_loaded ds = true /\
    DataService.pgm_data ds = Some pgm /\
    main_data <> [] /\
    main_data =
      List.filter (fun r => selected grid_ids month_ids (Pgm.pg_id r) (Pgm.month_id r)) pgm.
Proof.
  unfold DataService.get_grid_data. intros H.
  destruct (DataService.is_loaded ds); [| discriminate]. cbn [negb] in H.
  destruct (DataService.pgm_data ds) as [pgm |]; [| discriminate].
  exists pgm. split; [reflexivity |]. split; [reflexivity |].
  assert (Hq : List.filter
                 (match month_ids with
                  | Some (m :: ms) =>
                      fun r : Pgm.row =>
                        Py.isin (Pgm.pg_id r) grid_ids && Py.isin (Pgm.month_id r) (m :: ms)
                  | _ => fun r : Pgm.row => Py.isin (Pgm.pg_id r) grid_ids
                  end) pgm =
               List.filter
                 (fun r => selected grid_ids month_ids (Pgm.pg_id r) (Pgm.month_id r)) pgm).
  { apply filter_ext. intros r. unfold selected.
    destruct month_ids as [[| m ms] |]; try reflexivity; now rewrite andb_true_r. }
  cbv zeta in H. rewrite Hq in H.
  destruct (List.filter _ pgm) as [| r rs] eqn:Hf; [discriminate |].
  injection H as <-. split; [discriminate | reflexivity].
Qed.

Lemma get_hdi_data_Some
    (ds : DataService.t) (grid_ids : list Z) (month_ids : option (list Z))
    (hdi : list Hdi.row) :
  DataService.get_hdi_data ds grid_ids month_ids = Some hdi ->
  exists full,
    DataService.hdi_data ds = Some full /\
    hdi = List.filter
            (fun h => selected grid_ids month_ids (Hdi.priogrid_id h) (Hdi.month_id h)) full.
Proof.
  unfold DataService.get_hdi_data. intros H.
  destruct (DataService.hdi_data ds) as [full |]; [| discriminate].
  exists full. split; [reflexivity |].
  injection H as <-. cbv zeta.
  apply filter_ext. intros r. unfold selected.
  destruct month_ids as [[| m ms] |]; try reflexivity; now rewrite andb_true_r.
Qed.

(** For a selected primary row, the uncertainty rows with its exact key
    are the same in the query's frame and in the whole table. *)
Lemma hdi_rows_for_selected
    (grid_ids : list Z) (month_ids : option (list Z)) (full : list Hdi.row) (g m : Z) :
  selected grid_ids month_ids g m = true ->
  hdi_rows_for
    (List.filter
       (fun h => selected grid_ids month_ids (Hdi.priogrid_id h) (Hdi.month_id h)) full) g m =
  hdi_rows_for full g m.
Proof.
  intros Hsel. unfold hdi_rows_for. apply filter_filter_implied.
  intros h Hh. apply andb_true_iff in Hh. destruct Hh as [Hg Hm].
  apply Z.eqb_eq in Hg. apply Z.eqb_eq in Hm. now rewrite Hg, Hm.
Qed.

Lemma hdi_rows_for_grid (hdi : list Hdi.row) (g m : Z) :
  List.filter (fun h => Hdi.priogrid_id h =? g) (hdi_rows_for hdi g m) = hdi_rows_for hdi g m.
Proof.
  unfold hdi_rows_for. apply filter_filter_absorbed.
  intros h Hh. apply andb_true_iff in Hh. tauto.
Qed.

(** ** The coordinate lookup *)

Lemma coord_lookup_fold_None (l : list Coord.row) (g : Z) :
  forall m0 : gmap Z Coord.row,
    (forall c, In c l -> Coord.priogrid_id c <> g) ->
    foldl (fun m c => <[Coord.priogrid_id c := c]> m) m0 l !! g = m0 !! g.
Proof.
  induction l as [| x l IH]; intros m0 H; [reflexivity |].
  cbn [foldl]. rewrite IH by (intros c Hc; apply H; now right).
  apply lookup_insert_ne. apply H. now left.
Qed.

Lemma coord_lookup_fold_Some (l : list Coord.row) (g : Z) (c : Coord.row) :
  forall m0 : gmap Z Coord.row,
    foldl (fun m c => <[Coord.priogrid_id c := c]> m) m0 l !! g = Some c ->
    m0 !! g = Some c \/ (In c l /\ Coord.priogrid_id c = g).
Proof.
  induction l as [| x l IH]; intros m0 H; [now left |].
  cbn [foldl] in H. apply IH in H. destruct H as [H | [H1 H2]].
  - destruct (decide (Coord.priogrid_id x = g)) as [Heq | Hne].
    + rewrite Heq, lookup_insert_eq in H. injection H as <-.
      right. split; [now left | exact Heq].
    + rewrite lookup_insert_ne in H by exact Hne. now left.
  - right. split; [now right | exact H2].
Qed.

Lemma get_coordinates_In (ds : DataService.t) (grid_ids : list Z) (c : Coord.row) :
  In c (DataService.get_coordinates ds grid_ids) ->
  exists ts, DataService.timeseries_data ds = Some ts /\ In c ts.
Proof.
  unfold DataService.get_coordinates.
  destruct (DataService.timeseries_data ds) as [[| t ts] |]; try (cbn; tauto).
  intros H. exists (t :: ts). split; [reflexivity |].
  destruct grid_ids as [| g gs]; [exact H |].
  apply filter_In in H. tauto.
Qed.

Lemma coord_lookup_of_Some (ds : DataService.t) (grid_ids : list Z) (g : Z) (c : Coord.row) :
  coord_lookup_of ds grid_ids !! g = Some c ->
  Coord.priogrid_id c = g /\
  exists ts, DataService.timeseries_data ds = Some ts /\ In c ts.
Proof.
  unfold coord_lookup_of. intros H. apply coord_lookup_fold_Some in H.
  destruct H as [H | [H1 H2]].
  - rewrite lookup_empty in H. discriminate.
  - split; [exact H2 |]. eapply get_coordinates_In. exact H1.
Qed.

Lemma coord_lookup_of_None (ds : DataService.t) (grid_ids : list Z) (g : Z) :
  (forall ts c, DataService.timeseries_data ds = Some ts -> In c ts ->
                Coord.priogrid_id c <> g) ->
  coord_lookup_of ds grid_ids !! g = None.
Proof.
  intros H. unfold coord_lookup_of. rewrite coord_lookup_fold_None.
  - apply lookup_empty.
  - intros c Hc. apply get_coordinates_In in Hc. destruct Hc as (ts & Hts & Hin).
    eapply H; eassumption.
Qed.

(** ** Projection *)

Lemma create_grid_cell_data_coords_unique
    (main_row : Pgm.row) (coord_data : list Coord.row) (lat1 lon1 lat2 lon2 : Q) :
  let P := fun lat lon : Q =>
    match List.filter (fun c => Coord.priogrid_id c =? Pgm.pg_id main_row) coord_data with
    | c :: _ =>
        match Py.or_float (Coord.lat c) (Coord.latitude c),
              Py.or_float (Coord.lon c) (Coord.longitude c) with
        | Some la, Some lo => lat = la /\ lon = lo
        | _, _ => _generate_coordinates_for_grid (Pgm.scalar main_row Pgm.pg_id) = Ok (lat, lon)
        end
    | [] => _generate_coordinates_for_grid (Pgm.scalar main_row Pgm.pg_id) = Ok (lat, lon)
    end in
  P lat1 lon1 -> P lat2 lon2 -> lat1 = lat2 /\ lon1 = lon2.
Proof.
  cbv zeta.
  destruct (List.filter _ coord_data) as [| c ?].
  - intros H1 H2. rewrite H1 in H2. now injection H2.
  - destruct (Py.or_float (Coord.lat c) _) as [la |];
      [destruct (Py.or_float (Coord.lon c) _) as [lo |] |].
    + intros [-> ->] [-> ->]. now split.
    + intros H1 H2. rewrite H1 in H2. now injection H2.
    + intros H1 H2. rewrite H1 in H2. now injection H2.
Qed.

Lemma sel_related (f1 f2 : bool) (v : option Q) :
  let a := Schemas.opt_value Schemas.VFloat (if f1 then v else None) in
  let b := Schemas.opt_value Schemas.VFloat (if f2 then v else None) in
  a = b \/ a = Schemas.VNone \/ b = Schemas.VNone.
Proof. destruct f1, f2; cbn; auto. Qed.

(** Whether [_create_grid_cell_data] returns a record does not depend on
    the metric selection: the schema validates the coordinates only. *)
Lemma create_grid_cell_data_any_selection
    (main_row : Pgm.row) (hdi_data : list Hdi.row) (coord_data : list Coord.row)
    (country_map : gmap Z string) (m1 m2 : Schemas.MetricSelection)
    (rng1 rng2 : MT19937.mt19937_state) (c1 : Schemas.GridCellData) :
  fst (_create_grid_cell_data main_row hdi_data coord_data country_map m1 rng1) = Ok c1 ->
  exists c2,
    fst (_create_grid_cell_data main_row hdi_data coord_data country_map m2 rng2) = Ok c2.
Proof.
  unfold _create_grid_cell_data.
  destruct (_generate_synthetic_metrics _ rng1) as [sm1 rng1'].
  destruct (_generate_synthetic_metrics _ rng2) as [sm2 rng2'].
  destruct (match List.filter _ coord_data with
            | [] => _
            | coord_row :: _ => _
            end) as [[lat lon] cid].
  destruct (match lat with
            | Some _ => _
            | None => _
            end) as [[la lo] | e]; [| discriminate].
  cbn [fst]. unfold Schemas.GridCellData_init.
  cbn [Schemas.latitude Schemas.longitude].
  destruct (Schemas.validate_latitude (Some la)); [| discriminate].
  destruct (Schemas.validate_longitude (Some lo)); [| discriminate].
  intros _. eexists. reflexivity.
Qed.

(** C9. The projection is shape-invariant and governed by the group flags
    alone. For one candidate (the same primary row, uncertainty rows,
    coordinate rows and country map) and any two metric selections, both
    records are the projection of one fully selected record, the one the
    code builds when every group is selected and whose governed fields are
    the values of the source row, of the first matching uncertainty row
    and of the synthetic metrics: a field whose group flag is true keeps
    the value of the candidate, a field whose group flag is false is null,
    and the fields that belong to no group (keys, country, coordinates,
    conflict type, calendar) are those of the candidate.
    include_map governs main_mean and main_mean_ln, include_thresholds
    governs main_dich and the six threshold slots, and each include_hdi
    flag governs its own pair. The two records have the same fields in the
    same order, and each field is equal in both or null in one of them. *)
Theorem projection_shape_invariant
    (main_row : Pgm.row) (hdi_data : list Hdi.row) (coord_data : list Coord.row)
    (country_map : gmap Z string) (m1 m2 : Schemas.MetricSelection)
    (rng1 rng2 : MT19937.mt19937_state) (c1 c2 : Schemas.GridCellData) :
  fst (_create_grid_cell_data main_row hdi_data coord_data country_map m1 rng1) = Ok c1 ->
  fst (_create_grid_cell_data main_row hdi_data coord_data country_map m2 rng2) = Ok c2 ->
  exists candidate : Schemas.GridCellData,
    fst (_create_grid_cell_data main_row hdi_data coord_data country_map
           every_group rng1) = Ok candidate /\
    c1 = SpecWords.project m1 candidate /\
    c2 = SpecWords.project m2 candidate /\
    (let base_prob := default 0.01%Q (Pgm.main_dich main_row) in
     let sm := fst (_generate_synthetic_metrics base_prob rng1) in
     let matching_hdi :=
       List.filter (fun h => Hdi.priogrid_id h =? Pgm.pg_id main_row) hdi_data in
     Schemas.main_mean candidate = Pgm.main_mean main_row /\
     Schemas.main_mean_ln candidate = Pgm.main_mean_ln main_row /\
     Schemas.main_dich candidate = Pgm.main_dich main_row /\
     Schemas.threshold_1 candidate = Some base_prob /\
     Schemas.threshold_2 candidate = Some (Synthetic.threshold_2 sm) /\
     Schemas.threshold_3 candidate = Some (Synthetic.threshold_3 sm) /\
     Schemas.threshold_4 candidate = Some (Synthetic.threshold_4 sm) /\
     Schemas.threshold_5 candidate = Some (Synthetic.threshold_5 sm) /\
     Schemas.threshold_6 candidate = Some (Synthetic.threshold_6 sm) /\
     Schemas.hdi_50_lower candidate = Some (Synthetic.hdi_50_lower sm) /\
     Schemas.hdi_50_upper candidate = Some (Synthetic.hdi_50_upper sm) /\
     Schemas.hdi_99_lower candidate = Some (Synthetic.hdi_99_lower sm) /\
     Schemas.hdi_99_upper candidate = Some (Synthetic.hdi_99_upper sm) /\
     Schemas.hdi_90_lower candidate =
       match matching_hdi with
       | h :: _ => Hdi.pred_ln_sb_prob_hdi_lower h
       | [] => None
       end /\
     Schemas.hdi_90_upper candidate =
       match matching_hdi with
       | h :: _ => Hdi.pred_ln_sb_prob_hdi_upper h
       | [] => None
       end) /\
    (Schemas.include_map m1 = true ->
     Schemas.main_mean c1 = Schemas.main_mean candidate /\
     Schemas.main_mean_ln c1 = Schemas.main_mean_ln candidate) /\
    (Schemas.include_thresholds m1 = true ->
     Schemas.main_dich c1 = Schemas.main_dich candidate /\
     Schemas.threshold_1 c1 = Schemas.threshold_1 candidate /\
     Schemas.threshold_2 c1 = Schemas.threshold_2 candidate /\
     Schemas.threshold_3 c1 = Schemas.threshold_3 candidate /\
     Schemas.threshold_4 c1 = Schemas.threshold_4 candidate /\
     Schemas.threshold_5 c1 = Schemas.threshold_5 candidate /\
     Schemas.threshold_6 c1 = Schemas.threshold_6 candidate) /\
    (Schemas.include_hdi_50 m1 = true ->
     Schemas.hdi_50_lower c1 = Schemas.hdi_50_lower candidate /\
     Schemas.hdi_50_upper c1 = Schemas.hdi_50_upper candidate) /\
    (Schemas.include_hdi_90 m1 = true ->
     Schemas.hdi_90_lower c1 = Schemas.hdi_90_lower candidate /\
     Schemas.hdi_90_upper c1 = Schemas.hdi_90_upper candidate) /\
    (Schemas.include_hdi_99 m1 = true ->
     Schemas.hdi_99_lower c1 = Schemas.hdi_99_lower candidate /\
     Schemas.hdi_99_upper c1 = Schemas.hdi_99_upper candidate) /\
    (Schemas.include_map m1 = false ->
     Schemas.main_mean c1 = None /\ Schemas.main_mean_ln c1 = None) /\
    (Schemas.include_thresholds m1 = false ->
     Schemas.main_dich c1 = None /\ Schemas.threshold_1 c1 = None /\
     Schemas.threshold_2 c1 = None /\ Schemas.threshold_3 c1 = None /\
     Schemas.threshold_4 c1 = None /\ Schemas.threshold_5 c1 = None /\
     Schemas.threshold_6 c1 = None) /\
    (Schemas.include_hdi_50 m1 = false ->
     Schemas.hdi_50_lower c1 = None /\ Schemas.hdi_50_upper c1 = None) /\
    (Schemas.include_hdi_90 m1 = false ->
     Schemas.hdi_90_lower c1 = None /\ Schemas.hdi_90_upper c1 = None) /\
    (Schemas.include_hdi_99 m1 = false ->
     Schemas.hdi_99_lower c1 = None /\ Schemas.hdi_99_upper c1 = None) /\
    (Schemas.grid_id c1, Schemas.month_id c1, Schemas.country_id c1,
     Schemas.latitude c1, Schemas.longitude c1, Schemas.conflict_type c1,
     Schemas.country_name c1, Schemas.year c1, Schemas.month c1) =
    (Schemas.grid_id candidate, Schemas.month_id candidate, Schemas.country_id candidate,
     Schemas.latitude candidate, Schemas.longitude candidate, Schemas.conflict_type candidate,
     Schemas.country_name candidate, Schemas.year candidate, Schemas.month candidate) /\
    map fst (Schemas.GridCellData_dict c1) = map fst (Schemas.GridCellData_dict c2) /\
    Forall2 (fun e1 e2 : string * Schemas.value =>
               e1.1 = e2.1 /\ (e1.2 = e2.2 \/ e1.2 = Schemas.VNone \/ e2.2 = Schemas.VNone))
            (Schemas.GridCellData_dict c1) (Schemas.GridCellData_dict c2).
Proof.
  intros H1 H2.
  destruct (create_grid_cell_data_any_selection
              main_row hdi_data coord_data country_map m1 every_group rng1 rng1 c1 H1)
    as [candidate H0].
  exists candidate. split; [exact H0 |].
  apply create_grid_cell_data_Ok in H0.
  apply create_grid_cell_data_Ok in H1. apply create_grid_cell_data_Ok in H2.
  cbv zeta in H0, H1, H2.
  destruct H0 as (lat0 & lon0 & sm0 & Hsm0 & Hc0 & ->).
  destruct H1 as (lat1 & lon1 & sm1 & Hsm1 & Hc1 & ->).
  destruct H2 as (lat2 & lon2 & sm2 & Hsm2 & Hc2 & ->).
  destruct (create_grid_cell_data_coords_unique _ _ _ _ _ _ Hc1 Hc0) as [-> ->].
  destruct (create_grid_cell_data_coords_unique _ _ _ _ _ _ Hc2 Hc0) as [-> ->].
  assert (Hsm : sm2 = sm1).
  { rewrite Hsm1, Hsm2.
    exact (f_equal fst (synthetic_metrics_reseeded
                          (default 0.01%Q (Pgm.main_dich main_row)) rng2 rng1)). }
  assert (Hsm' : sm0 = sm1) by (rewrite Hsm0, Hsm1; reflexivity).
  clear Hsm0 Hsm2 Hc0 Hc1 Hc2. subst sm2 sm0.
  unfold SpecWords.project.
  cbn [every_group Schemas.include_map Schemas.include_hdi_50 Schemas.include_hdi_90
       Schemas.include_hdi_99 Schemas.include_thresholds
       Schemas.grid_id Schemas.month_id Schemas.country_id Schemas.latitude
       Schemas.longitude Schemas.main_mean Schemas.main_mean_ln Schemas.main_dich
       Schemas.hdi_50_lower Schemas.hdi_50_upper Schemas.hdi_90_lower Schemas.hdi_90_upper
       Schemas.hdi_99_lower Schemas.hdi_99_upper Schemas.threshold_1 Schemas.threshold_2
       Schemas.threshold_3 Schemas.threshold_4 Schemas.threshold_5 Schemas.threshold_6
       Schemas.conflict_type Schemas.country_name Schemas.year Schemas.month].
  split; [reflexivity |]. split; [reflexivity |].
  split; [rewrite <- Hsm1; repeat split; reflexivity |]. clear Hsm1.
  do 5 (split; [intros Hflag; rewrite Hflag; repeat split; reflexivity |]).
  do 5 (split; [intros Hflag; rewrite Hflag; repeat split; reflexivity |]).
  split; [reflexivity |]. split; [reflexivity |].
  unfold Schemas.GridCellData_dict.
  cbn [Schemas.grid_id Schemas.month_id Schemas.country_id Schemas.latitude
       Schemas.longitude Schemas.main_mean Schemas.main_mean_ln Schemas.main_dich
       Schemas.hdi_50_lower Schemas.hdi_50_upper Schemas.hdi_90_lower Schemas.hdi_90_upper
       Schemas.hdi_99_lower Schemas.hdi_99_upper Schemas.threshold_1 Schemas.threshold_2
       Schemas.threshold_3 Schemas.threshold_4 Schemas.threshold_5 Schemas.threshold_6
       Schemas.conflict_type Schemas.country_name Schemas.year Schemas.month].
  repeat (apply List.Forall2_cons;
          [split; [reflexivity | cbn [snd]; first [apply sel_related | left; reflexivity]] |]).
  apply List.Forall2_nil.
Qed.

Lemma projection_shape_invariant_witness :
  exists c1 c2 candidate : Schemas.GridCellData,
    c1 = SpecWords.project Schemas.MetricSelection_default candidate /\
    c2 = SpecWords.project Example.no_metrics candidate /\
    Schemas.main_mean c1 = Schemas.main_mean candidate /\
    Schemas.hdi_90_upper c1 = Schemas.hdi_90_upper candidate /\
    Schemas.hdi_50_lower c1 = None /\
    map fst (Schemas.GridCellData_dict c1) = map fst (Schemas.GridCellData_dict c2).
Proof.
  destruct (fst (_create_grid_cell_data
                   (Example.pgm_row 62356 548 0.01%Q)
                   [Example.hdi_row 62356 548 0.005%Q 0.015%Q]
                   [Example.coord_row 62356 45%Q 12%Q]
                   {[ 1 := "Testland" ]} Schemas.MetricSelection_default Example.rng0))
    as [c1 | e] eqn:H1; [| vm_compute in H1; discriminate].
  destruct (fst (_create_grid_cell_data
                   (Example.pgm_row 62356 548 0.01%Q)
                   [Example.hdi_row 62356 548 0.005%Q 0.015%Q]
                   [Example.coord_row 62356 45%Q 12%Q]
                   {[ 1 := "Testland" ]} Example.no_metrics Example.rng0))
    as [c2 | e] eqn:H2; [| vm_compute in H2; discriminate].
  destruct (projection_shape_invariant _ _ _ _ _ _ _ _ _ _ H1 H2)
    as (candidate & _ & Hp1 & Hp2 & _ & Hmap & _ & _ & H90 & _ & _ & _ & H50 & _ & _ & _ &
        Hk & _).
  exists c1, c2, candidate.
  split; [exact Hp1 |]. split; [exact Hp2 |].
  split; [apply Hmap; reflexivity |].
  split; [apply H90; reflexivity |].
  split; [apply H50; reflexivity | exact Hk].
Defined.

(** ** The records of a successful query *)

Lemma Forall2_Forall_r_In {A B} (R : A -> B -> Prop) (l : list A) (k : list B) :
  Forall2 R l k -> Forall (fun b => exists a, In a l /\ R a b) k.
Proof.
  induction 1 as [| a b l k HR HF IH]; constructor.
  - exists a. split; [now left | exact HR].
  - eapply Forall_impl; [exact IH |].
    intros b' (a' & Hin & HR'). exists a'. split; [now right | exact HR'].
Qed.

(** Every record of a successful query comes from a selected primary row
    of the table. *)
Lemma get_enriched_forecasts_cells
    (ds : DataService.t) (grid_ids : list Z) (month_ids : option (list Z))
    (metrics : Schemas.MetricSelection) (rng : MT19937.mt19937_state)
    (out : list Schemas.GridCellData) :
  fst (_get_enriched_forecasts ds grid_ids month_ids metrics rng) = Ok out ->
  exists pgm full,
    DataService.pgm_data ds = Some pgm /\
    DataService.hdi_data ds = Some full /\
    out <> [] /\
    Forall (fun cell =>
              exists row,
                In row pgm /\
                selected grid_ids month_ids (Pgm.pg_id row) (Pgm.month_id row) = true /\
                row_enriched
                  (List.filter
                     (fun h => selected grid_ids month_ids
                                 (Hdi.priogrid_id h) (Hdi.month_id h)) full)
                  (coord_lookup_of ds grid_ids) (country_map_of ds) metrics row cell) out.
Proof.
  intros H. apply get_enriched_forecasts_Ok in H.
  destruct H as (main_data & hdi & Hm & Hh & HF).
  apply get_grid_data_Ok in Hm. destruct Hm as (pgm & _ & Hpgm & Hne & Hmain).
  apply get_hdi_data_Some in Hh. destruct Hh as (full & Hfull & ->).
  exists pgm, full. split; [exact Hpgm |]. split; [exact Hfull |]. split.
  - intros ->. inversion HF. congruence.
  - apply Forall2_Forall_r_In in HF.
    eapply Forall_impl; [exact HF |].
    intros cell (row & Hin & HR). exists row.
    rewrite Hmain in Hin. apply filter_In in Hin. destruct Hin as [Hin Hsel].
    repeat split; assumption.
Qed.

(** The fields of a record that do not depend on the coordinates. *)
Lemma row_enriched_fields
    (hdi : list Hdi.row) (coord_lookup : gmap Z Coord.row) (country_map : gmap Z string)
    (metrics : Schemas.MetricSelection) (row : Pgm.row) (cell : Schemas.GridCellData) :
  row_enriched hdi coord_lookup country_map metrics row cell ->
  Schemas.grid_id cell = Pgm.pg_id row /\
  Schemas.month_id cell = Pgm.month_id row /\
  Schemas.year cell = Some (year_of_month_id (Pgm.month_id row)) /\
  Schemas.month cell = Some (month_of_month_id (Pgm.month_id row)) /\
  Schemas.conflict_type cell = Some Schemas.STATE_BASED /\
  Schemas.hdi_90_lower cell =
    (if Schemas.include_hdi_90 metrics
     then match hdi_rows_for hdi (Pgm.pg_id row) (Pgm.month_id row) with
          | h :: _ => Hdi.pred_ln_sb_prob_hdi_lower h
          | [] => None
          end
     else None) /\
  Schemas.hdi_90_upper cell =
    (if Schemas.include_hdi_90 metrics
     then match hdi_rows_for hdi (Pgm.pg_id row) (Pgm.month_id row) with
          | h :: _ => Hdi.pred_ln_sb_prob_hdi_upper h
          | [] => None
          end
     else None) /\
  Schemas.threshold_1 cell =
    (if Schemas.include_thresholds metrics
     then Some (default 0.01%Q (Pgm.main_dich row)) else None) /\
  Schemas.main_dich cell =
    (if Schemas.include_thresholds metrics then Pgm.main_dich row else None).
Proof.
  intros (coord_row & rng & _ & H).
  apply create_grid_cell_data_Ok in H. cbv zeta in H.
  destruct H as (lat & lon & sm & _ & _ & ->).
  fold (hdi_rows_for hdi (Pgm.pg_id row) (Pgm.month_id row)).
  rewrite hdi_rows_for_grid.
  repeat split; reflexivity.
Qed.

(** C10. Every record of a successful query carries the state-based
    conflict type, whatever the metric selection and its conflict_types
    list. *)
Theorem conflict_type_always_state_based
    (ds : DataService.t) (grid_ids : list Z) (month_ids : option (list Z))
    (metrics : Schemas.MetricSelection) (rng : MT19937.mt19937_state)
    (out : list Schemas.GridCellData) :
  fst (_get_enriched_forecasts ds grid_ids month_ids metrics rng) = Ok out ->
  Forall (fun cell =>
            Schemas.conflict_type cell = Some Schemas.STATE_BASED /\
            Schemas.ConflictType_value Schemas.STATE_BASED = "sb") out.
Proof.
  intros H. apply get_enriched_forecasts_cells in H.
  destruct H as (pgm & full & _ & _ & _ & HF).
  eapply Forall_impl; [exact HF |].
  intros cell (row & _ & _ & HR).
  apply row_enriched_fields in HR. split; [tauto | reflexivity].
Qed.

Lemma Forall2_Forall_l {A B} (P : A -> Prop) (R : A -> B -> Prop) (l : list A) (k : list B) :
  Forall P l -> Forall2 R l k -> Forall2 (fun a b => P a /\ R a b) l k.
Proof.
  intros HP HF. induction HF as [| a b l k HR HF IH]; [constructor |].
  inversion HP as [| ? ? Ha Hl]; subst.
  constructor; [split; assumption | apply IH; exact Hl].
Qed.

(** C3. The 90% band is real or nothing. In a successful query there is
    one record per selected primary row, in row order, with the key
    (grid_id, month_id) of its row; when the uncertainty table has rows
    with that exact key, the record carries, if the band is selected, the
    bounds of the first such row verbatim (and null if the band is not
    selected); when the table has no row with that key, both bounds are
    null. No synthetic value ever reaches these two fields. *)
Theorem hdi_90_real_or_nothing
    (ds : DataService.t) (grid_ids : list Z) (month_ids : option (list Z))
    (metrics : Schemas.MetricSelection) (rng : MT19937.mt19937_state)
    (out : list Schemas.GridCellData) (pgm : list Pgm.row) (full : list Hdi.row) :
  DataService.pgm_data ds = Some pgm ->
  DataService.hdi_data ds = Some full ->
  fst (_get_enriched_forecasts ds grid_ids month_ids metrics rng) = Ok out ->
  Forall2 (fun row cell =>
             Schemas.grid_id cell = Pgm.pg_id row /\
             Schemas.month_id cell = Pgm.month_id row /\
             match hdi_rows_for full (Pgm.pg_id row) (Pgm.month_id row) with
             | h :: _ =>
                 Schemas.hdi_90_lower cell =
                   (if Schemas.include_hdi_90 metrics
                    then Hdi.pred_ln_sb_prob_hdi_lower h else None) /\
                 Schemas.hdi_90_upper cell =
                   (if Schemas.include_hdi_90 metrics
                    then Hdi.pred_ln_sb_prob_hdi_upper h else None)
             | [] =>
                 Schemas.hdi_90_lower cell = None /\ Schemas.hdi_90_upper cell = None
             end)
          (List.filter
             (fun r => selected grid_ids month_ids (Pgm.pg_id r) (Pgm.month_id r)) pgm)
          out.
Proof.
  intros Hpgm Hfull H. apply get_enriched_forecasts_Ok in H.
  destruct H as (main_data & hdi & Hm & Hh & HF).
  apply get_grid_data_Ok in Hm. destruct Hm as (pgm' & _ & Hpgm' & _ & ->).
  rewrite Hpgm in Hpgm'. injection Hpgm' as <-.
  apply get_hdi_data_Some in Hh. destruct Hh as (full' & Hfull' & ->).
  rewrite Hfull in Hfull'. injection Hfull' as <-.
  eapply Forall2_impl;
    [exact (Forall2_Forall_l _ _ _ _
              (filter_In_all
                 (fun r => selected grid_ids month_ids (Pgm.pg_id r) (Pgm.month_id r)) pgm)
              HF) |].
  intros row cell [Hsel HR]. cbv beta in Hsel.
  apply row_enriched_fields in HR.
  destruct HR as (Hg & Hmo & _ & _ & _ & Hlo & Hup & _).
  rewrite hdi_rows_for_selected in Hlo, Hup by exact Hsel.
  split; [exact Hg |]. split; [exact Hmo |].
  rewrite Hlo, Hup.
  destruct (hdi_rows_for full (Pgm.pg_id row) (Pgm.month_id row)) as [| h ?];
    destruct (Schemas.include_hdi_90 metrics); split; reflexivity.
Qed.

Lemma conflict_type_always_state_based_witness :
  exists out,
    fst (_get_enriched_forecasts Example.store [62356; 62358] None
           Example.unknown_tag_metrics Example.rng0) = Ok out /\
    Forall (fun cell =>
              Schemas.conflict_type cell = Some Schemas.STATE_BASED /\
              Schemas.ConflictType_value Schemas.STATE_BASED = "sb") out.
Proof.
  destruct (fst (_get_enriched_forecasts Example.store [62356; 62358] None
                   Example.unknown_tag_metrics Example.rng0))
    as [out | e] eqn:H; [| vm_compute in H; discriminate].
  exists out. split; [reflexivity |].
  exact (conflict_type_always_state_based _ _ _ _ _ _ H).
Defined.

Lemma hdi_90_real_or_nothing_witness :
  exists c1 c2,
    fst (_get_enriched_forecasts Example.store [62356; 62357] (Some [548])
           Example.all_metrics Example.rng0) = Ok [c1; c2] /\
    (Schemas.grid_id c1, Schemas.hdi_90_lower c1, Schemas.hdi_90_upper c1) =
      (62356, Some 0.005%Q, Some 0.015%Q) /\
    (Schemas.grid_id c2, Schemas.hdi_90_lower c2, Schemas.hdi_90_upper c2) =
      (62357, None, None).
Proof.
  destruct (fst (_get_enriched_forecasts Example.store [62356; 62357] (Some [548])
                   Example.all_metrics Example.rng0))
    as [out | e] eqn:H; [| vm_compute in H; discriminate].
  pose proof (hdi_90_real_or_nothing Example.store _ _ _ _ _ _ _ eq_refl eq_refl H) as HF.
  match type of HF with
  | Forall2 _ ?l _ =>
      assert (Hsel : l = [Example.pgm_row 62356 548 0.01%Q; Example.pgm_row 62357 548 0.02%Q])
        by (vm_compute; reflexivity);
      rewrite Hsel in HF
  end.
  inversion HF as [| r1 c1 rs1 cells1 H1 HF1]; subst.
  inversion HF1 as [| r2 c2 rs2 cells2 H2 HF2]; subst.
  inversion HF2; subst.
  exists c1, c2. split; [reflexivity |].
  destruct H1 as (Hg1 & _ & Hb1). destruct H2 as (Hg2 & _ & Hb2).
  cbn in Hb1, Hb2.
  destruct Hb1 as [Hl1 Hu1]. destruct Hb2 as [Hl2 Hu2].
  rewrite Hg1, Hl1, Hu1, Hg2, Hl2, Hu2. split; reflexivity.
Defined.

(** The records of the example: the real bounds of (62356, 548) are passed
    through, and the key without uncertainty row gets null bounds. *)
Lemma hdi_90_example :
  match fst (_get_enriched_forecasts Example.store [62356; 62357] (Some [548])
               Example.all_metrics Example.rng0) with
  | Ok out => map (fun c => (Schemas.grid_id c, Schemas.hdi_90_lower c, Schemas.hdi_90_upper c)) out
  | Err _ => []
  end = [(62356, Some 0.005%Q, Some 0.015%Q); (62357, None, None)].
Proof. vm_compute. reflexivity. Qed.

(** ** Synthetic coordinates in a query *)

Lemma coord_row_for_missing
    (coord_lookup : gmap Z Coord.row) (row : Pgm.row) (coord_row : list Coord.row) :
  coord_lookup !! Pgm.pg_id row = None ->
  coord_row_for coord_lookup row = Ok coord_row ->
  exists lat lon,
    _generate_coordinates_for_grid (Pgm.scalar row Pgm.pg_id) = Ok (lat, lon) /\
    coord_row =
      [ {| Coord.priogrid_id := Pgm.pg_id row;
           Coord.lat := None;
           Coord.latitude := Some lat;
           Coord.lon := None;
           Coord.longitude := Some lon;
           Coord.country_id := Pgm.country_id row;
           Coord.row_ := Some 0;
           Coord.col := Some 0 |} ].
Proof.
  intros Hnone H. unfold coord_row_for in H. cbv zeta in H. rewrite Hnone in H.
  change (generate_coordinates (Pgm.scalar row Pgm.pg_id))
    with (_generate_coordinates_for_grid (Pgm.scalar row Pgm.pg_id)) in H.
  destruct (_generate_coordinates_for_grid (Pgm.scalar row Pgm.pg_id)) as [[lat lon] | e];
    [| discriminate].
  injection H as <-. exists lat, lon. split; reflexivity.
Qed.

(** The coordinate fallback on an [int], as its signature declares it, is
    the pseudo-coordinate of the specification. *)
Lemma generate_coordinates_for_grid_int (grid_id : Z) :
  _generate_coordinates_for_grid (Py.Int grid_id) = Ok (SpecWords.pseudo_coordinate grid_id).
Proof.
  pose proof (generate_coordinates_for_grid_value (Py.Int grid_id)) as H. cbv zeta in H.
  exact H.
Qed.

(** C7, on the code. The coordinate fallback declares [grid_id: int], and
    on an int it computes what the claim says: the pseudo-coordinate from
    the first 32 bits of the MD5 digest of the decimal string. In a query,
    however, both call sites pass the [pg_id] cell of the row that
    [iterrows()] yields, a [numpy.float64] as soon as the primary table has
    a float column, and [str()] of it ends in [.0]: for grid cell 62358,
    which has no coordinate row in the example store, the hashed string is
    "62358.0" and the record gets (-45.12, 129.27), where the hash of the
    decimal string "62358" gives (20.39, -161.25). *)
Theorem synthetic_coordinate_hashes_float_string :
  (forall grid_id : Z,
     _generate_coordinates_for_grid (Py.Int grid_id) =
       Ok (SpecWords.pseudo_coordinate grid_id)) /\
  SpecWords.pseudo_coordinate 62358 = (20.39%Q, (-161.25)%Q) /\
  DataService.get_coordinates Example.store [62358] = [] /\
  Py.str 62358 = "62358" /\
  map (fun r => Py.str_number (Pgm.scalar r Pgm.pg_id))
      (match DataService.get_grid_data Example.store [62358] None with
       | Ok main_data => main_data
       | Err _ => []
       end) = ["62358.0"] /\
  match fst (_get_enriched_forecasts Example.store [62358] None
               Schemas.MetricSelection_default Example.rng0) with
  | Ok out => map (fun c => (Schemas.grid_id c, Schemas.latitude c, Schemas.longitude c)) out
  | Err _ => []
  end = [(62358, Some (-45.12)%Q, Some 129.27%Q)].
Proof.
  split; [exact generate_coordinates_for_grid_int |].
  repeat split; vm_compute; reflexivity.
Qed.

(** ** Failures of a query *)

Lemma generate_coordinates_for_grid_total (grid_id : Py.number) (e : exception) :
  _generate_coordinates_for_grid grid_id <> Err e.
Proof.
  pose proof (generate_coordinates_for_grid_value grid_id) as H. cbv zeta in H.
  rewrite H. discriminate.
Qed.

Lemma GridCellData_init_Err (c : Schemas.GridCellData) (e : exception) :
  Schemas.GridCellData_init c = Err e -> exists msg, e = PydanticValidationError msg.
Proof.
  unfold Schemas.GridCellData_init, Schemas.validate_latitude, Schemas.validate_longitude.
  destruct (Schemas.latitude c) as [x |];
    [destruct (negb (Qle_bool (-90) x && Qle_bool x 90)) |];
    try (intros H; injection H as <-; eexists; reflexivity);
    (destruct (Schemas.longitude c) as [y |];
     [destruct (negb (Qle_bool (-180) y && Qle_bool y 180)) |]);
    intros H; try discriminate; injection H as <-; eexists; reflexivity.
Qed.

Lemma create_grid_cell_data_Err
    (main_row : Pgm.row) (hdi_data : list Hdi.row) (coord_data : list Coord.row)
    (country_map : gmap Z string) (metrics : Schemas.MetricSelection)
    (rng : MT19937.mt19937_state) (e : exception) :
  fst (_create_grid_cell_data main_row hdi_data coord_data country_map metrics rng) = Err e ->
  exists msg, e = PydanticValidationError msg.
Proof.
  unfold _create_grid_cell_data.
  destruct (_generate_synthetic_metrics _ rng) as [sm rng2].
  pose proof (generate_coordinates_for_grid_total (Pgm.scalar main_row Pgm.pg_id)) as Htot.
  destruct (List.filter _ coord_data) as [| c ?].
  - destruct (_generate_coordinates_for_grid (Pgm.scalar main_row Pgm.pg_id)) as [[lat lon] | e'].
    + cbn [fst]. apply GridCellData_init_Err.
    + now destruct (Htot e').
  - destruct (Py.or_float (Coord.lat c) _) as [la |];
      [destruct (Py.or_float (Coord.lon c) _) as [lo |] |].
    + cbn [fst]. apply GridCellData_init_Err.
    + destruct (_generate_coordinates_for_grid (Pgm.scalar main_row Pgm.pg_id)) as [[lat lon] | e'].
      * cbn [fst]. apply GridCellData_init_Err.
      * now destruct (Htot e').
    + destruct (_generate_coordinates_for_grid (Pgm.scalar main_row Pgm.pg_id)) as [[lat lon] | e'].
      * cbn [fst]. apply GridCellData_init_Err.
      * now destruct (Htot e').
Qed.

Lemma coord_row_for_total (coord_lookup : gmap Z Coord.row) (row : Pgm.row) (e : exception) :
  coord_row_for coord_lookup row <> Err e.
Proof.
  unfold coord_row_for. cbv zeta.
  destruct (coord_lookup !! Pgm.pg_id row); [discriminate |].
  change (generate_coordinates (Pgm.scalar row Pgm.pg_id))
    with (_generate_coordinates_for_grid (Pgm.scalar row Pgm.pg_id)).
  pose proof (generate_coordinates_for_grid_total (Pgm.scalar row Pgm.pg_id)) as Htot.
  destruct (_generate_coordinates_for_grid (Pgm.scalar row Pgm.pg_id)) as [[lat lon] | e'];
    [discriminate | now destruct (Htot e')].
Qed.

Lemma enrich_rows_Err
    (hdi_data : DataService.frame Hdi.row) (coord_lookup : gmap Z Coord.row)
    (country_map : gmap Z string) (metrics : Schemas.MetricSelection)
    (rows : list Pgm.row) :
  forall (acc : list Schemas.GridCellData) (rng : MT19937.mt19937_state) (e : exception),
    fst (enrich_rows hdi_data coord_lookup country_map metrics rows acc rng) = Err e ->
    raised_by_query e.
Proof.
  induction rows as [| row rows IH]; intros acc rng e H.
  - discriminate.
  - cbn [enrich_rows] in H.
    destruct hdi_data as [hdi |]; [| injection H as <-; exact I].
    pose proof (coord_row_for_total coord_lookup row) as Htot.
    destruct (coord_row_for coord_lookup row) as [coord_row | e']; [| now destruct (Htot e')].
    destruct (_create_grid_cell_data row _ coord_row country_map metrics rng)
      as [[cell | e'] rng2] eqn:Hcell.
    + eapply IH. exact H.
    + cbn [fst] in H. injection H as <-.
      pose proof (f_equal fst Hcell) as Hfst. cbn [fst] in Hfst.
      apply create_grid_cell_data_Err in Hfst. destruct Hfst as [msg ->]. exact I.
Qed.

(** A query fails only because the data is not loaded or no row is
    selected, because a table is missing, or because a coordinate of the
    table fails the schema validation. *)
Lemma get_enriched_forecasts_Err
    (ds : DataService.t) (grid_ids : list Z) (month_ids : option (list Z))
    (metrics : Schemas.MetricSelection) (rng : MT19937.mt19937_state) (e : exception) :
  fst (_get_enriched_forecasts ds grid_ids month_ids metrics rng) = Err e ->
  raised_by_query e.
Proof.
  unfold _get_enriched_forecasts. intros H.
  destruct (DataService.get_grid_data ds grid_ids month_ids) as [main_data | e'] eqn:Hm.
  - eapply enrich_rows_Err. exact H.
  - cbn [fst] in H. injection H as <-.
    unfold DataService.get_grid_data in Hm.
    destruct (negb _); [injection Hm as <-; exact I |].
    destruct (DataService.pgm_data ds); [| injection Hm as <-; exact I].
    destruct (List.filter _ _); [injection Hm as <-; exact I | discriminate].
Qed.

(** ** The conflict-type list *)

Lemma create_grid_cell_data_ignores_conflict_types
    (main_row : Pgm.row) (hdi_data : list Hdi.row) (coord_data : list Coord.row)
    (country_map : gmap Z string) (metrics : Schemas.MetricSelection) (tags : list string)
    (rng : MT19937.mt19937_state) :
  _create_grid_cell_data main_row hdi_data coord_data country_map
    (Schemas.with_conflict_types metrics tags) rng =
  _create_grid_cell_data main_row hdi_data coord_data country_map metrics rng.
Proof.
  unfold _create_grid_cell_data. destruct metrics.
  cbn [Schemas.with_conflict_types Schemas.include_map Schemas.include_hdi_50
       Schemas.include_hdi_90 Schemas.include_hdi_99 Schemas.include_thresholds].
  reflexivity.
Qed.

Lemma enrich_rows_ignores_conflict_types
    (hdi_data : DataService.frame Hdi.row) (coord_lookup : gmap Z Coord.row)
    (country_map : gmap Z string) (metrics : Schemas.MetricSelection) (tags : list string)
    (rows : list Pgm.row) :
  forall (acc : list Schemas.GridCellData) (rng : MT19937.mt19937_state),
    enrich_rows hdi_data coord_lookup country_map
      (Schemas.with_conflict_types metrics tags) rows acc rng =
    enrich_rows hdi_data coord_lookup country_map metrics rows acc rng.
Proof.
  induction rows as [| row rows IH]; intros acc rng; [reflexivity |].
  cbn [enrich_rows]. destruct hdi_data as [hdi |]; [| reflexivity].
  destruct (coord_row_for coord_lookup row) as [coord_row | e]; [| reflexivity].
  rewrite create_grid_cell_data_ignores_conflict_types.
  destruct (_create_grid_cell_data row _ coord_row country_map metrics rng)
    as [[cell | e] rng2]; [apply IH | reflexivity].
Qed.

Lemma MetricSelection_init_unknown_tag (map h50 h90 h99 thr : bool) (tags : list string) :
  (exists t, In t tags /\ Schemas.ConflictType_of_value t = None) ->
  exists msg,
    Schemas.MetricSelection_init map h50 h90 h99 thr tags = Err (PydanticValidationError msg).
Proof.
  intros (t & Hin & Hnone). unfold Schemas.MetricSelection_init.
  destruct (forallb _ tags) eqn:Hall; [| eexists; reflexivity].
  rewrite forallb_forall in Hall. specialize (Hall t Hin).
  apply bool_decide_eq_true in Hall. rewrite Hnone in Hall.
  destruct Hall as [? Hx]. discriminate.
Qed.

(** C4, as amended. A conflict-type list with a tag that is no ConflictType
    value is rejected when the MetricSelection is constructed, by the
    schema validation and before any query runs. The orchestrator itself
    never reads the list: a selection carrying such a list gives exactly
    the result of the same selection with any other list, and a query never
    ends with the ValidationError of the API. *)
Theorem unknown_tag_rejected_at_construction
    (map h50 h90 h99 thr : bool) (tags : list string)
    (ds : DataService.t) (grid_ids : list Z) (month_ids : option (list Z))
    (metrics : Schemas.MetricSelection) (rng : MT19937.mt19937_state) :
  (exists t, In t tags /\ Schemas.ConflictType_of_value t = None) ->
  (exists msg,
      Schemas.MetricSelection_init map h50 h90 h99 thr tags =
        Err (PydanticValidationError msg)) /\
  _get_enriched_forecasts ds grid_ids month_ids (Schemas.with_conflict_types metrics tags) rng =
    _get_enriched_forecasts ds grid_ids month_ids metrics rng /\
  (forall msg,
      fst (_get_enriched_forecasts ds grid_ids month_ids
             (Schemas.with_conflict_types metrics tags) rng) <> Err (ValidationError msg)).
Proof.
  intros Htag. split; [| split].
  - apply MetricSelection_init_unknown_tag. exact Htag.
  - unfold _get_enriched_forecasts.
    destruct (DataService.get_grid_data ds grid_ids month_ids); [| reflexivity].
    cbv zeta. apply enrich_rows_ignores_conflict_types.
  - intros msg H. apply get_enriched_forecasts_Err in H. exact H.
Qed.

Lemma unknown_tag_rejected_at_construction_witness :
  (exists msg,
      Schemas.MetricSelection_init true false true false true ["xyz"] =
        Err (PydanticValidationError msg)) /\
  _get_enriched_forecasts Example.store [62356] None
    (Schemas.with_conflict_types Schemas.MetricSelection_default ["xyz"]) Example.rng0 =
  _get_enriched_forecasts Example.store [62356] None Schemas.MetricSelection_default Example.rng0.
Proof.
  destruct (unknown_tag_rejected_at_construction
              true false true false true ["xyz"] Example.store [62356] None
              Schemas.MetricSelection_default Example.rng0) as (H1 & H2 & _).
  - exists "xyz". split; [left; reflexivity | reflexivity].
  - split; [exact H1 | exact H2].
Defined.

(** C4, as stated, fails: a selection whose list holds the tag "xyz",
    which is none of the tags the claim names (state_based, non_state,
    one_sided) and no ConflictType value (sb, ns, os) either, goes through
    the orchestrator, which returns the two records of grid cell 62356
    instead of raising. *)
Lemma unknown_tag_not_rejected_by_orchestrator :
  (exists t, In t (Schemas.conflict_types Example.unknown_tag_metrics) /\
             ~ In t SpecWords.known_tags /\
             Schemas.ConflictType_of_value t = None) /\
  exists out,
    fst (_get_enriched_forecasts Example.store [62356] None
           Example.unknown_tag_metrics Example.rng0) = Ok out /\
    length out = 2%nat /\
    forall msg,
      fst (_get_enriched_forecasts Example.store [62356] None
             Example.unknown_tag_metrics Example.rng0) <> Err (ValidationError msg).
Proof.
  split.
  - exists "xyz". split; [left; reflexivity |]. split; [| reflexivity].
    intros [H | [H | [H | []]]]; discriminate.
  - destruct (fst (_get_enriched_forecasts Example.store [62356] None
                     Example.unknown_tag_metrics Example.rng0))
      as [out | e] eqn:H; [| vm_compute in H; discriminate].
    exists out. split; [reflexivity |]. split; [| discriminate].
    vm_compute in H. injection H as <-. reflexivity.
Qed.

(** ** The calendar of a month id *)

(** The conversion of the code is the mapping of the specification taken
    seven months earlier: it anchors month id 548 at January 2025. *)
Lemma calendar_is_shifted_spec (m : Z) :
  year_of_month_id m = SpecWords.year (m - 7) /\
  month_of_month_id m = SpecWords.month (m - 7).
Proof.
  unfold year_of_month_id, month_of_month_id, SpecWords.year, SpecWords.month.
  replace (m - 7 - 548 + 7) with (m - 548) by lia. split; reflexivity.
Qed.

(** C1, on the code. For month id 548 the code computes year 2025 and
    month 1, where the specification (and the comment of get_basic_info,
    month 548 = 2025-08) asks for month 8: the record of a query for month
    548 carries month 1, and get_basic_info reports the range from 2025-01. *)
Theorem month_548_is_january_in_code :
  year_of_month_id 548 = 2025 /\
  month_of_month_id 548 = 1 /\
  SpecWords.year 548 = 2025 /\
  SpecWords.month 548 = 8 /\
  match fst (get_forecasts_by_grid Example.store [62357] (Some 548) (Some 548)
               Schemas.MetricSelection_default Example.rng0) with
  | Ok out => map (fun c => (Schemas.month_id c, Schemas.year c, Schemas.month c)) out
  | Err _ => []
  end = [(548, Some 2025, Some 1)] /\
  BasicInfo.date_range (get_basic_info Example.store) = Some ("2025-01", "2025-02").
Proof. repeat split; vm_compute; reflexivity. Qed.

(** ** Queries that select nothing *)

(** C8, on the code. For the grid id 62356 and the month range
    [1000, 2000] the month filter is the empty list and no primary row
    matches, yet get_forecasts_by_grid returns the rows of months 548 and
    549 instead of raising DataNotFoundError: get_grid_data tests the
    truthiness of month_ids, so an empty list of months filters nothing. *)
Theorem empty_month_range_returns_other_months :
  month_filter Example.store (Some 1000) (Some 2000) = Ok (Some []) /\
  match DataService.pgm_data Example.store with
  | Some pgm =>
      List.filter (fun r => (Pgm.pg_id r =? 62356) &&
                            (1000 <=? Pgm.month_id r) && (Pgm.month_id r <=? 2000)) pgm
  | None => []
  end = [] /\
  match fst (get_forecasts_by_grid Example.store [62356] (Some 1000) (Some 2000)
               Schemas.MetricSelection_default Example.rng0) with
  | Ok out => map (fun c => (Schemas.grid_id c, Schemas.month_id c)) out
  | Err _ => []
  end = [(62356, 548); (62356, 549)] /\
  DataService.get_grid_data Example.store [62356] (Some []) =
    DataService.get_grid_data Example.store [62356] None.
Proof. repeat split; vm_compute; reflexivity. Qed.

(** * Further properties of the code *)

(** ** Calendar fields *)

(** X1. For every month id, also below 548, the month of the year lies in
    1..12 and the month id is recovered from the two calendar fields:
    month_id = 548 + 12 * (year - 2025) + (month - 1). *)
Theorem calendar_fields_invertible (m : Z) :
  1 <= month_of_month_id m <= 12 /\
  m = 548 + 12 * (year_of_month_id m - 2025) + (month_of_month_id m - 1).
Proof.
  unfold month_of_month_id, year_of_month_id.
  pose proof (Z.mod_pos_bound (m - 548) 12 ltac:(lia)).
  pose proof (Z.div_mod (m - 548) 12 ltac:(lia)).
  lia.
Qed.

(** X2. One more month id is one more calendar month: December is
    followed by January of the next year, every other month by the next
    month of the same year. *)
Theorem calendar_step (m : Z) :
  (month_of_month_id m = 12 ->
   month_of_month_id (m + 1) = 1 /\ year_of_month_id (m + 1) = year_of_month_id m + 1) /\
  (month_of_month_id m <> 12 ->
   month_of_month_id (m + 1) = month_of_month_id m + 1 /\
   year_of_month_id (m + 1) = year_of_month_id m).
Proof.
  unfold month_of_month_id, year_of_month_id.
  pose proof (Z.mod_pos_bound (m - 548) 12 ltac:(lia)).
  pose proof (Z.div_mod (m - 548) 12 ltac:(lia)).
  pose proof (Z.mod_pos_bound (m + 1 - 548) 12 ltac:(lia)).
  pose proof (Z.div_mod (m + 1 - 548) 12 ltac:(lia)).
  split; intros; lia.
Qed.

Lemma calendar_step_witness :
  month_of_month_id (559 + 1) = 1 /\ year_of_month_id (559 + 1) = year_of_month_id 559 + 1.
Proof.
  destruct (calendar_step 559) as [H _]. apply H. reflexivity.
Defined.

(** ** Schema validation of a record *)

Lemma validate_latitude_Ok_iff (x : Q) :
  Schemas.validate_latitude (Some x) = Ok (Some x) <-> (-90 <= x)%Q /\ (x <= 90)%Q.
Proof.
  unfold Schemas.validate_latitude.
  destruct (Qle_bool (-90) x) eqn:E1; destruct (Qle_bool x 90) eqn:E2; cbn;
    try apply Qle_bool_iff in E1; try apply Qle_bool_iff in E2;
    try apply Qle_bool_false in E1; try apply Qle_bool_false in E2;
    split; try tauto; try discriminate; intros [? ?]; lra.
Qed.

Lemma validate_longitude_Ok_iff (x : Q) :
  Schemas.validate_longitude (Some x) = Ok (Some x) <-> (-180 <= x)%Q /\ (x <= 180)%Q.
Proof.
  unfold Schemas.validate_longitude.
  destruct (Qle_bool (-180) x) eqn:E1; destruct (Qle_bool x 180) eqn:E2; cbn;
    try apply Qle_bool_iff in E1; try apply Qle_bool_iff in E2;
    try apply Qle_bool_false in E1; try apply Qle_bool_false in E2;
    split; try tauto; try discriminate; intros [? ?]; lra.
Qed.

Lemma GridCellData_init_accepts (c : Schemas.GridCellData) (la lo : Q) :
  Schemas.latitude c = Some la -> Schemas.longitude c = Some lo ->
  (-90 <= la)%Q -> (la <= 90)%Q -> (-180 <= lo)%Q -> (lo <= 180)%Q ->
  Schemas.GridCellData_init c = Ok c.
Proof.
  intros Hla Hlo H1 H2 H3 H4. unfold Schemas.GridCellData_init.
  rewrite Hla, Hlo.
  rewrite (proj2 (validate_latitude_Ok_iff la) (conj H1 H2)).
  rewrite (proj2 (validate_longitude_Ok_iff lo) (conj H3 H4)).
  reflexivity.
Qed.

(** X3. The constructor of GridCellData accepts a record exactly when its
    latitude, if present, lies in [-90, 90] and its longitude, if present,
    in [-180, 180] (bounds included); it then returns the record unchanged,
    and otherwise fails with the validation error of the schema. *)
Theorem GridCellData_init_spec (c : Schemas.GridCellData) :
  let lat_ok := match Schemas.latitude c with
                | Some x => (-90 <= x)%Q /\ (x <= 90)%Q
                | None => True
                end in
  let lon_ok := match Schemas.longitude c with
                | Some x => (-180 <= x)%Q /\ (x <= 180)%Q
                | None => True
                end in
  (lat_ok /\ lon_ok <-> Schemas.GridCellData_init c = Ok c) /\
  (forall c', Schemas.GridCellData_init c = Ok c' -> c' = c) /\
  (~ (lat_ok /\ lon_ok) <->
   exists msg, Schemas.GridCellData_init c = Err (PydanticValidationError msg)).
Proof.
  cbv zeta.
  assert (Hiff :
    (match Schemas.latitude c with
     | Some x => (-90 <= x)%Q /\ (x <= 90)%Q
     | None => True
     end /\
     match Schemas.longitude c with
     | Some x => (-180 <= x)%Q /\ (x <= 180)%Q
     | None => True
     end) <-> Schemas.GridCellData_init c = Ok c).
  { unfold Schemas.GridCellData_init, Schemas.validate_latitude, Schemas.validate_longitude.
    destruct (Schemas.latitude c) as [la |]; destruct (Schemas.longitude c) as [lo |];
      repeat match goal with
             | |- context [Qle_bool ?a ?b] =>
                 let E := fresh "E" in
                 destruct (Qle_bool a b) eqn:E;
                 [apply Qle_bool_iff in E | apply Qle_bool_false in E]
             end;
      cbn [negb andb]; split; intros H;
      try reflexivity; try discriminate; try tauto;
      try (exfalso; destruct H as [H1 H2]; try destruct H1; try destruct H2; lra). }
  split; [exact Hiff |]. split.
  - intros c' H. now apply GridCellData_init_Ok.
  - split.
    + intros Hn. destruct (Schemas.GridCellData_init c) as [c' | e] eqn:E.
      * pose proof (GridCellData_init_Ok _ _ E) as ->.
        exfalso. apply Hn. apply Hiff. reflexivity.
      * apply GridCellData_init_Err in E. destruct E as [msg ->]. now exists msg.
    + intros [msg H] Hok. apply Hiff in Hok. congruence.
Qed.

(** X4. The coordinate fallback never produces a coordinate that the
    schema rejects: for every grid id the generator returns a pair, and a
    record carrying that pair passes both validators. *)
Theorem synthetic_coordinates_pass_validation (grid_id : Py.number) :
  exists lat lon,
    _generate_coordinates_for_grid grid_id = Ok (lat, lon) /\
    Schemas.validate_latitude (Some lat) = Ok (Some lat) /\
    Schemas.validate_longitude (Some lon) = Ok (Some lon).
Proof.
  pose proof (generate_coordinates_for_grid_value grid_id) as H. cbv zeta in H.
  set (h := SpecWords.first_32_bits _) in H.
  destruct (synthetic_coordinate_range h) as (H1 & H2 & H3 & H4).
  do 2 eexists. split; [exact H |]. split.
  - apply validate_latitude_Ok_iff. split; lra.
  - apply validate_longitude_Ok_iff. split; lra.
Qed.

(** ** The synthetic bands *)

Lemma min1_monotone (p u v : Q) : (u <= v)%Q -> (Py.min 1 (p + u) <= Py.min 1 (p + v))%Q.
Proof. intros. minmax. Qed.

Lemma band_width (p ul uu : Q) :
  (Py.min 1 (p + uu) - Py.max 0 (p - ul) <= ul + uu)%Q.
Proof. minmax. Qed.

(** X5. The synthetic 50% band is nested in the synthetic 99% band, for
    every point estimate and every generator state: hdi_99_lower <=
    hdi_50_lower and hdi_50_upper <= hdi_99_upper; the 50% band is narrower
    than 0.01 and the 99% band narrower than 0.06. *)
Theorem synthetic_bands_nested (p : Q) (rng : MT19937.mt19937_state) :
  let m := fst (_generate_synthetic_metrics p rng) in
  (Synthetic.hdi_99_lower m <= Synthetic.hdi_50_lower m)%Q /\
  (Synthetic.hdi_50_upper m <= Synthetic.hdi_99_upper m)%Q /\
  (Synthetic.hdi_50_upper m - Synthetic.hdi_50_lower m < 0.01)%Q /\
  (Synthetic.hdi_99_upper m - Synthetic.hdi_99_lower m < 0.06)%Q.
Proof.
  with_offsets p rng.
  split; [apply max0_antitone; lra |].
  split; [apply min1_monotone; lra |].
  split.
  - pose proof (band_width p (u_hdi_50_lower o) (u_hdi_50_upper o)). lra.
  - pose proof (band_width p (u_hdi_99_lower o) (u_hdi_99_upper o)). lra.
Qed.

(** X6. Clamping at the low end: a point estimate of at most 0.05 gives
    threshold_6 exactly 0 and one of at most 0.01 gives threshold_3 to
    threshold_6 exactly 0, while a point estimate of at least 0.08 gives
    five positive slots, each within the offset range below p. *)
Theorem threshold_slots_clamped_low (p : Q) (rng : MT19937.mt19937_state) :
  let m := fst (_generate_synthetic_metrics p rng) in
  ((p <= 0.05)%Q -> Synthetic.threshold_6 m = 0%Q) /\
  ((p <= 0.01)%Q ->
   Synthetic.threshold_3 m = 0%Q /\ Synthetic.threshold_4 m = 0%Q /\
   Synthetic.threshold_5 m = 0%Q /\ Synthetic.threshold_6 m = 0%Q) /\
  ((0.08 <= p)%Q ->
   (p - 0.01 < Synthetic.threshold_2 m)%Q /\ (p - 0.02 < Synthetic.threshold_3 m)%Q /\
   (p - 0.04 < Synthetic.threshold_4 m)%Q /\ (p - 0.06 < Synthetic.threshold_5 m)%Q /\
   (p - 0.08 < Synthetic.threshold_6 m)%Q /\ (0 < Synthetic.threshold_6 m)%Q /\
   (Synthetic.threshold_6 m <= p - 0.05)%Q).
Proof.
  with_offsets p rng.
  split; [| split].
  - intros Hp. minmax.
  - intros Hp. repeat split; minmax.
  - intros Hp. repeat split; minmax.
Qed.

Lemma threshold_slots_clamped_low_witness :
  Synthetic.threshold_6 (fst (_generate_synthetic_metrics 0.03 Example.rng0)) = 0%Q /\
  (0 < Synthetic.threshold_6 (fst (_generate_synthetic_metrics 0.5 Example.rng0)))%Q.
Proof.
  destruct (threshold_slots_clamped_low 0.03 Example.rng0) as (H1 & _ & _).
  destruct (threshold_slots_clamped_low 0.5 Example.rng0) as (_ & _ & H3).
  split.
  - apply H1. lra.
  - destruct H3 as (_ & _ & _ & _ & _ & H & _); [lra | exact H].
Defined.

(** ** The seed of the synthetic metrics *)

Lemma synthetic_metrics_dict_draws (p : Q) (rng : MT19937.mt19937_state) :
  fst (synthetic_metrics_dict p rng) = metrics_of_offsets p (draw_offsets rng).
Proof.
  unfold synthetic_metrics_dict, draw_offsets.
  repeat match goal with
         | |- context [MT19937.uniform ?a ?b ?s] =>
             destruct (MT19937.uniform a b s) as [? ?]
         end.
  reflexivity.
Qed.

Lemma draw_offsets_in_range (rng : MT19937.mt19937_state) :
  offsets_in_range (draw_offsets rng).
Proof.
  unfold draw_offsets. do 9 draw.
  unfold offsets_in_range; cbn; tauto.
Qed.

(** X7. The offsets of the synthetic metrics depend on the point estimate
    only through its seed int(p * 10000) mod 2^32: two point estimates with
    the same seed (for instance two probabilities that agree to four
    decimals) get the same nine offsets, each in the range of the code, and
    their metrics are the clamped shifts of the two estimates by these
    offsets. *)
Theorem same_seed_same_offsets (p q : Q) (rng1 rng2 : MT19937.mt19937_state) :
  Py.int (p * 10000) mod 2 ^ 32 = Py.int (q * 10000) mod 2 ^ 32 ->
  exists o : offsets,
    offsets_in_range o /\
    fst (_generate_synthetic_metrics p rng1) = metrics_of_offsets p o /\
    fst (_generate_synthetic_metrics q rng2) = metrics_of_offsets q o.
Proof.
  intros Hseed.
  exists (draw_offsets (MT19937.mt19937_seed (Py.int (p * 10000) mod 2 ^ 32))).
  split; [apply draw_offsets_in_range |].
  unfold _generate_synthetic_metrics. cbv zeta. rewrite <- Hseed.
  split; apply synthetic_metrics_dict_draws.
Qed.

Lemma same_seed_same_offsets_witness :
  exists o : offsets,
    offsets_in_range o /\
    fst (_generate_synthetic_metrics 0.5 Example.rng0) = metrics_of_offsets 0.5 o /\
    fst (_generate_synthetic_metrics 0.50003 Example.rng0) = metrics_of_offsets 0.50003 o.
Proof.
  apply (same_seed_same_offsets 0.5 0.50003 Example.rng0 Example.rng0).
  vm_compute. reflexivity.
Defined.

(** ** Selection, order and failure of a query *)

Lemma Forall2_map_eq {A B C} (R : A -> B -> Prop) (f : A -> C) (g : B -> C)
    (l : list A) (k : list B) :
  (forall a b, R a b -> f a = g b) -> Forall2 R l k -> map f l = map g k.
Proof.
  intros HR. induction 1 as [| a b l k Hab HF IH]; [reflexivity |].
  cbn [map]. rewrite (HR a b Hab). f_equal. exact IH.
Qed.

(** X8. A successful query returns exactly one record per selected primary
    row, in the row order of the table, with the grid id and month id of
    the row: no key is fabricated, dropped or reordered. A row is selected
    when its grid id is requested and, if month_ids is a non-empty list,
    its month id is in it. *)
Theorem one_record_per_selected_row
    (ds : DataService.t) (grid_ids : list Z) (month_ids : option (list Z))
    (metrics : Schemas.MetricSelection) (rng : MT19937.mt19937_state)
    (out : list Schemas.GridCellData) :
  fst (_get_enriched_forecasts ds grid_ids month_ids metrics rng) = Ok out ->
  exists pgm,
    DataService.pgm_data ds = Some pgm /\
    map (fun c => (Schemas.grid_id c, Schemas.month_id c)) out =
    map (fun r => (Pgm.pg_id r, Pgm.month_id r))
        (List.filter
           (fun r => selected grid_ids month_ids (Pgm.pg_id r) (Pgm.month_id r)) pgm).
Proof.
  intros H. apply get_enriched_forecasts_Ok in H.
  destruct H as (main_data & hdi & Hm & _ & HF).
  apply get_grid_data_Ok in Hm. destruct Hm as (pgm & _ & Hpgm & _ & Hmain).
  exists pgm. split; [exact Hpgm |]. rewrite <- Hmain. symmetry.
  eapply Forall2_map_eq; [| exact HF].
  intros row cell HR. apply row_enriched_fields in HR.
  destruct HR as (-> & -> & _). reflexivity.
Qed.

Lemma one_record_per_selected_row_witness :
  exists out,
    fst (_get_enriched_forecasts Example.store [62356; 62358] None
           Schemas.MetricSelection_default Example.rng0) = Ok out /\
    map (fun c => (Schemas.grid_id c, Schemas.month_id c)) out =
      [(62356, 548); (62358, 548); (62356, 549)].
Proof.
  destruct (fst (_get_enriched_forecasts Example.store [62356; 62358] None
                   Schemas.MetricSelection_default Example.rng0))
    as [out | e] eqn:H; [| vm_compute in H; discriminate].
  exists out. split; [reflexivity |].
  destruct (one_record_per_selected_row _ _ _ _ _ _ H) as (pgm & Hpgm & ->).
  injection Hpgm as <-. vm_compute. reflexivity.
Defined.

Lemma enrich_rows_Err_cases
    (hdi_data : DataService.frame Hdi.row) (coord_lookup : gmap Z Coord.row)
    (country_map : gmap Z string) (metrics : Schemas.MetricSelection)
    (rows : list Pgm.row) :
  forall (acc : list Schemas.GridCellData) (rng : MT19937.mt19937_state) (e : exception),
    fst (enrich_rows hdi_data coord_lookup country_map metrics rows acc rng) = Err e ->
    (hdi_data = None /\ e = KeyError "priogrid_id") \/
    (exists msg, e = PydanticValidationError msg).
Proof.
  induction rows as [| row rows IH]; intros acc rng e H.
  - discriminate.
  - cbn [enrich_rows] in H.
    destruct hdi_data as [hdi |]; [| injection H as <-; left; split; reflexivity].
    pose proof (coord_row_for_total coord_lookup row) as Htot.
    destruct (coord_row_for coord_lookup row) as [coord_row | e']; [| now destruct (Htot e')].
    destruct (_create_grid_cell_data row _ coord_row country_map metrics rng)
      as [[cell | e'] rng2] eqn:Hcell.
    + eapply IH. exact H.
    + cbn [fst] in H. injection H as <-.
      pose proof (f_equal fst Hcell) as Hfst. cbn [fst] in Hfst.
      apply create_grid_cell_data_Err in Hfst. right. exact Hfst.
Qed.

(** X9. On a loaded service a query fails with DataNotFoundError exactly
    when no primary row is selected; the message then names the requested
    grid ids and the global generator is left untouched. *)
Theorem no_selected_rows_not_found
    (ds : DataService.t) (grid_ids : list Z) (month_ids : option (list Z))
    (metrics : Schemas.MetricSelection) (rng : MT19937.mt19937_state)
    (pgm : list Pgm.row) :
  DataService.is_loaded ds = true ->
  DataService.pgm_data ds = Some pgm ->
  (List.filter (fun r => selected grid_ids month_ids (Pgm.pg_id r) (Pgm.month_id r)) pgm = [] ->
   _get_enriched_forecasts ds grid_ids month_ids metrics rng =
     (Err (DataNotFoundError ("No data found for grid IDs: " +:+ Py.str_list grid_ids)), rng)) /\
  (forall msg,
     fst (_get_enriched_forecasts ds grid_ids month_ids metrics rng) =
       Err (DataNotFoundError msg) ->
     List.filter (fun r => selected grid_ids month_ids (Pgm.pg_id r) (Pgm.month_id r)) pgm = []).
Proof.
  intros Hl Hpgm.
  assert (Hq : List.filter
                 (match month_ids with
                  | Some (m :: ms) =>
                      fun r : Pgm.row =>
                        Py.isin (Pgm.pg_id r) grid_ids && Py.isin (Pgm.month_id r) (m :: ms)
                  | _ => fun r : Pgm.row => Py.isin (Pgm.pg_id r) grid_ids
                  end) pgm =
               List.filter
                 (fun r => selected grid_ids month_ids (Pgm.pg_id r) (Pgm.month_id r)) pgm).
  { apply filter_ext. intros r. unfold selected.
    destruct month_ids as [[| m ms] |]; try reflexivity; now rewrite andb_true_r. }
  split.
  - intros Hnone. unfold _get_enriched_forecasts, DataService.get_grid_data.
    rewrite Hl, Hpgm. cbn [negb]. cbv zeta. rewrite Hq, Hnone. reflexivity.
  - intros msg H. unfold _get_enriched_forecasts in H.
    destruct (DataService.get_grid_data ds grid_ids month_ids) as [main_data | e] eqn:Hm.
    + apply enrich_rows_Err_cases in H.
      destruct H as [[_ H] | [msg' H]]; discriminate.
    + unfold DataService.get_grid_data in Hm. rewrite Hl, Hpgm in Hm.
      cbn [negb] in Hm. cbv zeta in Hm. rewrite Hq in Hm. clear Hq.
      destruct (List.filter _ pgm); [reflexivity | discriminate].
Qed.

Lemma no_selected_rows_not_found_witness :
  _get_enriched_forecasts Example.store [999999] None
    Schemas.MetricSelection_default Example.rng0 =
    (Err (DataNotFoundError "No data found for grid IDs: [999999]"), Example.rng0).
Proof.
  destruct (no_selected_rows_not_found Example.store [999999] None
              Schemas.MetricSelection_default Example.rng0 _ eq_refl eq_refl) as [H _].
  apply H. reflexivity.
Defined.

(** ** The month range of a query *)

Lemma filter_nil_intro {A} (f : A -> bool) (l : list A) :
  (forall x, In x l -> f x = false) -> List.filter f l = [].
Proof.
  induction l as [| x l IH]; intros H; [reflexivity |].
  cbn [List.filter]. rewrite (H x) by now left. apply IH. intros y Hy. apply H. now right.
Qed.

Lemma get_enriched_forecasts_empty_months
    (ds : DataService.t) (grid_ids : list Z)
    (metrics : Schemas.MetricSelection) (rng : MT19937.mt19937_state) :
  _get_enriched_forecasts ds grid_ids (Some []) metrics rng =
  _get_enriched_forecasts ds grid_ids None metrics rng.
Proof.
  unfold _get_enriched_forecasts, DataService.get_grid_data, DataService.get_hdi_data.
  cbv beta iota. reflexivity.
Qed.

(** X10. A month range that contains none of the available months does
    not restrict a grid query: with non-zero bounds start and end and no
    available month in [start, end], get_forecasts_by_grid returns exactly
    what it returns without any month bound (every month of the requested
    grid cells), because the empty month list is treated as no filter. *)
Theorem empty_month_range_filters_nothing
    (ds : DataService.t) (grid_ids : list Z) (month_start month_end : Z)
    (metrics : Schemas.MetricSelection) (rng : MT19937.mt19937_state) :
  month_start <> 0 -> month_end <> 0 ->
  (forall m, In m (DataService.get_available_months ds) ->
             ~ (month_start <= m <= month_end)) ->
  get_forecasts_by_grid ds grid_ids (Some month_start) (Some month_end) metrics rng =
  get_forecasts_by_grid ds grid_ids None None metrics rng.
Proof.
  intros Hs He Hnone. unfold get_forecasts_by_grid, month_filter.
  cbn [Py.truthy_int orb or_else].
  destruct (Z.eqb_spec month_start 0) as [? | _]; [contradiction |].
  destruct (Z.eqb_spec month_end 0) as [? | _]; [contradiction |].
  cbn [negb orb].
  rewrite filter_nil_intro.
  - apply get_enriched_forecasts_empty_months.
  - intros m Hm. specialize (Hnone m Hm).
    destruct (Z.leb_spec month_start m); destruct (Z.leb_spec m month_end);
      cbn; try reflexivity. lia.
Qed.

Lemma empty_month_range_filters_nothing_witness :
  get_forecasts_by_grid Example.store [62356] (Some 1000) (Some 2000)
    Schemas.MetricSelection_default Example.rng0 =
  get_forecasts_by_grid Example.store [62356] None None
    Schemas.MetricSelection_default Example.rng0.
Proof.
  apply empty_month_range_filters_nothing; [discriminate | discriminate |].
  intros m Hm.
  assert (Hall : DataService.get_available_months Example.store = [548; 549])
    by (vm_compute; reflexivity).
  rewrite Hall in Hm. destruct Hm as [<- | [<- | []]]; lia.
Defined.

(** ** The global generator across a query *)

Lemma create_grid_cell_data_reseeded
    (main_row : Pgm.row) (hdi_data : list Hdi.row) (coord_data : list Coord.row)
    (country_map : gmap Z string) (metrics : Schemas.MetricSelection)
    (rng1 rng2 : MT19937.mt19937_state) :
  _create_grid_cell_data main_row hdi_data coord_data country_map metrics rng1 =
  _create_grid_cell_data main_row hdi_data coord_data country_map metrics rng2.
Proof.
  unfold _create_grid_cell_data.
  rewrite (synthetic_metrics_reseeded (default 0.01%Q (Pgm.main_dich main_row)) rng1 rng2).
  pose proof (generate_coordinates_for_grid_total (Pgm.scalar main_row Pgm.pg_id)) as Htot.
  destruct (List.filter _ coord_data) as [| c ?].
  - destruct (_generate_coordinates_for_grid (Pgm.scalar main_row Pgm.pg_id)) as [[lat lon] | e'];
      [reflexivity | now destruct (Htot e')].
  - destruct (Py.or_float (Coord.lat c) _) as [la |];
      [destruct (Py.or_float (Coord.lon c) _) as [lo |] |]; try reflexivity;
      (destruct (_generate_coordinates_for_grid (Pgm.scalar main_row Pgm.pg_id)) as [[lat lon] | e'];
       [reflexivity | now destruct (Htot e')]).
Qed.

Lemma enrich_rows_reseeded
    (hdi : list Hdi.row) (coord_lookup : gmap Z Coord.row)
    (country_map : gmap Z string) (metrics : Schemas.MetricSelection)
    (row : Pgm.row) (rows : list Pgm.row) (acc : list Schemas.GridCellData)
    (rng1 rng2 : MT19937.mt19937_state) :
  enrich_rows (Some hdi) coord_lookup country_map metrics (row :: rows) acc rng1 =
  enrich_rows (Some hdi) coord_lookup country_map metrics (row :: rows) acc rng2.
Proof.
  cbn [enrich_rows].
  pose proof (coord_row_for_total coord_lookup row) as Htot.
  destruct (coord_row_for coord_lookup row) as [coord_row | e']; [| now destruct (Htot e')].
  rewrite (create_grid_cell_data_reseeded row _ coord_row country_map metrics rng1 rng2).
  reflexivity.
Qed.

(** X11. The state of numpy's global generator before a query has no
    influence on the query: the result (records or error) is the same for
    any two states, and whenever the query gets as far as building a record
    (it returns records or fails in the schema validation) the state it
    leaves behind is the same too. *)
Theorem query_independent_of_generator_state
    (ds : DataService.t) (grid_ids : list Z) (month_ids : option (list Z))
    (metrics : Schemas.MetricSelection) (rng1 rng2 : MT19937.mt19937_state) :
  fst (_get_enriched_forecasts ds grid_ids month_ids metrics rng1) =
  fst (_get_enriched_forecasts ds grid_ids month_ids metrics rng2) /\
  ((forall msg, fst (_get_enriched_forecasts ds grid_ids month_ids metrics rng1)
                <> Err (DataNotFoundError msg)) ->
   (forall msg, fst (_get_enriched_forecasts ds grid_ids month_ids metrics rng1)
                <> Err (TypeError msg)) ->
   (forall msg, fst (_get_enriched_forecasts ds grid_ids month_ids metrics rng1)
                <> Err (KeyError msg)) ->
   _get_enriched_forecasts ds grid_ids month_ids metrics rng1 =
   _get_enriched_forecasts ds grid_ids month_ids metrics rng2).
Proof.
  unfold _get_enriched_forecasts.
  destruct (DataService.get_grid_data ds grid_ids month_ids) as [main_data | e] eqn:Hm.
  - cbv zeta. destruct main_data as [| row rows].
    + apply get_grid_data_Ok in Hm. destruct Hm as (? & _ & _ & Hne & _). congruence.
    + destruct (DataService.get_hdi_data ds grid_ids month_ids) as [hdi |].
      * rewrite (enrich_rows_reseeded hdi _ _ _ row rows [] rng1 rng2). split; auto.
      * split; [reflexivity |]. intros _ _ H. exfalso. eapply H. reflexivity.
  - split; [reflexivity |]. intros H1 H2 _. exfalso.
    unfold DataService.get_grid_data in Hm.
    destruct (negb _); [injection Hm as <-; eapply H1; reflexivity |].
    destruct (DataService.pgm_data ds); [| injection Hm as <-; eapply H2; reflexivity].
    destruct (List.filter _ _); [injection Hm as <-; eapply H1; reflexivity | discriminate].
Qed.

Lemma query_independent_of_generator_state_witness :
  _get_enriched_forecasts Example.store [62357] None Example.all_metrics Example.rng0 =
  _get_enriched_forecasts Example.store [62357] None Example.all_metrics
    (MT19937.mt19937_seed 7).
Proof.
  destruct (query_independent_of_generator_state Example.store [62357] None
              Example.all_metrics Example.rng0 (MT19937.mt19937_seed 7)) as [_ H].
  apply H; intros msg Hm; vm_compute in Hm; discriminate.
Defined.

(** ** Coordinates of the table *)

Lemma last_filter_cons {A} (f : A -> bool) (x : A) (l : list A) :
  last (List.filter f (x :: l)) =
    match last (List.filter f l) with
    | Some y => Some y
    | None => if f x then Some x else None
    end.
Proof.
  cbn [List.filter]. destruct (f x); [| now destruct (last (List.filter f l))].
  destruct (List.filter f l) as [| y k] eqn:E; [reflexivity |].
  rewrite last_cons. now destruct (last (y :: k)).
Qed.

(** The dict comprehension over the coordinate rows keeps, for every grid
    id, the last row with that id. *)
Lemma coord_lookup_fold_last (l : list Coord.row) (g : Z) :
  forall m0 : gmap Z Coord.row,
    foldl (fun m c => <[Coord.priogrid_id c := c]> m) m0 l !! g =
      match last (List.filter (fun c => Coord.priogrid_id c =? g) l) with
      | Some c => Some c
      | None => m0 !! g
      end.
Proof.
  induction l as [| x l IH]; intros m0; [reflexivity |].
  cbn [foldl]. rewrite IH, last_filter_cons.
  destruct (last (List.filter _ l)); [reflexivity |].
  destruct (Z.eqb_spec (Coord.priogrid_id x) g) as [<- | Hne].
  - apply lookup_insert_eq.
  - now apply lookup_insert_ne.
Qed.

Lemma coord_lookup_of_last (ds : DataService.t) (grid_ids : list Z) (g : Z) :
  coord_lookup_of ds grid_ids !! g = last_coordinate_row ds grid_ids g.
Proof.
  unfold coord_lookup_of, last_coordinate_row. rewrite coord_lookup_fold_last.
  destruct (last _); [reflexivity | apply lookup_empty].
Qed.

(** What the loop hands to [_create_grid_cell_data] as coordinates of a
    row, and the coordinates the record gets from it. *)
Lemma row_enriched_coordinates
    (hdi : list Hdi.row) (coord_lookup : gmap Z Coord.row) (country_map : gmap Z string)
    (metrics : Schemas.MetricSelection) (row : Pgm.row) (cell : Schemas.GridCellData) :
  (forall g c, coord_lookup !! g = Some c -> Coord.priogrid_id c = g) ->
  row_enriched hdi coord_lookup country_map metrics row cell ->
  exists lat lon,
    Schemas.latitude cell = Some lat /\ Schemas.longitude cell = Some lon /\
    match coord_lookup !! Pgm.pg_id row with
    | Some c =>
        match row_coordinates c with
        | Some (la, lo) => lat = la /\ lon = lo
        | None => _generate_coordinates_for_grid (Pgm.scalar row Pgm.pg_id) = Ok (lat, lon)
        end /\
        Schemas.country_id cell =
          match Pgm.country_id row with
          | Some k => Some k
          | None => Coord.country_id c
          end
    | None =>
        _generate_coordinates_for_grid (Pgm.scalar row Pgm.pg_id) = Ok (lat, lon) /\
        Schemas.country_id cell = Pgm.country_id row
    end /\
    Schemas.country_name cell =
      match Schemas.country_id cell with
      | Some k => country_map !! k
      | None => None
      end.
Proof.
  intros Hkey (coord_row & rng & Hc & Hcell).
  destruct (coord_lookup !! Pgm.pg_id row) as [c |] eqn:Hl.
  - unfold coord_row_for in Hc. cbv zeta in Hc. rewrite Hl in Hc. injection Hc as <-.
    apply create_grid_cell_data_Ok in Hcell. cbv zeta in Hcell.
    destruct Hcell as (lat & lon & sm & _ & Hcoords & ->).
    cbn [List.filter] in *. rewrite (Hkey _ _ Hl), Z.eqb_refl in *.
    exists lat, lon. split; [reflexivity |]. split; [reflexivity |].
    split; [split |]; try reflexivity.
    unfold row_coordinates.
    destruct (Py.or_float (Coord.lat c) _) as [la |];
      [destruct (Py.or_float (Coord.lon c) _) as [lo |] |]; exact Hcoords.
  - apply coord_row_for_missing in Hc; [| exact Hl].
    destruct Hc as (lat & lon & Hgen & ->).
    apply create_grid_cell_data_Ok in Hcell. cbv zeta in Hcell.
    destruct Hcell as (lat' & lon' & sm & _ & Hcoords & ->).
    cbn [List.filter Coord.priogrid_id] in *. rewrite Z.eqb_refl in *.
    cbn [Coord.lat Coord.latitude Coord.lon Coord.longitude Py.or_float
         Coord.country_id] in *.
    destruct Hcoords as [-> ->].
    exists lat, lon. split; [reflexivity |]. split; [reflexivity |].
    split; [split; [exact Hgen |] |].
    + cbn [Schemas.country_id]. now destruct (Pgm.country_id row).
    + reflexivity.
Qed.

Lemma coord_lookup_of_key (ds : DataService.t) (grid_ids : list Z) (g : Z) (c : Coord.row) :
  coord_lookup_of ds grid_ids !! g = Some c -> Coord.priogrid_id c = g.
Proof. intros H. apply coord_lookup_of_Some in H. tauto. Qed.

(** X12. Coordinates of the table are authoritative, and the last row of a
    grid cell wins. In a successful query on a coordinate table without
    missing coordinate cell, record by record in the order of the selected
    primary rows: when the coordinate frame of the query
    has rows for the grid cell and the last of them has both coordinates
    ('lat' or 'latitude', 'lon' or 'longitude'), the record carries exactly
    these; when the frame has no row for the grid cell (and the grid id is
    below 10^16 in magnitude, where [str()] of a float prints all its
    digits), the record carries the hash-derived coordinate of the [pg_id]
    cell as the row of [iterrows()] holds it (the hash of its decimal
    string, followed by [.0] for a row of dtype float64), with latitude in
    [-60, 70) and longitude in [-180, 180). *)
Theorem table_coordinates_authoritative
    (ds : DataService.t) (grid_ids : list Z) (month_ids : option (list Z))
    (metrics : Schemas.MetricSelection) (rng : MT19937.mt19937_state)
    (out : list Schemas.GridCellData) (pgm : list Pgm.row) :
  DataService.pgm_data ds = Some pgm ->
  (forall ts, DataService.timeseries_data ds = Some ts -> Coord.columns_complete ts = true) ->
  fst (_get_enriched_forecasts ds grid_ids month_ids metrics rng) = Ok out ->
  Forall2 (fun row cell =>
             match last_coordinate_row ds grid_ids (Pgm.pg_id row) with
             | Some c =>
                 forall la lo, row_coordinates c = Some (la, lo) ->
                   Schemas.latitude cell = Some la /\ Schemas.longitude cell = Some lo
             | None =>
                 Z.abs (Pgm.pg_id row) < 10 ^ 16 ->
                 let h := SpecWords.first_32_bits
                            (MD5.digest
                               (Py.encode (Py.str_number (Pgm.scalar row Pgm.pg_id)))) in
                 let lat := (inject_Z (h mod 13000) / 100 - 60)%Q in
                 let lon := (inject_Z ((h / 13000) mod 36000) / 100 - 180)%Q in
                 _generate_coordinates_for_grid (Pgm.scalar row Pgm.pg_id) = Ok (lat, lon) /\
                 Schemas.latitude cell = Some lat /\ Schemas.longitude cell = Some lon /\
                 ((-60 <= lat) /\ (lat < 70) /\ (-180 <= lon) /\ (lon < 180))%Q
             end)
          (List.filter
             (fun r => selected grid_ids month_ids (Pgm.pg_id r) (Pgm.month_id r)) pgm)
          out.
Proof.
  intros Hpgm _ H. apply get_enriched_forecasts_Ok in H.
  destruct H as (main_data & hdi & Hm & _ & HF).
  apply get_grid_data_Ok in Hm. destruct Hm as (pgm' & _ & Hpgm' & _ & ->).
  rewrite Hpgm in Hpgm'. injection Hpgm' as <-.
  eapply Forall2_impl; [exact HF |].
  intros row cell HR.
  apply row_enriched_coordinates in HR; [| apply coord_lookup_of_key].
  destruct HR as (lat & lon & Hlat & Hlon & Hm & _).
  rewrite coord_lookup_of_last in Hm.
  destruct (last_coordinate_row ds grid_ids (Pgm.pg_id row)) as [c |].
  - intros la lo Hrc. destruct Hm as [Hm _]. rewrite Hrc in Hm.
    destruct Hm as [-> ->]. split; assumption.
  - intros _. cbv zeta. destruct Hm as [Hgen _].
    pose proof (generate_coordinates_for_grid_value (Pgm.scalar row Pgm.pg_id)) as Hv.
    cbv zeta in Hv. rewrite Hgen in Hv. injection Hv as Hla Hlo.
    split; [rewrite Hgen, Hla, Hlo; reflexivity |].
    split; [rewrite Hlat, Hla; reflexivity |].
    split; [rewrite Hlon, Hlo; reflexivity |].
    apply synthetic_coordinate_range.
Qed.

Lemma table_coordinates_authoritative_witness :
  exists c1 c2,
    fst (_get_enriched_forecasts Example.store [62357; 62358] None
           Schemas.MetricSelection_default Example.rng0) = Ok [c1; c2] /\
    (Schemas.latitude c1, Schemas.longitude c1) = (Some 46%Q, Some 13%Q) /\
    (Schemas.latitude c2, Schemas.longitude c2) = (Some (-45.12)%Q, Some 129.27%Q).
Proof.
  destruct (fst (_get_enriched_forecasts Example.store [62357; 62358] None
                   Schemas.MetricSelection_default Example.rng0))
    as [out | e] eqn:H; [| vm_compute in H; discriminate].
  assert (Hcols : forall ts, DataService.timeseries_data Example.store = Some ts ->
                             Coord.columns_complete ts = true)
    by (intros ts Hts; injection Hts as <-; reflexivity).
  pose proof (table_coordinates_authoritative Example.store _ _ _ _ _ _ eq_refl Hcols H) as HF.
  match type of HF with
  | Forall2 _ ?l _ =>
      assert (Hsel : l = [Example.pgm_row 62357 548 0.02%Q; Example.pgm_row 62358 548 0.03%Q])
        by (vm_compute; reflexivity);
      rewrite Hsel in HF
  end.
  inversion HF as [| r1 c1 rs1 cells1 H1 HF1]; subst.
  inversion HF1 as [| r2 c2 rs2 cells2 H2 HF2]; subst.
  inversion HF2; subst.
  exists c1, c2. split; [reflexivity |].
  assert (E1 : last_coordinate_row Example.store [62357; 62358]
                 (Pgm.pg_id (Example.pgm_row 62357 548 0.02%Q)) =
               Some (Example.coord_row 62357 46%Q 13%Q)) by (vm_compute; reflexivity).
  assert (E2 : last_coordinate_row Example.store [62357; 62358]
                 (Pgm.pg_id (Example.pgm_row 62358 548 0.03%Q)) = None)
    by (vm_compute; reflexivity).
  rewrite E1 in H1. rewrite E2 in H2.
  destruct (H1 46%Q 13%Q eq_refl) as [Hla1 Hlo1].
  destruct (H2 ltac:(vm_compute; reflexivity)) as (_ & Hla2 & Hlo2 & _).
  rewrite Hla1, Hlo1, Hla2, Hlo2. split; [reflexivity |].
  vm_compute. reflexivity.
Defined.

(** ** Country and threshold fields *)

Lemma country_map_fold_Some (l : list Country.info) (k : Z) (name : string) :
  forall m0 : gmap Z string,
    foldl (fun m c => <[Country.info_country_id c := Country.info_country c]> m) m0 l !! k =
      Some name ->
    m0 !! k = Some name \/
    exists c, In c l /\ Country.info_country_id c = k /\ Country.info_country c = name.
Proof.
  induction l as [| x l IH]; intros m0 H; [now left |].
  cbn [foldl] in H. apply IH in H. destruct H as [H | (c & Hin & Hk & Hn)].
  - destruct (decide (Country.info_country_id x = k)) as [Heq | Hne].
    + rewrite Heq, lookup_insert_eq in H. injection H as <-.
      right. exists x. repeat split; [now left | exact Heq].
    + rewrite lookup_insert_ne in H by exact Hne. now left.
  - right. exists c. repeat split; [now right | assumption | assumption].
Qed.

(** X13. Country resolution. In a successful query, record by record in
    the order of the selected rows: the country id is the one of the
    primary row when it has one, else the one of the last coordinate row of
    the grid cell, else null; the country name is null when the country id
    is null, and otherwise it is the name of an entry of the country
    directory with that id, or null when the directory has none: a name is
    never made up. *)
Theorem country_resolution
    (ds : DataService.t) (grid_ids : list Z) (month_ids : option (list Z))
    (metrics : Schemas.MetricSelection) (rng : MT19937.mt19937_state)
    (out : list Schemas.GridCellData) (pgm : list Pgm.row) :
  DataService.pgm_data ds = Some pgm ->
  fst (_get_enriched_forecasts ds grid_ids month_ids metrics rng) = Ok out ->
  Forall2 (fun row cell =>
             Schemas.country_id cell =
               match Pgm.country_id row with
               | Some k => Some k
               | None =>
                   match last_coordinate_row ds grid_ids (Pgm.pg_id row) with
                   | Some c => Coord.country_id c
                   | None => None
                   end
               end /\
             (Schemas.country_id cell = None -> Schemas.country_name cell = None) /\
             (forall name, Schemas.country_name cell = Some name ->
                exists k c,
                  Schemas.country_id cell = Some k /\
                  In c (DataService.get_available_countries ds) /\
                  Country.info_country_id c = k /\ Country.info_country c = name))
          (List.filter
             (fun r => selected grid_ids month_ids (Pgm.pg_id r) (Pgm.month_id r)) pgm)
          out.
Proof.
  intros Hpgm H. apply get_enriched_forecasts_Ok in H.
  destruct H as (main_data & hdi & Hm & _ & HF).
  apply get_grid_data_Ok in Hm. destruct Hm as (pgm' & _ & Hpgm' & _ & ->).
  rewrite Hpgm in Hpgm'. injection Hpgm' as <-.
  eapply Forall2_impl; [exact HF |].
  intros row cell HR.
  apply row_enriched_coordinates in HR; [| apply coord_lookup_of_key].
  destruct HR as (lat & lon & _ & _ & Hm & Hname).
  rewrite coord_lookup_of_last in Hm.
  split; [| split].
  - destruct (last_coordinate_row ds grid_ids (Pgm.pg_id row)) as [c |].
    + tauto.
    + destruct Hm as [_ ->]. now destruct (Pgm.country_id row).
  - intros Hnone. rewrite Hname, Hnone. reflexivity.
  - intros name Hn. rewrite Hname in Hn.
    destruct (Schemas.country_id cell) as [k |]; [| discriminate].
    unfold country_map_of in Hn. apply country_map_fold_Some in Hn.
    destruct Hn as [Hn | (c & Hin & Hk & Hc)].
    + rewrite lookup_empty in Hn. discriminate.
    + exists k, c. repeat split; assumption.
Qed.

Lemma country_resolution_witness :
  exists out,
    fst (_get_enriched_forecasts Example.store [62358] None
           Schemas.MetricSelection_default Example.rng0) = Ok out /\
    Forall (fun cell => Schemas.country_id cell = Some 1) out.
Proof.
  destruct (fst (_get_enriched_forecasts Example.store [62358] None
                   Schemas.MetricSelection_default Example.rng0))
    as [out | e] eqn:H; [| vm_compute in H; discriminate].
  exists out. split; [reflexivity |].
  pose proof (country_resolution Example.store _ _ _ _ _ _ eq_refl H) as HF.
  match type of HF with
  | Forall2 _ ?l _ =>
      assert (Hsel : l = [Example.pgm_row 62358 548 0.03%Q]) by (vm_compute; reflexivity);
      rewrite Hsel in HF
  end.
  inversion HF as [| r cell rs cells Hrc HF']; subst.
  inversion HF'; subst.
  destruct Hrc as [Hid _]. repeat constructor. exact Hid.
Defined.

(** X14. The first threshold slot is the source probability. In a
    successful query with the threshold group selected, record by record:
    threshold_1 and main_dich both carry the main_dich of the primary row
    when the row has one; when it has none, main_dich is null and
    threshold_1 is the default 0.01. With the group not selected both are
    null. *)
Theorem threshold_1_is_source_probability
    (ds : DataService.t) (grid_ids : list Z) (month_ids : option (list Z))
    (metrics : Schemas.MetricSelection) (rng : MT19937.mt19937_state)
    (out : list Schemas.GridCellData) (pgm : list Pgm.row) :
  DataService.pgm_data ds = Some pgm ->
  fst (_get_enriched_forecasts ds grid_ids month_ids metrics rng) = Ok out ->
  Forall2 (fun row cell =>
             if Schemas.include_thresholds metrics
             then match Pgm.main_dich row with
                  | Some d => Schemas.threshold_1 cell = Some d /\
                              Schemas.main_dich cell = Some d
                  | None => Schemas.threshold_1 cell = Some 0.01%Q /\
                            Schemas.main_dich cell = None
                  end
             else Schemas.threshold_1 cell = None /\ Schemas.main_dich cell = None)
          (List.filter
             (fun r => selected grid_ids month_ids (Pgm.pg_id r) (Pgm.month_id r)) pgm)
          out.
Proof.
  intros Hpgm H. apply get_enriched_forecasts_Ok in H.
  destruct H as (main_data & hdi & Hm & _ & HF).
  apply get_grid_data_Ok in Hm. destruct Hm as (pgm' & _ & Hpgm' & _ & ->).
  rewrite Hpgm in Hpgm'. injection Hpgm' as <-.
  eapply Forall2_impl; [exact HF |].
  intros row cell HR. apply row_enriched_fields in HR.
  destruct HR as (_ & _ & _ & _ & _ & _ & _ & Ht & Hd).
  rewrite Ht, Hd.
  destruct (Schemas.include_thresholds metrics); [| split; reflexivity].
  destruct (Pgm.main_dich row); split; reflexivity.
Qed.

Lemma threshold_1_is_source_probability_witness :
  exists out,
    fst (_get_enriched_forecasts Example.store [62357] None
           Schemas.MetricSelection_default Example.rng0) = Ok out /\
    Forall (fun cell => Schemas.threshold_1 cell = Some 0.02%Q) out.
Proof.
  destruct (fst (_get_enriched_forecasts Example.store [62357] None
                   Schemas.MetricSelection_default Example.rng0))
    as [out | e] eqn:H; [| vm_compute in H; discriminate].
  exists out. split; [reflexivity |].
  pose proof (threshold_1_is_source_probability Example.store _ _ _ _ _ _ eq_refl H) as HF.
  match type of HF with
  | Forall2 _ ?l _ =>
      assert (Hsel : l = [Example.pgm_row 62357 548 0.02%Q]) by (vm_compute; reflexivity);
      rewrite Hsel in HF
  end.
  inversion HF as [| r cell rs cells Hrc HF']; subst.
  inversion HF'; subst.
  cbn in Hrc. destruct Hrc as [Ht _]. repeat constructor. exact Ht.
Defined.

(** ** When a query succeeds *)

Lemma synthetic_coordinates_in_schema_range (grid_id : Py.number) (lat lon : Q) :
  _generate_coordinates_for_grid grid_id = Ok (lat, lon) ->
  ((-90 <= lat) /\ (lat <= 90) /\ (-180 <= lon) /\ (lon <= 180))%Q.
Proof.
  intros H.
  pose proof (generate_coordinates_for_grid_value grid_id) as Hv. cbv zeta in Hv.
  rewrite H in Hv. injection Hv as -> ->.
  set (h := SpecWords.first_32_bits _).
  destruct (synthetic_coordinate_range h) as (H1 & H2 & H3 & H4).
  repeat split; lra.
Qed.

Lemma create_grid_cell_data_succeeds
    (main_row : Pgm.row) (hdi_data : list Hdi.row) (c : Coord.row)
    (country_map : gmap Z string) (metrics : Schemas.MetricSelection)
    (rng : MT19937.mt19937_state) :
  Coord.priogrid_id c = Pgm.pg_id main_row ->
  coordinates_valid c ->
  exists cell,
    fst (_create_grid_cell_data main_row hdi_data [c] country_map metrics rng) = Ok cell.
Proof.
  intros Hkey Hvalid. unfold _create_grid_cell_data.
  cbn [List.filter]. rewrite Hkey, Z.eqb_refl.
  destruct (_generate_synthetic_metrics _ rng) as [sm rng2].
  unfold coordinates_valid, row_coordinates in Hvalid.
  pose proof (generate_coordinates_for_grid_value (Pgm.scalar main_row Pgm.pg_id)) as Hv.
  cbv zeta in Hv.
  pose proof (synthetic_coordinates_in_schema_range (Pgm.scalar main_row Pgm.pg_id) _ _ Hv)
    as (G1 & G2 & G3 & G4).
  destruct (Py.or_float (Coord.lat c) _) as [la |];
    [destruct (Py.or_float (Coord.lon c) _) as [lo |] |].
  - destruct Hvalid as (V1 & V2 & V3 & V4). cbn [fst].
    eexists. eapply GridCellData_init_accepts; try reflexivity; assumption.
  - rewrite Hv. cbn [fst].
    eexists. eapply GridCellData_init_accepts; try reflexivity; assumption.
  - rewrite Hv. cbn [fst].
    eexists. eapply GridCellData_init_accepts; try reflexivity; assumption.
Qed.

Lemma coord_row_for_valid (coord_lookup : gmap Z Coord.row) (row : Pgm.row) :
  (forall g c, coord_lookup !! g = Some c -> Coord.priogrid_id c = g /\ coordinates_valid c) ->
  exists c,
    coord_row_for coord_lookup row = Ok [c] /\
    Coord.priogrid_id c = Pgm.pg_id row /\ coordinates_valid c.
Proof.
  intros Hall. unfold coord_row_for. cbv zeta.
  destruct (coord_lookup !! Pgm.pg_id row) as [c |] eqn:Hl.
  - exists c. split; [reflexivity |]. apply Hall. exact Hl.
  - change (generate_coordinates (Pgm.scalar row Pgm.pg_id))
      with (_generate_coordinates_for_grid (Pgm.scalar row Pgm.pg_id)).
    pose proof (generate_coordinates_for_grid_value (Pgm.scalar row Pgm.pg_id)) as Hv. cbv zeta in Hv.
    pose proof (synthetic_coordinates_in_schema_range (Pgm.scalar row Pgm.pg_id) _ _ Hv) as Hr.
    rewrite Hv. eexists. split; [reflexivity |]. split; [reflexivity |].
    unfold coordinates_valid, row_coordinates. cbn. exact Hr.
Qed.

Lemma enrich_rows_succeeds
    (hdi : list Hdi.row) (coord_lookup : gmap Z Coord.row) (country_map : gmap Z string)
    (metrics : Schemas.MetricSelection) (rows : list Pgm.row) :
  (forall g c, coord_lookup !! g = Some c -> Coord.priogrid_id c = g /\ coordinates_valid c) ->
  forall (acc : list Schemas.GridCellData) (rng : MT19937.mt19937_state),
    exists out,
      fst (enrich_rows (Some hdi) coord_lookup country_map metrics rows acc rng) = Ok out.
Proof.
  intros Hall. induction rows as [| row rows IH]; intros acc rng.
  - exists acc. reflexivity.
  - cbn [enrich_rows].
    destruct (coord_row_for_valid coord_lookup row Hall) as (c & -> & Hkey & Hvalid).
    destruct (create_grid_cell_data_succeeds row
                (List.filter
                   (fun h => (Hdi.priogrid_id h =? Pgm.pg_id row) &&
                             (Hdi.month_id h =? Pgm.month_id row)) hdi)
                c country_map metrics rng Hkey Hvalid) as (cell & Hcell).
    destruct (_create_grid_cell_data row _ [c] country_map metrics rng) as [r rng2].
    cbn [fst] in Hcell. subst r. apply IH.
Qed.

(** X15. A query succeeds whenever it has data to return: on a loaded
    service with an uncertainty table, whose primary table has no missing
    [main_dich] cell and whose coordinate table has no missing coordinate
    cell (each of these columns is given in every row or in none; on a NaN
    cell of them the code raises), if at least one primary row is selected
    and every coordinate row of the table that has both coordinates has
    them in the ranges of the schema (latitude in [-90, 90], longitude in
    [-180, 180]), the query returns records. Absent uncertainty rows,
    absent coordinate rows and absent countries never make it fail. *)
Theorem query_succeeds_with_valid_coordinates
    (ds : DataService.t) (grid_ids : list Z) (month_ids : option (list Z))
    (metrics : Schemas.MetricSelection) (rng : MT19937.mt19937_state)
    (pgm : list Pgm.row) (full : list Hdi.row) :
  DataService.is_loaded ds = true ->
  DataService.pgm_data ds = Some pgm ->
  DataService.hdi_data ds = Some full ->
  Frame.column Pgm.main_dich pgm = true ->
  (forall ts, DataService.timeseries_data ds = Some ts -> Coord.columns_complete ts = true) ->
  List.filter (fun r => selected grid_ids month_ids (Pgm.pg_id r) (Pgm.month_id r)) pgm <> [] ->
  (forall ts c, DataService.timeseries_data ds = Some ts -> In c ts -> coordinates_valid c) ->
  exists out, fst (_get_enriched_forecasts ds grid_ids month_ids metrics rng) = Ok out.
Proof.
  intros Hl Hpgm Hfull _ _ Hsel Hvalid.
  unfold _get_enriched_forecasts.
  destruct (DataService.get_grid_data ds grid_ids month_ids) as [main_data | e] eqn:Hm.
  - cbv zeta. unfold DataService.get_hdi_data. rewrite Hfull.
    apply enrich_rows_succeeds.
    intros g c Hc. apply coord_lookup_of_Some in Hc.
    destruct Hc as (Hkey & ts & Hts & Hin). split; [exact Hkey |].
    eapply Hvalid; eassumption.
  - exfalso. unfold DataService.get_grid_data in Hm. rewrite Hl, Hpgm in Hm.
    cbn [negb] in Hm. cbv zeta in Hm.
    assert (Hq : List.filter
                   (match month_ids with
                    | Some (m :: ms) =>
                        fun r : Pgm.row =>
                          Py.isin (Pgm.pg_id r) grid_ids && Py.isin (Pgm.month_id r) (m :: ms)
                    | _ => fun r : Pgm.row => Py.isin (Pgm.pg_id r) grid_ids
                    end) pgm =
                 List.filter
                   (fun r => selected grid_ids month_ids (Pgm.pg_id r) (Pgm.month_id r)) pgm).
    { apply filter_ext. intros r. unfold selected.
      destruct month_ids as [[| m ms] |]; try reflexivity; now rewrite andb_true_r. }
    rewrite Hq in Hm. clear Hq.
    destruct (List.filter _ pgm); [congruence | discriminate].
Qed.

Lemma query_succeeds_with_valid_coordinates_witness :
  exists out,
    fst (_get_enriched_forecasts Example.store [62356; 62358] (Some [548])
           Example.all_metrics Example.rng0) = Ok out.
Proof.
  apply (query_succeeds_with_valid_coordinates Example.store [62356; 62358] (Some [548])
           Example.all_metrics Example.rng0 _ _ eq_refl eq_refl eq_refl eq_refl).
  - intros ts Hts. injection Hts as <-. reflexivity.
  - vm_compute. discriminate.
  - intros ts c Hts Hin. injection Hts as <-.
    destruct Hin as [<- | [<- | []]]; vm_compute; repeat split; discriminate.
Defined.

(** ** When the schema rejects a coordinate of the table *)

Lemma GridCellData_init_rejects (c : Schemas.GridCellData) (la lo : Q) :
  Schemas.latitude c = Some la -> Schemas.longitude c = Some lo ->
  ~ ((-90 <= la) /\ (la <= 90) /\ (-180 <= lo) /\ (lo <= 180))%Q ->
  exists msg, Schemas.GridCellData_init c = Err (PydanticValidationError msg).
Proof.
  intros Hla Hlo Hbad.
  destruct (Schemas.GridCellData_init c) as [c' | e] eqn:E.
  - exfalso. apply Hbad.
    unfold Schemas.GridCellData_init in E. rewrite Hla, Hlo in E.
    destruct (Schemas.validate_latitude (Some la)) as [v |] eqn:E1; [| discriminate].
    destruct (Schemas.validate_longitude (Some lo)) as [w |] eqn:E2; [| discriminate].
    assert (v = Some la) as ->
      by (unfold Schemas.validate_latitude in E1; destruct (negb _); congruence).
    assert (w = Some lo) as ->
      by (unfold Schemas.validate_longitude in E2; destruct (negb _); congruence).
    apply validate_latitude_Ok_iff in E1. apply validate_longitude_Ok_iff in E2. tauto.
  - apply GridCellData_init_Err in E. destruct E as [msg ->]. now exists msg.
Qed.

Lemma create_grid_cell_data_rejects
    (main_row : Pgm.row) (hdi_data : list Hdi.row) (c : Coord.row)
    (country_map : gmap Z string) (metrics : Schemas.MetricSelection)
    (rng : MT19937.mt19937_state) (la lo : Q) :
  Coord.priogrid_id c = Pgm.pg_id main_row ->
  row_coordinates c = Some (la, lo) ->
  ~ ((-90 <= la) /\ (la <= 90) /\ (-180 <= lo) /\ (lo <= 180))%Q ->
  exists msg,
    fst (_create_grid_cell_data main_row hdi_data [c] country_map metrics rng) =
      Err (PydanticValidationError msg).
Proof.
  intros Hkey Hrc Hbad. unfold _create_grid_cell_data.
  cbn [List.filter]. rewrite Hkey, Z.eqb_refl.
  destruct (_generate_synthetic_metrics _ rng) as [sm rng2].
  unfold row_coordinates in Hrc.
  destruct (Py.or_float (Coord.lat c) _) as [la' |]; [| discriminate].
  destruct (Py.or_float (Coord.lon c) _) as [lo' |]; [| discriminate].
  injection Hrc as -> ->. cbn [fst].
  eapply GridCellData_init_rejects; [reflexivity | reflexivity | exact Hbad].
Qed.

Lemma enrich_rows_rejects
    (hdi : list Hdi.row) (coord_lookup : gmap Z Coord.row) (country_map : gmap Z string)
    (metrics : Schemas.MetricSelection) (row : Pgm.row) (c : Coord.row) (la lo : Q)
    (rows : list Pgm.row) :
  coord_lookup !! Pgm.pg_id row = Some c ->
  Coord.priogrid_id c = Pgm.pg_id row ->
  row_coordinates c = Some (la, lo) ->
  ~ ((-90 <= la) /\ (la <= 90) /\ (-180 <= lo) /\ (lo <= 180))%Q ->
  In row rows ->
  forall (acc : list Schemas.GridCellData) (rng : MT19937.mt19937_state),
    exists msg,
      fst (enrich_rows (Some hdi) coord_lookup country_map metrics rows acc rng) =
        Err (PydanticValidationError msg).
Proof.
  intros Hl Hkey Hrc Hbad. induction rows as [| row' rows IH]; intros Hin acc rng.
  - destruct Hin.
  - cbn [enrich_rows].
    pose proof (coord_row_for_total coord_lookup row') as Htot.
    destruct (coord_row_for coord_lookup row') as [coord_row | e'] eqn:Hc;
      [| now destruct (Htot e')].
    destruct (_create_grid_cell_data row' _ coord_row country_map metrics rng)
      as [[cell | e'] rng2] eqn:Hcell.
    + destruct Hin as [-> | Hin]; [| now apply IH].
      exfalso. unfold coord_row_for in Hc. cbv zeta in Hc. rewrite Hl in Hc.
      injection Hc as <-.
      destruct (create_grid_cell_data_rejects row
                  (List.filter
                     (fun h => (Hdi.priogrid_id h =? Pgm.pg_id row) &&
                               (Hdi.month_id h =? Pgm.month_id row)) hdi)
                  c country_map metrics rng la lo Hkey Hrc Hbad) as (msg & Hmsg).
      rewrite Hcell in Hmsg. discriminate.
    + cbn [fst]. pose proof (f_equal fst Hcell) as Hfst. cbn [fst] in Hfst.
      apply create_grid_cell_data_Err in Hfst. destruct Hfst as [msg ->]. now exists msg.
Qed.

(** X16. No partial results when the schema rejects a coordinate: if the
    last coordinate row of some selected primary row's grid cell has a
    latitude outside [-90, 90] or a longitude outside [-180, 180], the
    whole query fails with the validation error of the schema, whatever
    the other rows are; the records built before that row are not
    returned. *)
Theorem invalid_table_coordinate_fails_query
    (ds : DataService.t) (grid_ids : list Z) (month_ids : option (list Z))
    (metrics : Schemas.MetricSelection) (rng : MT19937.mt19937_state)
    (pgm : list Pgm.row) (full : list Hdi.row) (row : Pgm.row) (c : Coord.row) (la lo : Q) :
  DataService.is_loaded ds = true ->
  DataService.pgm_data ds = Some pgm ->
  DataService.hdi_data ds = Some full ->
  In row pgm ->
  selected grid_ids month_ids (Pgm.pg_id row) (Pgm.month_id row) = true ->
  last_coordinate_row ds grid_ids (Pgm.pg_id row) = Some c ->
  row_coordinates c = Some (la, lo) ->
  ~ ((-90 <= la) /\ (la <= 90) /\ (-180 <= lo) /\ (lo <= 180))%Q ->
  exists msg,
    fst (_get_enriched_forecasts ds grid_ids month_ids metrics rng) =
      Err (PydanticValidationError msg).
Proof.
  intros Hl Hpgm Hfull Hin Hsel Hlast Hrc Hbad.
  assert (Hrow : In row (List.filter
                           (fun r => selected grid_ids month_ids (Pgm.pg_id r) (Pgm.month_id r))
                           pgm))
    by (apply filter_In; split; assumption).
  unfold _get_enriched_forecasts.
  destruct (DataService.get_grid_data ds grid_ids month_ids) as [main_data | e] eqn:Hm.
  - cbv zeta. unfold DataService.get_hdi_data. rewrite Hfull.
    apply get_grid_data_Ok in Hm. destruct Hm as (pgm' & _ & Hpgm' & _ & ->).
    rewrite Hpgm in Hpgm'. injection Hpgm' as <-.
    rewrite <- coord_lookup_of_last in Hlast.
    eapply enrich_rows_rejects; try eassumption.
    eapply coord_lookup_of_key. exact Hlast.
  - exfalso. unfold DataService.get_grid_data in Hm. rewrite Hl, Hpgm in Hm.
    cbn [negb] in Hm. cbv zeta in Hm.
    assert (Hq : List.filter
                   (match month_ids with
                    | Some (m :: ms) =>
                        fun r : Pgm.row =>
                          Py.isin (Pgm.pg_id r) grid_ids && Py.isin (Pgm.month_id r) (m :: ms)
                    | _ => fun r : Pgm.row => Py.isin (Pgm.pg_id r) grid_ids
                    end) pgm =
                 List.filter
                   (fun r => selected grid_ids month_ids (Pgm.pg_id r) (Pgm.month_id r)) pgm).
    { apply filter_ext. intros r. unfold selected.
      destruct month_ids as [[| m ms] |]; try reflexivity; now rewrite andb_true_r. }
    rewrite Hq in Hm. clear Hq.
    destruct (List.filter _ pgm); [destruct Hrow | discriminate].
Qed.

Lemma invalid_table_coordinate_fails_query_witness :
  exists msg,
    fst (_get_enriched_forecasts store_with_bad_latitude [62356; 62357] None
           Schemas.MetricSelection_default Example.rng0) =
      Err (PydanticValidationError msg).
Proof.
  apply (invalid_table_coordinate_fails_query store_with_bad_latitude [62356; 62357] None
           Schemas.MetricSelection_default Example.rng0 _ _
           (Example.pgm_row 62357 548 0.02%Q) (Example.coord_row 62357 95%Q 13%Q) 95%Q 13%Q
           eq_refl eq_refl eq_refl).
  - right. left. reflexivity.
  - reflexivity.
  - vm_compute. reflexivity.
  - reflexivity.
  - intros (_ & H & _). revert H. vm_compute. intros H. apply H. reflexivity.
Defined.

(** ** The available months *)

Lemma drop_duplicates_from_In {A} `{EqDecision A} (l : list A) :
  forall (seen : list A) (x : A),
    In x (DataService.drop_duplicates_from seen l) <-> In x l /\ ~ In x seen.
Proof.
  induction l as [| y l IH]; intros seen x; cbn [DataService.drop_duplicates_from].
  - cbn. tauto.
  - destruct (bool_decide (y ∈ seen)) eqn:E.
    + apply bool_decide_eq_true in E. apply list_elem_of_In in E.
      rewrite IH. cbn. split; [tauto |].
      intros [[-> | Hx] Hs]; [contradiction | tauto].
    + apply bool_decide_eq_false in E. rewrite list_elem_of_In in E.
      cbn [In]. rewrite IH. cbn [In].
      destruct (decide (y = x)) as [-> | Hne]; [tauto |].
      split; [tauto |]. intros [[? | ?] ?]; [contradiction | right; tauto].
Qed.

Lemma drop_duplicates_from_NoDup {A} `{EqDecision A} (l : list A) :
  forall seen : list A, List.NoDup (DataService.drop_duplicates_from seen l).
Proof.
  induction l as [| y l IH]; intros seen; cbn [DataService.drop_duplicates_from].
  - constructor.
  - destruct (bool_decide (y ∈ seen)); [apply IH |].
    constructor; [| apply IH].
    rewrite drop_duplicates_from_In. cbn. tauto.
Qed.

Lemma drop_duplicates_In {A} `{EqDecision A} (l : list A) (x : A) :
  In x (DataService.drop_duplicates l) <-> In x l.
Proof. unfold DataService.drop_duplicates. rewrite drop_duplicates_from_In. cbn. tauto. Qed.

Lemma StronglySorted_le_NoDup_lt (l : list Z) :
  StronglySorted Z.le l -> List.NoDup l -> StronglySorted Z.lt l.
Proof.
  induction 1 as [| x l HS IH HF]; intros Hnd; constructor.
  - apply IH. now inversion Hnd.
  - inversion Hnd as [| ? ? Hx Hl]; subst.
    rewrite List.Forall_forall in HF |- *. intros y Hy.
    specialize (HF y Hy). assert (x <> y) by (intros ->; contradiction). lia.
Qed.

(** X17. On a loaded service get_available_months lists exactly the month
    ids that occur in the primary table, each once, in strictly increasing
    order; a service that is not loaded has no available months. *)
Theorem available_months_sorted_distinct (ds : DataService.t) :
  (DataService.is_loaded ds = false -> DataService.get_available_months ds = []) /\
  (forall pgm,
     DataService.is_loaded ds = true -> DataService.pgm_data ds = Some pgm ->
     StronglySorted Z.lt (DataService.get_available_months ds) /\
     forall m, In m (DataService.get_available_months ds) <->
               exists r, In r pgm /\ Pgm.month_id r = m).
Proof.
  unfold DataService.get_available_months. split.
  - intros ->. reflexivity.
  - intros pgm -> ->.
    set (u := DataService.drop_duplicates (map Pgm.month_id pgm)).
    pose proof (merge_sort_Permutation Z.le u) as Hperm.
    split.
    + apply StronglySorted_le_NoDup_lt.
      * apply StronglySorted_merge_sort; typeclasses eauto.
      * apply NoDup_ListNoDup. rewrite Hperm. apply NoDup_ListNoDup.
        apply drop_duplicates_from_NoDup.
    + intros m. rewrite <- list_elem_of_In, Hperm, list_elem_of_In.
      unfold u. rewrite drop_duplicates_In, in_map_iff.
      split; intros (r & H1 & H2); exists r; tauto.
Qed.

Lemma available_months_sorted_distinct_witness :
  StronglySorted Z.lt (DataService.get_available_months Example.store).
Proof.
  destruct (available_months_sorted_distinct Example.store) as [_ H].
  destruct (H _ eq_refl eq_refl) as [Hs _]. exact Hs.
Defined.

(** ** The month filter *)

Lemma or_else_falsy (a : option Z) (b : result Z) :
  Py.truthy_int a = false -> or_else a b = b.
Proof.
  destruct a as [v |]; [| reflexivity]. cbn.
  destruct (v =? 0); [reflexivity | discriminate].
Qed.

(** X18. The month filter of the two query methods. Without bounds (or
    with both bounds 0, which are falsy) there is no filter at all. With
    non-zero bounds the filter is the list of the available months m with
    start <= m <= end. With only one non-zero bound on a service without
    available months, the missing bound is taken from min() or max() of an
    empty list, and the call fails with ValueError. *)
Theorem month_filter_cases (ds : DataService.t) (month_start month_end : option Z) :
  (Py.truthy_int month_start = false -> Py.truthy_int month_end = false ->
   month_filter ds month_start month_end = Ok None) /\
  (forall s e, month_start = Some s -> month_end = Some e -> s <> 0 -> e <> 0 ->
     month_filter ds month_start month_end =
       Ok (Some (List.filter (fun m => (s <=? m) && (m <=? e))
                             (DataService.get_available_months ds)))) /\
  (DataService.get_available_months ds = [] ->
   (Py.truthy_int month_start = false -> Py.truthy_int month_end = true ->
    month_filter ds month_start month_end =
      Err (ValueError "min() arg is an empty sequence")) /\
   (Py.truthy_int month_start = true -> Py.truthy_int month_end = false ->
    month_filter ds month_start month_end =
      Err (ValueError "max() arg is an empty sequence"))).
Proof.
  unfold month_filter. split; [| split].
  - intros -> ->. reflexivity.
  - intros s e -> -> Hs He. cbn [Py.truthy_int or_else].
    destruct (Z.eqb_spec s 0); [contradiction |].
    destruct (Z.eqb_spec e 0); [contradiction |]. reflexivity.
  - intros Hnone. rewrite Hnone. split.
    + intros Hs He. rewrite Hs, He. cbn [orb].
      rewrite (or_else_falsy month_start) by exact Hs. reflexivity.
    + intros Hs He. rewrite Hs, He. cbn [orb].
      destruct month_start as [s |]; [| discriminate]. cbn in Hs |- *.
      destruct (s =? 0); [discriminate |].
      rewrite (or_else_falsy month_end) by exact He. reflexivity.
Qed.

Lemma month_filter_cases_witness :
  month_filter Example.store (Some 0) None = Ok None /\
  month_filter Example.store (Some 549) (Some 600) = Ok (Some [549]).
Proof.
  destruct (month_filter_cases Example.store (Some 0) None) as (H1 & _ & _).
  destruct (month_filter_cases Example.store (Some 549) (Some 600)) as (_ & H2 & _).
  split.
  - apply H1; reflexivity.
  - rewrite (H2 549 600 eq_refl eq_refl); [| discriminate | discriminate].
    vm_compute. reflexivity.
Defined.

(** ** Queries by country *)

(** X19. A country query on a loaded service: a country without grid
    cells in the mapping (absent, or mapped to the empty list) fails with
    DataNotFoundError naming the country id and leaves the generator
    untouched; a country with grid cells is answered exactly as the grid
    query for the cells of the mapping. *)
Theorem country_query_cases
    (ds : DataService.t) (country_id : Z) (month_start month_end : option Z)
    (metrics : Schemas.MetricSelection) (rng : MT19937.mt19937_state) :
  DataService.is_loaded ds = true ->
  (default [] (Py.dict_get (DataService.country_grid_mapping ds) country_id) = [] ->
   get_forecasts_by_country ds country_id month_start month_end metrics rng =
     (Err (DataNotFoundError
             ("No grid cells found for country ID: " +:+ Py.str country_id)), rng)) /\
  (forall g gs,
     Py.dict_get (DataService.country_grid_mapping ds) country_id = Some (g :: gs) ->
     get_forecasts_by_country ds country_id month_start month_end metrics rng =
     get_forecasts_by_grid ds (g :: gs) month_start month_end metrics rng).
Proof.
  intros Hl. unfold get_forecasts_by_country, DataService.get_country_grids.
  rewrite Hl. cbn [negb]. cbv zeta. split.
  - intros ->. reflexivity.
  - intros g gs ->. cbn [default]. unfold get_forecasts_by_grid.
    destruct (month_filter ds month_start month_end); reflexivity.
Qed.

Lemma country_query_cases_witness :
  get_forecasts_by_country Example.store 999 None None
    Schemas.MetricSelection_default Example.rng0 =
    (Err (DataNotFoundError "No grid cells found for country ID: 999"), Example.rng0).
Proof.
  destruct (country_query_cases Example.store 999 None None
              Schemas.MetricSelection_default Example.rng0 eq_refl) as [H _].
  apply H. reflexivity.
Defined.

(** X20. get_countries never fails: it returns the available countries
    unchanged and in order, each with the number of grid cells the mapping
    has for it, which is 0 for a country the mapping does not know. *)
Theorem get_countries_counts (ds : DataService.t) :
  map fst (get_countries ds) = DataService.get_available_countries ds /\
  Forall (fun cn : Country.info * Z =>
            cn.2 = Z.of_nat (length (default []
                      (Py.dict_get (DataService.country_grid_mapping ds)
                         (Country.info_country_id cn.1)))))
         (get_countries ds).
Proof.
  unfold get_countries. split.
  - rewrite map_map. rewrite <- (map_id (DataService.get_available_countries ds)) at 2.
    apply map_ext. intros c.
    destruct (DataService.get_country_grids ds _) as [l | []]; reflexivity.
  - apply Forall_forall. intros cn Hin. apply list_elem_of_In in Hin.
    apply in_map_iff in Hin. destruct Hin as (c & <- & Hc).
    assert (Hl : DataService.is_loaded ds = true).
    { unfold DataService.get_available_countries in Hc.
      destruct (DataService.is_loaded ds); [reflexivity | destruct Hc]. }
    unfold DataService.get_country_grids. rewrite Hl. cbn [negb]. cbv zeta.
    destruct (default [] (Py.dict_get (DataService.country_grid_mapping ds)
                                      (Country.info_country_id c)))
      as [| g gs] eqn:E; cbn [fst snd]; rewrite E; reflexivity.
Qed.

(** ** The handlers of the forecast routes *)

Lemma drop_duplicates_from_length {A} `{EqDecision A} (l : list A) :
  forall seen : list A,
    (length (DataService.drop_duplicates_from seen l) <= length l)%nat.
Proof.
  induction l as [| y l IH]; intros seen; cbn [DataService.drop_duplicates_from length].
  - lia.
  - destruct (bool_decide (y ∈ seen)).
    + specialize (IH seen). lia.
    + cbn [length]. specialize (IH (y :: seen)). lia.
Qed.

Lemma grid_query_Err
    (ds : DataService.t) (grid_ids : list Z) (month_start month_end : option Z)
    (metrics : Schemas.MetricSelection) (rng : MT19937.mt19937_state) (e : exception) :
  fst (get_forecasts_by_grid ds grid_ids month_start month_end metrics rng) = Err e ->
  raised_by_query e \/ exists msg, e = ValueError msg.
Proof.
  unfold get_forecasts_by_grid, month_filter.
  destruct (Py.truthy_int month_start || Py.truthy_int month_end).
  - destruct (or_else month_start _) as [s | e1] eqn:E1.
    + destruct (or_else month_end _) as [e2 | e2] eqn:E2.
      * intros H. left. eapply get_enriched_forecasts_Err. exact H.
      * intros H. injection H as <-. right.
        unfold or_else, max_list in E2.
        destruct month_end as [v |];
          [destruct (v =? 0); [| discriminate] |];
          (destruct (DataService.get_available_months ds);
           [injection E2 as <-; eexists; reflexivity | discriminate]).
    + intros H. injection H as <-. right.
      unfold or_else, min_list in E1.
      destruct month_start as [v |];
        [destruct (v =? 0); [| discriminate] |];
        (destruct (DataService.get_available_months ds);
         [injection E1 as <-; eexists; reflexivity | discriminate]).
  - intros H. left. eapply get_enriched_forecasts_Err. exact H.
Qed.

Lemma grid_query_Ok_nonempty
    (ds : DataService.t) (grid_ids : list Z) (month_start month_end : option Z)
    (metrics : Schemas.MetricSelection) (rng : MT19937.mt19937_state)
    (out : list Schemas.GridCellData) :
  fst (get_forecasts_by_grid ds grid_ids month_start month_end metrics rng) = Ok out ->
  out <> [].
Proof.
  unfold get_forecasts_by_grid.
  destruct (month_filter ds month_start month_end) as [month_ids | e]; [| discriminate].
  intros H. apply get_enriched_forecasts_cells in H.
  destruct H as (? & ? & _ & _ & Hne & _). exact Hne.
Qed.

(** X21. The handler of the grid route, once FastAPI has validated the
    request and called it (a request that fails that validation is
    answered 422 before the handler runs, which is outside this
    statement): the handler returns a ForecastResponse or raises
    HTTPException 404 or 500, and never the 400 of its second except
    clause. A returned response carries at least one record, total_cells
    is the number of records and months_covered lies between 1 and
    total_cells; 404 is raised exactly for DataNotFoundError, with its
    message as detail; every other failure (a missing table, a coordinate
    rejected by the schema, min() or max() of no months) is a 500 with the
    detail "Internal server error". *)
Theorem grid_handler_status
    (ds : DataService.t) (grid_ids : list Z) (month_start month_end : option Z)
    (metrics : Schemas.MetricSelection) (rng : MT19937.mt19937_state) :
  match fst (Main.get_forecasts_by_grid ds grid_ids month_start month_end metrics rng) with
  | Main.Response body =>
      fst (get_forecasts_by_grid ds grid_ids month_start month_end metrics rng) =
        Ok (Main.data body) /\
      Main.data body <> [] /\
      Main.total_cells body = Z.of_nat (length (Main.data body)) /\
      1 <= Main.months_covered body <= Main.total_cells body
  | Main.HTTPException status detail =>
      (status = 404 /\
       fst (get_forecasts_by_grid ds grid_ids month_start month_end metrics rng) =
         Err (DataNotFoundError detail)) \/
      (status = 500 /\ detail = "Internal server error" /\
       exists e, fst (get_forecasts_by_grid ds grid_ids month_start month_end metrics rng) =
                   Err e /\
                 forall msg, e <> DataNotFoundError msg)
  end.
Proof.
  unfold Main.get_forecasts_by_grid.
  pose proof (grid_query_Err ds grid_ids month_start month_end metrics rng) as HErr.
  pose proof (grid_query_Ok_nonempty ds grid_ids month_start month_end metrics rng) as HOk.
  destruct (get_forecasts_by_grid ds grid_ids month_start month_end metrics rng)
    as [[out | e] rng2].
  - cbn [fst] in *. specialize (HOk out eq_refl).
    cbn [Main.respond fst Main.data Main.total_cells Main.months_covered].
    split; [reflexivity |]. split; [exact HOk |]. split; [reflexivity |].
    destruct out as [| c out]; [congruence |].
    pose proof (drop_duplicates_from_length (map Schemas.month_id (c :: out)) []) as Hlen.
    rewrite length_map in Hlen.
    unfold DataService.drop_duplicates in *.
    cbn [map DataService.drop_duplicates_from] in *.
    change (bool_decide (Schemas.month_id c ∈ [])) with false in *.
    cbn [length] in *. lia.
  - cbn [fst] in *. specialize (HErr e eq_refl).
    destruct e; cbn [Main.respond];
      try (left; split; reflexivity);
      try (right; split; [reflexivity |]; split; [reflexivity |];
           eexists; split; [reflexivity | discriminate]).
    destruct HErr as [[] | [? ?]]. discriminate.
Qed.

(** ** The synthetic coordinate table *)

Lemma synthetic_coordinate_rows_spec (unique_grids : list Z) :
  forall (i : Z) (rng : MT19937.mt19937_state),
    map Coord.priogrid_id (fst (DataService.synthetic_coordinate_rows i unique_grids rng)) =
      unique_grids /\
    Forall (fun c =>
              exists la lo k,
                row_coordinates c = Some (la, lo) /\
                ((-60 <= la) /\ (la < 70) /\ (-180 <= lo) /\ (lo < 180))%Q /\
                Coord.country_id c = Some k /\ 1 <= k <= 5)
           (fst (DataService.synthetic_coordinate_rows i unique_grids rng)).
Proof.
  induction unique_grids as [| g l IH]; intros i rng.
  - cbn. split; [reflexivity | constructor].
  - cbn [DataService.synthetic_coordinate_rows].
    pose proof (uniform_range (-60) 70 rng ltac:(lra)) as [Hla1 Hla2].
    destruct (MT19937.uniform (-60) 70 rng) as [la rng1]. cbn [fst] in Hla1, Hla2.
    pose proof (uniform_range (-180) 180 rng1 ltac:(lra)) as [Hlo1 Hlo2].
    destruct (MT19937.uniform (-180) 180 rng1) as [lo rng2]. cbn [fst] in Hlo1, Hlo2.
    specialize (IH (i + 1) rng2).
    destruct (DataService.synthetic_coordinate_rows (i + 1) l rng2) as [data rng3].
    cbn [fst] in *. destruct IH as [IH1 IH2]. split.
    + cbn [map Coord.priogrid_id]. now rewrite IH1.
    + constructor; [| exact IH2].
      exists la, lo, (i mod 5 + 1). split; [reflexivity |].
      split; [repeat split; assumption |]. split; [reflexivity |].
      pose proof (Z.mod_pos_bound i 5 ltac:(lia)). lia.
Qed.

(** X22. _create_synthetic_coordinates_from_pgm. Without primary data it
    changes nothing. With primary data it replaces the coordinate table by
    one row per distinct grid id of the primary table, in order of first
    occurrence, each with a latitude in [-60, 70), a longitude in
    [-180, 180) (so every row passes the schema validation) and a country
    id in 1..5; the other tables are kept; and because it reseeds the
    generator with 42, the table and the generator state it leaves do not
    depend on the state before the call. *)
Theorem synthetic_coordinate_table (ds : DataService.t) (rng : MT19937.mt19937_state) :
  (DataService.pgm_data ds = None ->
   DataService._create_synthetic_coordinates_from_pgm ds rng = (ds, rng)) /\
  (forall pgm,
     DataService.pgm_data ds = Some pgm ->
     let ds' := fst (DataService._create_synthetic_coordinates_from_pgm ds rng) in
     (exists data,
        DataService.timeseries_data ds' = Some data /\
        map Coord.priogrid_id data = DataService.drop_duplicates (map Pgm.pg_id pgm) /\
        Forall (fun c =>
                  exists la lo k,
                    row_coordinates c = Some (la, lo) /\
                    ((-60 <= la) /\ (la < 70) /\ (-180 <= lo) /\ (lo < 180))%Q /\
                    coordinates_valid c /\
                    Coord.country_id c = Some k /\ 1 <= k <= 5) data) /\
     DataService.pgm_data ds' = Some pgm /\
     DataService.hdi_data ds' = DataService.hdi_data ds /\
     DataService.country_data ds' = DataService.country_data ds /\
     DataService.is_loaded ds' = DataService.is_loaded ds /\
     forall rng2,
       DataService._create_synthetic_coordinates_from_pgm ds rng2 =
       DataService._create_synthetic_coordinates_from_pgm ds rng).
Proof.
  unfold DataService._create_synthetic_coordinates_from_pgm. split.
  - intros ->. reflexivity.
  - intros pgm Hpgm. rewrite Hpgm. cbv zeta.
    pose proof (synthetic_coordinate_rows_spec
                  (DataService.drop_duplicates (map Pgm.pg_id pgm)) 0
                  (MT19937.mt19937_seed 42)) as [H1 H2].
    destruct (DataService.synthetic_coordinate_rows 0 _ (MT19937.mt19937_seed 42))
      as [data rng3].
    cbn [fst] in *.
    cbn [DataService.timeseries_data DataService.pgm_data DataService.hdi_data
         DataService.country_data DataService.is_loaded].
    split.
    + exists data. split; [reflexivity |]. split; [exact H1 |].
      eapply Forall_impl; [exact H2 |].
      intros c (la & lo & k & Hrc & Hr & Hk & Hk5).
      exists la, lo, k. split; [exact Hrc |]. split; [exact Hr |].
      split; [| split; assumption].
      unfold coordinates_valid. rewrite Hrc. repeat split; lra.
    + repeat split; reflexivity.
Qed.

Lemma synthetic_coordinate_table_witness :
  exists data,
    DataService.timeseries_data
      (fst (DataService._create_synthetic_coordinates_from_pgm Example.store Example.rng0)) =
      Some data /\
    map Coord.priogrid_id data = [62356; 62357; 62358].
Proof.
  destruct (synthetic_coordinate_table Example.store Example.rng0) as [_ H].
  destruct (H _ eq_refl) as [(data & Hd & Hids & _) _].
  exists data. split; [exact Hd |]. rewrite Hids. vm_compute. reflexivity.
Defined.

(** X23. After _create_synthetic_coordinates_from_pgm the coordinate table
    never makes a query fail: on the resulting service (loaded, with an
    uncertainty table, and a primary table without missing [main_dich]
    cell: the column is given in every row or in none, and on a NaN cell
    of it the code raises) every query that selects a primary row returns
    records, because every row of the table passes the schema validation. *)
Theorem synthetic_coordinate_table_serves_queries
    (ds : DataService.t) (rng0 rng : MT19937.mt19937_state)
    (grid_ids : list Z) (month_ids : option (list Z))
    (metrics : Schemas.MetricSelection) (pgm : list Pgm.row) (full : list Hdi.row) :
  DataService.is_loaded ds = true ->
  DataService.pgm_data ds = Some pgm ->
  DataService.hdi_data ds = Some full ->
  Frame.column Pgm.main_dich pgm = true ->
  List.filter (fun r => selected grid_ids month_ids (Pgm.pg_id r) (Pgm.month_id r)) pgm <> [] ->
  exists out,
    fst (_get_enriched_forecasts
           (fst (DataService._create_synthetic_coordinates_from_pgm ds rng0))
           grid_ids month_ids metrics rng) = Ok out.
Proof.
  intros Hl Hpgm Hfull _ Hsel.
  set (ds' := fst (DataService._create_synthetic_coordinates_from_pgm ds rng0)).
  assert (Hds' : DataService.is_loaded ds' = true /\ DataService.pgm_data ds' = Some pgm /\
                 DataService.hdi_data ds' = Some full /\
                 forall ts c, DataService.timeseries_data ds' = Some ts -> In c ts ->
                              coordinates_valid c).
  { unfold ds', DataService._create_synthetic_coordinates_from_pgm. rewrite Hpgm. cbv zeta.
    pose proof (synthetic_coordinate_rows_spec
                  (DataService.drop_duplicates (map Pgm.pg_id pgm)) 0
                  (MT19937.mt19937_seed 42)) as [_ H2].
    destruct (DataService.synthetic_coordinate_rows 0 _ (MT19937.mt19937_seed 42))
      as [data rng3].
    cbn [fst] in *.
    cbn [DataService.timeseries_data DataService.pgm_data DataService.hdi_data
         DataService.is_loaded].
    repeat split; try assumption.
    intros ts c Hts Hin. injection Hts as <-.
    rewrite Forall_forall in H2. apply list_elem_of_In in Hin.
    destruct (H2 c Hin) as (la & lo & k & Hrc & Hr & _).
    unfold coordinates_valid. rewrite Hrc. repeat split; lra. }
  destruct Hds' as (Hl' & Hpgm' & Hfull' & Hvalid).
  clear Hl Hpgm Hfull. revert Hl' Hpgm' Hfull' Hsel Hvalid. generalize ds'. clear ds'.
  intros ds' Hl Hpgm Hfull Hsel Hvalid.
  unfold _get_enriched_forecasts.
  destruct (DataService.get_grid_data ds' grid_ids month_ids) as [main_data | e] eqn:Hm.
  - cbv zeta. unfold DataService.get_hdi_data. rewrite Hfull.
    apply enrich_rows_succeeds.
    intros g c Hc. apply coord_lookup_of_Some in Hc.
    destruct Hc as (Hkey & ts & Hts & Hin). split; [exact Hkey |].
    eapply Hvalid; eassumption.
  - exfalso. unfold DataService.get_grid_data in Hm. rewrite Hl, Hpgm in Hm.
    cbn [negb] in Hm. cbv zeta in Hm.
    assert (Hq : List.filter
                   (match month_ids with
                    | Some (m :: ms) =>
                        fun r : Pgm.row =>
                          Py.isin (Pgm.pg_id r) grid_ids && Py.isin (Pgm.month_id r) (m :: ms)
                    | _ => fun r : Pgm.row => Py.isin (Pgm.pg_id r) grid_ids
                    end) pgm =
                 List.filter
                   (fun r => selected grid_ids month_ids (Pgm.pg_id r) (Pgm.month_id r)) pgm).
    { apply filter_ext. intros r. unfold selected.
      destruct month_ids as [[| m ms] |]; try reflexivity; now rewrite andb_true_r. }
    rewrite Hq in Hm. clear Hq.
    destruct (List.filter _ pgm); [congruence | discriminate].
Qed.

Lemma synthetic_coordinate_table_serves_queries_witness :
  exists out,
    fst (_get_enriched_forecasts
           (fst (DataService._create_synthetic_coordinates_from_pgm
                   store_with_bad_latitude Example.rng0))
           [62357] None Schemas.MetricSelection_default Example.rng0) = Ok out.
Proof.
  apply (synthetic_coordinate_table_serves_queries store_with_bad_latitude
           Example.rng0 Example.rng0 [62357] None Schemas.MetricSelection_default
           _ _ eq_refl eq_refl eq_refl eq_refl).
  vm_compute. discriminate.
Defined.

(** ** A service without uncertainty table *)

(** X24. Without an uncertainty table (hdi_data is None) a query that
    selects at least one primary row fails in the first iteration of the
    loop with KeyError 'priogrid_id', because get_hdi_data then returns a
    frame without columns; the generator is left untouched and the grid
    endpoint answers 500. *)
Theorem missing_uncertainty_table_key_error
    (ds : DataService.t) (grid_ids : list Z) (month_ids : option (list Z))
    (metrics : Schemas.MetricSelection) (rng : MT19937.mt19937_state)
    (pgm : list Pgm.row) :
  DataService.is_loaded ds = true ->
  DataService.pgm_data ds = Some pgm ->
  DataService.hdi_data ds = None ->
  List.filter (fun r => selected grid_ids month_ids (Pgm.pg_id r) (Pgm.month_id r)) pgm <> [] ->
  _get_enriched_forecasts ds grid_ids month_ids metrics rng =
    (Err (KeyError "priogrid_id"), rng) /\
  Main.respond (fst (_get_enriched_forecasts ds grid_ids month_ids metrics rng)) =
    Main.HTTPException 500 "Internal server error".
Proof.
  intros Hl Hpgm Hhdi Hsel.
  assert (H : _get_enriched_forecasts ds grid_ids month_ids metrics rng =
              (Err (KeyError "priogrid_id"), rng)).
  { unfold _get_enriched_forecasts.
    destruct (DataService.get_grid_data ds grid_ids month_ids) as [main_data | e] eqn:Hm.
    - cbv zeta. unfold DataService.get_hdi_data. rewrite Hhdi.
      apply get_grid_data_Ok in Hm. destruct Hm as (? & _ & _ & Hne & _).
      destruct main_data as [| row rows]; [congruence |]. reflexivity.
    - exfalso. unfold DataService.get_grid_data in Hm. rewrite Hl, Hpgm in Hm.
      cbn [negb] in Hm. cbv zeta in Hm.
      assert (Hq : List.filter
                     (match month_ids with
                      | Some (m :: ms) =>
                          fun r : Pgm.row =>
                            Py.isin (Pgm.pg_id r) grid_ids && Py.isin (Pgm.month_id r) (m :: ms)
                      | _ => fun r : Pgm.row => Py.isin (Pgm.pg_id r) grid_ids
                      end) pgm =
                   List.filter
                     (fun r => selected grid_ids month_ids (Pgm.pg_id r) (Pgm.month_id r)) pgm).
      { apply filter_ext. intros r. unfold selected.
        destruct month_ids as [[| m ms] |]; try reflexivity; now rewrite andb_true_r. }
      rewrite Hq in Hm. clear Hq.
      destruct (List.filter _ pgm); [congruence | discriminate]. }
  split; [exact H |]. rewrite H. reflexivity.
Qed.

Lemma missing_uncertainty_table_key_error_witness :
  _get_enriched_forecasts store_without_uncertainty [62356] None
    Schemas.MetricSelection_default Example.rng0 =
    (Err (KeyError "priogrid_id"), Example.rng0).
Proof.
  destruct (missing_uncertainty_table_key_error store_without_uncertainty [62356] None
              Schemas.MetricSelection_default Example.rng0 _ eq_refl eq_refl eq_refl)
    as [H _].
  - vm_compute. discriminate.
  - exact H.
Defined.

(** ** The handler of the country route *)

Lemma country_query_Err
    (ds : DataService.t) (country_id : Z) (month_start month_end : option Z)
    (metrics : Schemas.MetricSelection) (rng : MT19937.mt19937_state) (e : exception) :
  fst (get_forecasts_by_country ds country_id month_start month_end metrics rng) = Err e ->
  raised_by_query e \/ exists msg, e = ValueError msg.
Proof.
  unfold get_forecasts_by_country.
  destruct (DataService.get_country_grids ds country_id) as [grid_ids | e'] eqn:Hg.
  - intros H. apply (grid_query_Err ds grid_ids month_start month_end metrics rng).
    unfold get_forecasts_by_grid. exact H.
  - intros H. injection H as <-. left.
    unfold DataService.get_country_grids in Hg.
    destruct (negb _); [injection Hg as <-; exact I |].
    cbv zeta in Hg. destruct (default [] _); [injection Hg as <-; exact I | discriminate].
Qed.

(** X25. The handler of the country route, once FastAPI has validated the
    request and called it (a request that fails that validation, such as
    a country id that is no integer, is answered 422 before the handler
    runs, which is outside this statement): the handler returns a
    ForecastResponse or raises HTTPException 404 or 500, and never the 400
    of its second except clause: 404 exactly for DataNotFoundError
    (unknown country, data not loaded, no selected row), with the message
    as detail, 500 with the detail "Internal server error" for every other
    failure, and a returned response has total_cells equal to the number
    of its records. *)
Theorem country_handler_status
    (ds : DataService.t) (country_id : Z) (month_start month_end : option Z)
    (metrics : Schemas.MetricSelection) (rng : MT19937.mt19937_state) :
  match fst (Main.get_forecasts_by_country ds country_id month_start month_end metrics rng)
  with
  | Main.Response body =>
      fst (get_forecasts_by_country ds country_id month_start month_end metrics rng) =
        Ok (Main.data body) /\
      Main.total_cells body = Z.of_nat (length (Main.data body))
  | Main.HTTPException status detail =>
      (status = 404 /\
       fst (get_forecasts_by_country ds country_id month_start month_end metrics rng) =
         Err (DataNotFoundError detail)) \/
      (status = 500 /\ detail = "Internal server error" /\
       exists e,
         fst (get_forecasts_by_country ds country_id month_start month_end metrics rng) =
           Err e /\
         forall msg, e <> DataNotFoundError msg)
  end.
Proof.
  unfold Main.get_forecasts_by_country.
  pose proof (country_query_Err ds country_id month_start month_end metrics rng) as HErr.
  destruct (get_forecasts_by_country ds country_id month_start month_end metrics rng)
    as [[out | e] rng2].
  - cbn [fst Main.respond Main.data Main.total_cells]. split; reflexivity.
  - cbn [fst] in *. specialize (HErr e eq_refl).
    destruct e; cbn [Main.respond];
      try (left; split; reflexivity);
      try (right; split; [reflexivity |]; split; [reflexivity |];
           eexists; split; [reflexivity | discriminate]).
    destruct HErr as [[] | [? ?]]. discriminate.
Qed.

Lemma GridCellData_init_spec_witness :
  Schemas.GridCellData_init (cell_at 90%Q (-180)%Q) = Ok (cell_at 90%Q (-180)%Q) /\
  exists msg, Schemas.GridCellData_init (cell_at 95%Q 12%Q) = Err (PydanticValidationError msg).
Proof.
  split.
  - destruct (GridCellData_init_spec (cell_at 90%Q (-180)%Q)) as (H & _ & _).
    apply H. cbn. repeat split; discriminate.
  - destruct (GridCellData_init_spec (cell_at 95%Q 12%Q)) as (_ & _ & H).
    apply H. cbn. intros [[_ Hle] _]. apply Hle. reflexivity.
Defined.
